(** * metabase-mcp: the discovery/search pipeline and the request gateway

    A shallow embedding of [src/server.py], the server of the package: the
    request gateway [MetabaseClient.request] and the tools
    [find_candidate_collections], [search_cards_in_collections] and
    [list_cards_paginated], with the Python operations they rely on
    ([str.strip], [str.lower], [in], [dict.get], [or], [list.sort], slicing).
    The top-level [server.py] has the same three tool bodies, word for word,
    behind an older gateway.

    The second part of the definitions embeds more of the server: the
    listing tools ([list_cards_by_collection] and the three that return
    what the gateway returns), the query string of [search_metabase] with
    [urllib.parse.urlencode], the field limit of [get_table_fields], the
    markdown of [list_tables], and the older gateway of the top-level
    [server.py] with its login ([Legacy]).

    Conventions of the embedding.
    - A Python [str] is a [string] whose characters are the code points
      U+0000 to U+00FF; [lower] and [strip] follow CPython on that range.
    - A decoded JSON scalar is a [pyval]; numbers are integers.  A JSON
      object is a [gmap string pyval]; the fields the tools read hold
      scalars in the upstream API.  An entry of an upstream list is [None]
      or an object.
    - A Python exception is a value of [exn]; code that may raise returns a
      [result].  The network is an explicit [world] that is threaded through
      the tools. *)

From Stdlib Require Import ZArith Ascii String List Sorting.Sorted.
From stdpp Require Import base decidable option list gmap strings pretty sorting.

Local Open Scope string_scope.
Local Open Scope list_scope.
Local Open Scope Z_scope.

(** ** Python strings *)

Module PyStr.

Definition code (c : ascii) : N := N_of_ascii c.

(** [str.isspace] on one character, as [str.strip()] uses it: the ASCII
    controls TAB..CR and FS..US, the space, U+0085 and U+00A0. *)
Definition is_space (c : ascii) : bool :=
  let n := code c in
  ((9 <=? n) && (n <=? 13) || (28 <=? n) && (n <=? 32)
   || (n =? 133) || (n =? 160))%N.

(** [str.lower] on one character: A..Z and the Latin-1 capitals U+00C0 to
    U+00DE (U+00D7, the multiplication sign, excepted) move up by 32. *)
Definition lower_char (c : ascii) : ascii :=
  let n := code c in
  if ((65 <=? n) && (n <=? 90)
      || (192 <=? n) && (n <=? 222) && negb (n =? 215))%N
  then ascii_of_N (n + 32) else c.

Fixpoint lower (s : string) : string :=
  match s with
  | EmptyString => EmptyString
  | String c s' => String (lower_char c) (lower s')
  end.

Fixpoint lstrip (s : string) : string :=
  match s with
  | EmptyString => EmptyString
  | String c s' => if is_space c then lstrip s' else s
  end.

Definition rstrip (s : string) : string :=
  String.rev (lstrip (String.rev s)).

(** [s.strip()] *)
Definition strip (s : string) : string := rstrip (lstrip s).

(** [s.rstrip("/")] *)
Fixpoint lstrip_char (x : ascii) (s : string) : string :=
  match s with
  | EmptyString => EmptyString
  | String c s' => if Ascii.eqb c x then lstrip_char x s' else s
  end.

Definition rstrip_char (x : ascii) (s : string) : string :=
  String.rev (lstrip_char x (String.rev s)).

(** [needle in hay] on two strings. *)
Fixpoint contains (needle hay : string) : bool :=
  String.prefix needle hay
  || match hay with
     | EmptyString => false
     | String _ hay' => contains needle hay'
     end.

(** [s < t]: the order of the code points, lexicographically. *)
Definition ltb (s t : string) : bool := String.ltb s t.


End PyStr.

(** ** Decoded JSON scalars and objects *)

Inductive pyval : Type :=
| PNone
| PBool (b : bool)
| PInt (n : Z)
| PStr (s : string).

Global Instance pyval_eq_dec : EqDecision pyval.
Proof. solve_decision. Defined.

Global Instance pyval_inhabited : Inhabited pyval := populate PNone.

(** A Python [dict] with string keys. *)
Abbreviation dict := (gmap string pyval).

(** An entry of an upstream listing: [None] or an object. *)
Abbreviation item := (option (gmap string pyval)).

(** What [response.json()] decodes to, as far as the tools tell shapes
    apart: [isinstance(x, list)] or not.  A value that is not a list is kept
    as its text. *)
Inductive payload : Type :=
| PList (items : list item)
| PNonList (raw : string).

Module Py.

(** Truth value of a scalar: [None], [False], [0] and [""] are false. *)
Definition truthy (v : pyval) : bool :=
  match v with
  | PNone => false
  | PBool b => b
  | PInt n => negb (n =? 0)
  | PStr s => negb (String.eqb s "")
  end.

(** [a or b] *)
Definition or_ (a b : pyval) : pyval := if truthy a then a else b.

(** Truth value of a listing entry: [None] and [{}] are false. *)
Definition item_truthy (c : item) : bool :=
  match c with
  | None => false
  | Some d => negb (bool_decide (d = ∅))
  end.

(** [d.get(k)] *)
Definition get (d : dict) (k : string) : pyval := default PNone (d !! k).

(** [d.get(k, dflt)] *)
Definition get_or (d : dict) (k : string) (dflt : pyval) : pyval :=
  default dflt (d !! k).

(** The integer a number stands for; [bool] is a subclass of [int]. *)
Definition as_int (v : pyval) : option Z :=
  match v with
  | PInt n => Some n
  | PBool b => Some (Z.b2z b)
  | _ => None
  end.

(** [v == n] for an [int] [n]. *)
Definition eq_int (v : pyval) (n : Z) : bool :=
  match as_int v with
  | Some m => m =? n
  | None => false
  end.

End Py.

(** ** Exceptions *)

(** The failures [httpx] reports for a request that got no response. *)
Inductive httpx_error : Type :=
| ConnectTimeout (e : string)
| ReadTimeout (e : string)
| ConnectError (e : string)
| OtherTransportError (e : string).

Inductive exn : Type :=
| AttributeError
| TypeError
| JSONDecodeError
| Exception (msg : string)
| Httpx (e : httpx_error).

Inductive result (A : Type) : Type :=
| Ok (a : A)
| Raise (e : exn).
Arguments Ok {A} a.
Arguments Raise {A} e.

Global Instance result_ret : MRet result := fun _ a => Ok a.
Global Instance result_bind : MBind result := fun _ _ f m =>
  match m with
  | Ok a => f a
  | Raise e => Raise e
  end.

Definition is_ok {A} (r : result A) : bool :=
  match r with Ok _ => true | Raise _ => false end.

Module PyOps.

(** [v.lower()]: only a [str] has the method. *)
Definition lower (v : pyval) : result string :=
  match v with
  | PStr s => Ok (PyStr.lower s)
  | _ => Raise AttributeError
  end.

(** [c.get(k)] on a listing entry: [None] has no [get]. *)
Definition item_get (c : item) (k : string) : result pyval :=
  match c with
  | Some d => Ok (Py.get d k)
  | None => Raise AttributeError
  end.

(** [a < b] between two scalars: numbers with numbers, strings with
    strings; every other pair is a [TypeError]. *)
Definition less (a b : pyval) : result bool :=
  match a, b with
  | PStr s, PStr t => Ok (PyStr.ltb s t)
  | _, _ =>
      match Py.as_int a, Py.as_int b with
      | Some m, Some n => Ok (m <? n)
      | _, _ => Raise TypeError
      end
  end.

End PyOps.

(** ** Lists: [len], slicing and [list.sort] *)

Module PyList.

Definition len {A} (l : list A) : Z := Z.of_nat (length l).

(** A slice bound brought into [0, n], as CPython adjusts it for a step of
    one: a negative bound counts from the end and is cut at 0, a bound past
    the end is cut at [n]. *)
Definition adjust (n i : Z) : Z :=
  if i <? 0 then Z.max 0 (i + n) else Z.min i n.

(** [l[start:stop]]; an omitted bound is [None]. *)
Definition slice {A} (l : list A) (start stop : option Z) : list A :=
  let n := len l in
  let lo := match start with Some i => adjust n i | None => 0 end in
  let hi := match stop with Some i => adjust n i | None => n end in
  take (Z.to_nat (hi - lo)) (drop (Z.to_nat lo) l).

(** The key function is called once on every element, in order, before any
    comparison. *)
Fixpoint decorate {A} (key : A → result pyval) (l : list A)
  : result (list (pyval * A)) :=
  match l with
  | [] => Ok []
  | x :: l' =>
      k ← key x;
      d ← decorate key l';
      mret ((k, x) :: d)
  end.

(** Stable insertion by [<] on the keys: [x], which stood before every
    element of [l], moves behind an element only if that one's key is
    strictly smaller. *)
Fixpoint insert {A} (k : pyval) (x : A) (l : list (pyval * A))
  : result (list (pyval * A)) :=
  match l with
  | [] => Ok [(k, x)]
  | (k', y) :: l' =>
      b ← PyOps.less k' k;
      if b : bool then
        r ← insert k x l';
        mret ((k', y) :: r)
      else mret ((k, x) :: (k', y) :: l')
  end.

Fixpoint sort_keyed {A} (l : list (pyval * A)) : result (list (pyval * A)) :=
  match l with
  | [] => Ok []
  | (k, x) :: l' =>
      s ← sort_keyed l';
      insert k x s
  end.

(** [l.sort(key=key, reverse=reverse)]: a stable sort that only uses [<] on
    the keys; with [reverse] the list is reversed, sorted, and reversed
    again, so that equal keys keep their order.  A comparison that raises
    ends the sort. *)
Definition sort {A} (key : A → result pyval) (reverse : bool) (l : list A)
  : result (list A) :=
  d ← decorate key l;
  s ← sort_keyed (if reverse then list.reverse d else d);
  mret ((if reverse then list.reverse s else s).*2).

End PyList.

(** ** The request gateway *)

(** The resolved settings the gateway reads.  The two timeouts are floats;
    the gateway hands them to the HTTP library and prints them, so they are
    kept as the text Python prints. *)
Record Settings : Type := {
  METABASE_URL : string;
  METABASE_API_KEY : string;
  HTTP_CONNECT_TIMEOUT : string;
  HTTP_READ_TIMEOUT : string;
}.

(** An HTTP response as the gateway looks at it: [status_code], [content]
    (its text is [text]) and what [json()] gives, [None] when the body is
    not JSON. *)
Record response : Type := {
  status_code : Z;
  content : string;
  decoded : option payload;
}.

Inductive transport_result : Type :=
| Received (r : response)
| Failed (e : httpx_error).

(** The network: what the n-th request sent gets back, and the requests
    sent so far (method and URL, the latest first). *)
Record world : Type := {
  wire : nat → transport_result;
  sent : list (string * string);
}.

(** A tool runs against the world and returns or raises. *)
Definition Tool (A : Type) : Type := world → result A * world.

Global Instance tool_ret : MRet Tool := fun _ a w => (Ok a, w).
Global Instance tool_bind : MBind Tool := fun _ _ f m w =>
  match m w with
  | (Ok a, w') => f a w'
  | (Raise e, w') => (Raise e, w')
  end.

Definition lift {A} (r : result A) : Tool A := fun w => (r, w).

(** [client.request(method, url, ...)]: one request goes out. *)
Definition send (method url : string) : world → transport_result * world :=
  fun w =>
    (wire w (length (sent w)),
     {| wire := wire w; sent := (method, url) :: sent w |}).

Module MetabaseClient.

Definition base_url (settings : Settings) : string :=
  PyStr.rstrip_char "/" (METABASE_URL settings).

(** [response.is_success] *)
Definition is_success (r : response) : bool :=
  (200 <=? status_code r) && (status_code r <=? 299).

(** [response.text] *)
Definition text (r : response) : string := content r.

(** [response.json()] *)
Definition json (r : response) : result payload :=
  match decoded r with
  | Some v => Ok v
  | None => Raise JSONDecodeError
  end.

(** What [request] makes of the outcome of the one request it sends: the
    body of its [try] and the three [except] clauses. *)
Definition outcome (settings : Settings) (url : string) (t : transport_result)
  : result payload :=
  match t with
  | Received r =>
      if negb (is_success r) then
        error_data ←
          (if negb (String.eqb (content r) "") then json r
           else Ok (PNonList "{}"));
        let error_message :=
          "API request failed with status " +:+ pretty (status_code r)
          +:+ ": " +:+ text r in
        Raise (Exception error_message)
      else json r
  | Failed (ConnectTimeout e) =>
      Raise (Exception
        ("Connection timeout (" +:+ HTTP_CONNECT_TIMEOUT settings
         +:+ "s) when connecting to " +:+ url +:+ ": " +:+ e))
  | Failed (ReadTimeout e) =>
      Raise (Exception
        ("Read timeout (" +:+ HTTP_READ_TIMEOUT settings
         +:+ "s) when reading response from " +:+ url +:+ ": " +:+ e))
  | Failed (ConnectError e) =>
      Raise (Exception
        ("Connection error when connecting to " +:+ url +:+ ": " +:+ e))
  | Failed (OtherTransportError e) => Raise (Httpx (OtherTransportError e))
  end.

(** [MetabaseClient.request(method, path)] *)
Definition request (settings : Settings) (method path : string)
  : Tool payload :=
  fun w =>
    let url := base_url settings +:+ "/api" +:+ path in
    let '(t, w') := send method url w in
    (outcome settings url t, w').

End MetabaseClient.

(** ** The tools *)

Record FindResult : Type := {
  fc_query : string;
  fc_collections : list dict;
  fc_results : dict;
  fc_note : option string;
}.

Record SearchResult : Type := {
  sr_query : string;
  sr_collections_searched : list Z;
  sr_pagination : dict;
  sr_cards : list dict;
  sr_note : string;
}.

Record CardPage : Type := {
  cp_cards : list item;
  cp_pagination : dict;
  cp_filter : string;
}.

(** [list_cards_paginated] returns its own object for a list and hands any
    other upstream value back as it is. *)
Inductive ListCardsResult : Type :=
| Paged (page : CardPage)
| Unpaged (raw : string).

Section Tools.

Variable settings : Settings.

(** The object kept for a matched collection. *)
Definition matched_collection (collection : dict) : dict :=
  {[ "collection_id" := Py.get collection "id";
     "collection_name" := Py.get collection "name";
     "description" := Py.get collection "description";
     "parent_id" := Py.get collection "parent_id";
     "archived" := Py.get_or collection "archived" (PBool false) ]}.

(** The loop of [find_candidate_collections] over the upstream list;
    [matched_collections] is the list it appends to. *)
Fixpoint scan_collections (search_term : string) (collections : list item)
    (matched_collections : list dict) : result (list dict) :=
  match collections with
  | [] => Ok matched_collections
  | collection :: rest =>
      if negb (Py.item_truthy collection) then
        scan_collections search_term rest matched_collections
      else
        n ← PyOps.item_get collection "name";
        collection_name ← PyOps.lower (Py.or_ n (PStr ""));
        d ← PyOps.item_get collection "description";
        collection_desc ← PyOps.lower (Py.or_ d (PStr ""));
        if PyStr.contains search_term collection_name
           || PyStr.contains search_term collection_desc
        then
          scan_collections search_term rest
            (matched_collections
               ++ [matched_collection (default ∅ collection)])
        else scan_collections search_term rest matched_collections
  end.

(** The sort key of a matched collection:
    [x.get("collection_name", "").lower()]. *)
Definition collection_sort_key (x : dict) : result pyval :=
  s ← PyOps.lower (Py.get_or x "collection_name" (PStr ""));
  mret (PStr s).

Definition find_candidate_collections (query : string) (limit_collections : Z)
  : Tool FindResult :=
  collections ← MetabaseClient.request settings "GET" "/collection";
  match collections with
  | PNonList _ =>
      mret {| fc_query := query;
              fc_collections := [];
              fc_results :=
                {[ "total_collections_searched" := PInt 0;
                   "matched_collections" := PInt 0 ]};
              fc_note := None |}
  | PList collections =>
      let search_term := PyStr.lower (PyStr.strip query) in
      matched_collections ← lift (scan_collections search_term collections []);
      matched_collections ←
        lift (PyList.sort collection_sort_key false matched_collections);
      let limited_collections :=
        PyList.slice matched_collections None (Some limit_collections) in
      mret {| fc_query := query;
              fc_collections := limited_collections;
              fc_results :=
                {[ "total_collections_searched" := PInt (PyList.len collections);
                   "matched_collections" := PInt (PyList.len matched_collections);
                   "returned_collections" := PInt (PyList.len limited_collections) ]};
              fc_note :=
                Some "Collections matching query in name or description. Use search_cards_in_collections next." |}
  end.

(** [[card for card in all_cards if card.get("collection_id") == collection_id]] *)
Fixpoint collection_cards (collection_id : Z) (all_cards : list item)
  : result (list dict) :=
  match all_cards with
  | [] => Ok []
  | card :: rest =>
      v ← PyOps.item_get card "collection_id";
      cards ← collection_cards collection_id rest;
      mret (if Py.eq_int v collection_id
            then default ∅ card :: cards else cards)
  end.

(** The object kept for a matched card. *)
Definition matched_card (card : dict) : dict :=
  {[ "id" := Py.get card "id";
     "name" := Py.get card "name";
     "description" := Py.get card "description";
     "collection_id" := Py.get card "collection_id";
     "updated_at" := Py.get card "updated_at";
     "created_at" := Py.get card "created_at" ]}.

(** The inner loop of [search_cards_in_collections] over the cards of one
    collection.  [all_matches] is appended to in place: what was appended
    before an exception stays. *)
Fixpoint match_cards (search_term : string) (cards : list dict)
    (all_matches : list dict) : list dict * result unit :=
  match cards with
  | [] => (all_matches, Ok tt)
  | card :: rest =>
      match PyOps.lower (Py.or_ (Py.get card "name") (PStr "")) with
      | Raise e => (all_matches, Raise e)
      | Ok card_name =>
          match PyOps.lower (Py.or_ (Py.get card "description") (PStr "")) with
          | Raise e => (all_matches, Raise e)
          | Ok card_description =>
              if PyStr.contains search_term card_name
                 || PyStr.contains search_term card_description
              then match_cards search_term rest
                     (all_matches ++ [matched_card card])
              else match_cards search_term rest all_matches
          end
      end
  end.

(** One turn of the loop over [collection_ids]: the [try] block and its
    [except Exception: continue]. *)
Definition search_collection (search_term : string) (collection_id : Z)
    (all_matches : list dict) : Tool (list dict) :=
  fun w =>
    match MetabaseClient.request settings "GET" "/card" w with
    | (Ok (PList all_cards), w') =>
        match collection_cards collection_id all_cards with
        | Ok cards => (Ok (match_cards search_term cards all_matches).1, w')
        | Raise _ => (Ok all_matches, w')
        end
    | (Ok (PNonList _), w') => (Ok all_matches, w')
    | (Raise _, w') => (Ok all_matches, w')
    end.

Fixpoint search_collections (search_term : string) (collection_ids : list Z)
    (all_matches : list dict) : Tool (list dict) :=
  match collection_ids with
  | [] => mret all_matches
  | collection_id :: rest =>
      all_matches ← search_collection search_term collection_id all_matches;
      search_collections search_term rest all_matches
  end.

(** The sort key of a matched card: [x.get("updated_at") or ""]. *)
Definition card_sort_key (x : dict) : result pyval :=
  Ok (Py.or_ (Py.get x "updated_at") (PStr "")).

Definition search_cards_in_collections (query : string)
    (collection_ids : list Z) (limit offset : Z) : Tool SearchResult :=
  let search_term := PyStr.lower (PyStr.strip query) in
  all_matches ← search_collections search_term collection_ids [];
  all_matches ← lift (PyList.sort card_sort_key true all_matches);
  let total_found := PyList.len all_matches in
  let paginated_matches :=
    PyList.slice all_matches (Some offset) (Some (offset + limit)) in
  mret {| sr_query := query;
          sr_collections_searched := collection_ids;
          sr_pagination :=
            {[ "limit" := PInt limit;
               "offset" := PInt offset;
               "returned" := PInt (PyList.len paginated_matches);
               "total_found" := PInt total_found;
               "has_more" := PBool (offset + limit <? total_found) ]};
          sr_cards := paginated_matches;
          sr_note :=
            "Searched " +:+ pretty (PyList.len collection_ids)
            +:+ " collections for '" +:+ query +:+ "'. Found "
            +:+ pretty total_found +:+ " matching cards." |}.

Definition list_cards_paginated (limit offset : Z) (filter_type : string)
  : Tool ListCardsResult :=
  let query_string :=
    if negb (String.eqb filter_type "all") then "f=" +:+ filter_type else "" in
  let endpoint :=
    if negb (String.eqb query_string "") then "/card?" +:+ query_string
    else "/card" in
  result ← MetabaseClient.request settings "GET" endpoint;
  match result with
  | PList result =>
      let paginated_result :=
        PyList.slice result (Some offset) (Some (offset + limit)) in
      mret (Paged
        {| cp_cards := paginated_result;
           cp_pagination :=
             {[ "limit" := PInt limit;
                "offset" := PInt offset;
                "returned" := PInt (PyList.len paginated_result);
                "total_available" := PInt (PyList.len result);
                "has_more" := PBool (offset + limit <? PyList.len result) ]};
           cp_filter := filter_type |})
  | PNonList raw => mret (Unpaged raw)
  end.

End Tools.

(** ** Vocabulary of the statements *)

(** [a] may stand before [b] in ascending order: [b < a] is false. *)
Definition key_le (a b : pyval) : Prop := PyOps.less b a = Ok false.

Definition keyed_le {A} (p q : pyval * A) : Prop := key_le p.1 q.1.

(** Every key of a decorated list is a string. *)
Definition str_keys {A} (d : list (pyval * A)) : Prop :=
  Forall (fun p => ∃ s, p.1 = PStr s) d.

(** Two neighbours of a list sorted by [key], ascending or, with [reverse],
    descending. *)
Definition sorted_by {A} (key : A → result pyval) (reverse : bool)
  : relation A :=
  fun a b => ∃ ka kb, key a = Ok ka ∧ key b = Ok kb
                      ∧ if reverse then key_le kb ka else key_le ka kb.

(** A text field read as the spec reads it: empty unless it holds a
    string. *)
Definition field_text (v : pyval) : string :=
  match v with PStr s => s | _ => "" end.

(** The stripped, lowercased query is a substring of the lowercased name or
    of the lowercased description. *)
Definition field_match (query : string) (d : dict) : bool :=
  let q := PyStr.lower (PyStr.strip query) in
  PyStr.contains q (PyStr.lower (field_text (Py.get d "name")))
  || PyStr.contains q (PyStr.lower (field_text (Py.get d "description"))).

(** The entries that are neither null nor an empty object. *)
Definition objects (items : list item) : list dict :=
  omap (fun c : item =>
          match c with
          | Some d => if bool_decide (d = ∅) then None else Some d
          | None => None
          end) items.

(** The non-null entries. *)
Definition non_null (items : list item) : list dict := omap id items.

(** [(v or "").lower()] does not raise: [v] is a string or is false. *)
Definition lowerable (v : pyval) : bool :=
  match v with PStr _ => true | _ => negb (Py.truthy v) end.

Definition text_fields (d : dict) : bool :=
  lowerable (Py.get d "name") && lowerable (Py.get d "description").

(** [updated_at] is a string, null or absent, as in the data model. *)
Definition dated (d : dict) : bool :=
  match Py.get d "updated_at" with PStr _ | PNone => true | _ => false end.

Definition well_dated (w : world) : Prop :=
  ∀ n r cards d,
    wire w n = Received r → decoded r = Some (PList cards) →
    Some d ∈ cards → dated d = true.

(** The world in which the [n]-th request gets [t] back instead. *)
Definition answered (w : world) (n : nat) (t : transport_result) : world :=
  {| wire := fun i => if bool_decide (i = n) then t else wire w i;
     sent := sent w |}.

(** A 200 response with the empty JSON list. *)
Definition empty_listing : transport_result :=
  Received {| status_code := 200; content := "[]";
              decoded := Some (PList []) |}.

(** The claim that the returned collections are exactly the entries whose
    name or description contains the query. *)
Definition returns_exactly_the_matching (query : string) (items : list item)
    (r : FindResult) : Prop :=
  ∀ m, m ∈ fc_collections r ↔
       ∃ d, Some d ∈ items ∧ field_match query d = true
            ∧ m = matched_collection d.


(** The pagination object of a page of [page_len] items: its five entries
    and what they satisfy. *)
Definition paginates (p : dict) (total_key : string) (limit offset : Z)
    (page_len : Z) : Prop :=
  ∃ returned total has_more,
    p !! "limit" = Some (PInt limit)
    ∧ p !! "offset" = Some (PInt offset)
    ∧ p !! "returned" = Some (PInt returned)
    ∧ p !! total_key = Some (PInt total)
    ∧ p !! "has_more" = Some (PBool has_more)
    ∧ returned = page_len
    ∧ has_more = (offset + limit <? total)
    ∧ (0 ≤ limit → 0 ≤ offset → 0 ≤ returned ≤ limit).

Definition card_fields : gset string :=
  {[ "id"; "name"; "description"; "collection_id"; "updated_at";
     "created_at" ]}.

Section Fetches.

Variable settings : Settings.

Definition card_url : string :=
  MetabaseClient.base_url settings +:+ "/api" +:+ "/card".

(** The world after one more request for the cards. *)
Definition sent_card (w : world) : world :=
  {| wire := wire w; sent := ("GET", card_url) :: sent w |}.

(** What the [i]-th fetch of a search that starts in [w] comes back with. *)
Definition fetch (w : world) (i : nat) : result payload :=
  MetabaseClient.outcome settings card_url (wire w (length (sent w) + i)%nat).

(** The matches one turn of the loop appends, given what its fetch came
    back with. *)
Definition matches_of (search_term : string) (collection_id : Z)
    (o : result payload) : list dict :=
  match o with
  | Ok (PList all_cards) =>
      match collection_cards collection_id all_cards with
      | Ok cards => (match_cards search_term cards []).1
      | Raise _ => []
      end
  | _ => []
  end.

(** The matches of all turns but the [k]-th. *)
Definition other_matches (search_term : string) (ids : list Z) (w : world)
    (k : nat) : list dict :=
  mjoin (imap (fun i cid =>
                 if bool_decide (i = k) then []
                 else matches_of search_term cid (fetch w i)) ids).

Definition all_matches_of (search_term : string) (ids : list Z) (w : world)
  : list dict :=
  mjoin (imap (fun i cid => matches_of search_term cid (fetch w i)) ids).

End Fetches.

(** ** Concrete data *)

Module Examples.

Definition cfg : Settings :=
  {| METABASE_URL := "http://metabase.local/";
     METABASE_API_KEY := "mb_key";
     HTTP_CONNECT_TIMEOUT := "10.0";
     HTTP_READ_TIMEOUT := "30.0" |}.

(** A 200 response with a JSON list. *)
Definition listing (items : list item) : transport_result :=
  Received {| status_code := 200; content := "[...]";
              decoded := Some (PList items) |}.

(** A world in which every request gets the same answer. *)
Definition always (t : transport_result) : world :=
  {| wire := fun _ => t; sent := [] |}.

(** A world in which the first request gets [t] and the later ones [t']. *)
Definition first_then (t t' : transport_result) : world :=
  {| wire := fun n => match n with O => t | S _ => t' end; sent := [] |}.

Definition team_ops : dict :=
  {[ "id" := PInt 1; "name" := PStr "Team Ops"; "description" := PNone ]}.
Definition sales_reports : dict :=
  {[ "id" := PInt 2; "name" := PStr "Sales Reports" ]}.
Definition archive : dict :=
  {[ "id" := PInt 3; "name" := PStr "Archive";
     "description" := PStr "Old team boards" ]}.
Definition plain_archive : dict :=
  {[ "id" := PInt 3; "name" := PStr "Archive"; "archived" := PBool false ]}.
(** A collection without a name, described as "Finance team". *)
Definition unnamed : dict :=
  {[ "id" := PInt 7; "name" := PNone;
     "description" := PStr "Finance team" ]}.

Definition revenue_ytd : dict :=
  {[ "id" := PInt 1; "name" := PStr "Revenue YTD";
     "collection_id" := PInt 10; "updated_at" := PStr "2024-01-01";
     "display" := PStr "table" ]}.
Definition user_growth : dict :=
  {[ "id" := PInt 2; "name" := PStr "User Growth";
     "collection_id" := PInt 10; "updated_at" := PStr "2024-06-01" ]}.
Definition revenue_draft : dict :=
  {[ "id" := PInt 3; "name" := PStr "Revenue draft";
     "collection_id" := PInt 11 ]}.

(** A 401 whose body is the plain text the upstream sends. *)
Definition unauthenticated : transport_result :=
  Received {| status_code := 401; content := "Unauthenticated";
              decoded := None |}.

(** A 200 whose body is a JSON object, not a list. *)
Definition an_object : transport_result :=
  Received {| status_code := 200; content := "{}";
              decoded := Some (PNonList "{}") |}.

End Examples.

(** * More of the server *)

(** ** The listing tools *)

(** What [list_cards_by_collection] returns for a list of cards. *)
Record CollectionCards : Type := {
  cc_cards : list dict;
  cc_collection_id : Z;
  cc_count : Z;
  cc_message : string;
}.

(** [list_cards_by_collection] hands any upstream value that is not a list
    back as it is. *)
Inductive CollectionCardsResult : Type :=
| Filtered (found : CollectionCards)
| Unfiltered (raw : string).

Section Listings.

Variable settings : Settings.

(** [list_cards], [list_collections] and [list_databases] return what the
    gateway returns. *)
Definition list_cards : Tool payload :=
  MetabaseClient.request settings "GET" "/card".

Definition list_collections : Tool payload :=
  MetabaseClient.request settings "GET" "/collection".

Definition list_databases : Tool payload :=
  MetabaseClient.request settings "GET" "/database".

Definition list_cards_by_collection (collection_id : Z)
  : Tool CollectionCardsResult :=
  result ← MetabaseClient.request settings "GET" "/card";
  match result with
  | PList result =>
      filtered_cards ← lift (collection_cards collection_id result);
      mret (Filtered
        {| cc_cards := filtered_cards;
           cc_collection_id := collection_id;
           cc_count := PyList.len filtered_cards;
           cc_message :=
             "Found " +:+ pretty (PyList.len filtered_cards)
             +:+ " cards in collection " +:+ pretty collection_id |})
  | PNonList raw => mret (Unfiltered raw)
  end.

End Listings.

Definition collection_fields : gset string :=
  {[ "collection_id"; "collection_name"; "description"; "parent_id";
     "archived" ]}.

(** The next request sent in [w] is answered with a 2xx response whose body
    is the JSON list [items]. *)
Definition delivers (w : world) (items : list item) : Prop :=
  ∃ r, wire w (length (sent w)) = Received r
       ∧ MetabaseClient.is_success r = true
       ∧ decoded r = Some (PList items).

(** The claim that a search whose [k]-th fetch failed still returns, with
    the matches found under the other ids. *)
Definition returns_despite_failed_fetch (settings : Settings)
    (query : string) (ids : list Z) (limit offset : Z) (w : world) (k : nat)
  : Prop :=
  ∃ r sorted,
    (search_cards_in_collections settings query ids limit offset w).1 = Ok r
    ∧ sorted ≡ₚ other_matches settings (PyStr.lower (PyStr.strip query))
                  ids w k
    ∧ sr_cards r = PyList.slice sorted (Some offset) (Some (offset + limit))
    ∧ sr_pagination r !! "total_found" = Some (PInt (PyList.len sorted)).

(** ** More concrete data *)

Module Samples.

(** A card whose [updated_at] is a number, not a date string. *)
Definition stamped : dict :=
  {[ "id" := PInt 4; "name" := PStr "Revenue by day";
     "collection_id" := PInt 10; "updated_at" := PInt 1704067200 ]}.

End Samples.

(** ** Text: [str()], [str.replace] and [urllib.parse] *)

Module PyText.

(** The line feed, ["\n"]. *)
Definition nl : string := String (ascii_of_N 10) EmptyString.

(** [str(v)], as an f-string prints a scalar. *)
Definition str (v : pyval) : string :=
  match v with
  | PNone => "None"
  | PBool true => "True"
  | PBool false => "False"
  | PInt n => pretty n
  | PStr s => s
  end.

(** [s.replace(old, new)] for an [old] of one character. *)
Fixpoint replace (old : ascii) (new : string) (s : string) : string :=
  match s with
  | EmptyString => EmptyString
  | String c s' =>
      (if Ascii.eqb c old then new else String c EmptyString)
      +:+ replace old new s'
  end.

(** [v.replace(old, new)]: only a [str] has the method. *)
Definition replace_in (v : pyval) (old : ascii) (new : string)
  : result string :=
  match v with
  | PStr s => Ok (replace old new s)
  | _ => Raise AttributeError
  end.

End PyText.

Module UrlLib.

(** The characters [quote] never escapes: letters, digits and [_.-~]. *)
Definition always_safe (c : ascii) : bool :=
  let n := PyStr.code c in
  ((65 <=? n) && (n <=? 90) || (97 <=? n) && (n <=? 122)
   || (48 <=? n) && (n <=? 57)
   || (n =? 95) || (n =? 46) || (n =? 45) || (n =? 126))%N.

Definition hex_digit (n : N) : ascii :=
  ascii_of_N (if (n <? 10)%N then 48 + n else 55 + n).

(** ["%{:02X}"] of one byte. *)
Definition percent (b : N) : string :=
  String "%" (String (hex_digit (b / 16)) (String (hex_digit (b mod 16))
    EmptyString)).

(** The UTF-8 bytes of a code point below U+0100. *)
Definition utf8 (c : ascii) : list N :=
  let n := PyStr.code c in
  if (n <? 128)%N then [n] else [192 + n / 64; 128 + n mod 64]%N.

(** [quote(s, safe)] with [safe] empty or the space. *)
Fixpoint quote (space_safe : bool) (s : string) : string :=
  match s with
  | EmptyString => EmptyString
  | String c s' =>
      (if always_safe c || space_safe && Ascii.eqb c " "
       then String c EmptyString
       else String.concat "" (percent <$> utf8 c))
      +:+ quote space_safe s'
  end.

(** [quote_plus(s)] *)
Definition quote_plus (s : string) : string :=
  if negb (PyStr.contains " " s) then quote false s
  else PyText.replace " " "+" (quote true s).

(** A value of the mapping given to [urlencode]: a scalar or a list of
    strings. *)
Inductive param : Type :=
| Scalar (v : pyval)
| Sequence (l : list string).

(** The [key=value] pairs of one entry, with [doseq=True]: one for a
    scalar, printed with [str] unless it is a string, and one for each
    element of a list. *)
Definition pairs (k : string) (v : param) : list string :=
  match v with
  | Scalar v => [quote_plus k +:+ "=" +:+ quote_plus (PyText.str v)]
  | Sequence l => (fun elt => quote_plus k +:+ "=" +:+ quote_plus elt) <$> l
  end.

(** [urlencode(query, doseq=True)] on a mapping, in the order of its
    entries. *)
Definition urlencode (query : list (string * param)) : string :=
  String.concat "&" (mjoin ((fun kv => pairs kv.1 kv.2) <$> query)).

End UrlLib.

(** ** The search endpoint *)

(** The parameters of [search_metabase], in the order they are set. *)
Definition search_metabase_params (query : string) (limit : Z)
    (models : option (list string)) (archived : bool)
    (search_native_query : option bool) : list (string * UrlLib.param) :=
  let params :=
    [("q", UrlLib.Scalar (PStr query));
     ("limit", UrlLib.Scalar (PInt limit));
     ("archived",
      UrlLib.Scalar (PStr (PyStr.lower (PyText.str (PBool archived)))))] in
  let params :=
    match search_native_query with
    | Some true => params ++ [("search_native_query",
                               UrlLib.Scalar (PStr "true"))]
    | _ => params
    end in
  match models with
  | Some models => params ++ [("models", UrlLib.Sequence models)]
  | None => params
  end.

(** The path [search_metabase] requests. *)
Definition search_metabase_endpoint (query : string) (limit : Z)
    (models : option (list string)) (archived : bool)
    (search_native_query : option bool) : string :=
  let query_string :=
    UrlLib.urlencode
      (search_metabase_params query limit models archived
         search_native_query) in
  "/search?" +:+ query_string.

(** ** Table metadata *)

(** The decoded answer to [GET /table/{id}/query_metadata] as
    [get_table_fields] looks at it: a JSON object; [fields], if the object
    has the key, is a list, and the other keys are kept apart. *)
Record TableMetadata : Type := {
  tm_fields : option (list item);
  tm_other : dict;
}.

(** What [get_table_fields] returns for the [result] the gateway gave it:
    the object it received, cut in place when the limit applies. *)
Definition get_table_fields (limit : Z) (result : TableMetadata)
  : TableMetadata :=
  match tm_fields result with
  | Some fields =>
      if (0 <? limit) && (limit <? PyList.len fields) then
        let total_fields := PyList.len fields in
        {| tm_fields := Some (PyList.slice fields None (Some limit));
           tm_other :=
             <["_limit_applied" := PInt limit]>
               (<["_total_fields" := PInt total_fields]>
                  (<["_truncated" := PBool true]> (tm_other result))) |}
      else result
  | None => result
  end.

(** ** The table listing *)

(** The object [list_tables] keeps for a table. *)
Definition table_info (table : dict) : dict :=
  {[ "table_id" := Py.get table "id";
     "display_name" := Py.get table "display_name";
     "description" :=
       Py.or_ (Py.get table "description") (PStr "No description");
     "entity_type" := Py.get table "entity_type" ]}.

(** The first loop of [list_tables]; [formatted_tables] is the list it
    appends to.  An entry that is null has no [get]. *)
Fixpoint format_tables (tables : list item) (formatted_tables : list dict)
  : result (list dict) :=
  match tables with
  | [] => Ok formatted_tables
  | table :: rest =>
      match table with
      | Some table =>
          format_tables rest (formatted_tables ++ [table_info table])
      | None => Raise AttributeError
      end
  end.

(** The sort key of a table: [x.get("display_name", "")]. *)
Definition table_sort_key (x : dict) : result pyval :=
  Ok (Py.get_or x "display_name" (PStr "")).

(** The second loop of [list_tables]: a row of the markdown table for every
    table. *)
Fixpoint table_rows (formatted_tables : list dict) (markdown_output : string)
  : result string :=
  match formatted_tables with
  | [] => Ok markdown_output
  | table :: rest =>
      let table_id := Py.get_or table "table_id" (PStr "N/A") in
      let display_name := Py.get_or table "display_name" (PStr "N/A") in
      let description :=
        Py.get_or table "description" (PStr "No description") in
      let entity_type := Py.get_or table "entity_type" (PStr "N/A") in
      description ← PyText.replace_in description "|" "\|";
      display_name ← PyText.replace_in display_name "|" "\|";
      table_rows rest
        (markdown_output +:+ "| " +:+ PyText.str table_id +:+ " | "
         +:+ display_name +:+ " | " +:+ description +:+ " | "
         +:+ PyText.str entity_type +:+ " |" +:+ PyText.nl)
  end.

(** What [list_tables] makes of the [tables] of the metadata the gateway
    gave it, [result.get("tables", [])]. *)
Definition list_tables (database_id : Z) (tables : list item)
  : result string :=
  formatted_tables ← format_tables tables [];
  formatted_tables ← PyList.sort table_sort_key false formatted_tables;
  let markdown_output :=
    "# Tables in Database " +:+ pretty database_id
    +:+ PyText.nl +:+ PyText.nl in
  let markdown_output :=
    markdown_output +:+ "**Total Tables:** "
    +:+ pretty (PyList.len formatted_tables) +:+ PyText.nl +:+ PyText.nl in
  match formatted_tables with
  | [] =>
      Ok (markdown_output +:+ "*No tables found in this database.*"
          +:+ PyText.nl)
  | _ :: _ =>
      let markdown_output :=
        markdown_output
        +:+ "| Table ID | Display Name | Description | Entity Type |"
        +:+ PyText.nl in
      let markdown_output :=
        markdown_output
        +:+ "|----------|--------------|-------------|--------------|"
        +:+ PyText.nl in
      table_rows formatted_tables markdown_output
  end.

(** ** Vocabulary for texts *)

(** How often [c] occurs in [s]. *)
Fixpoint occurrences (c : ascii) (s : string) : nat :=
  match s with
  | EmptyString => 0
  | String c' s' => (if Ascii.eqb c' c then 1 else 0) + occurrences c s'
  end.

(** The characters of a request path with a query string: the ones [quote]
    never escapes and [% + = & ? /]. *)
Definition url_char (c : ascii) : bool :=
  UrlLib.always_safe c
  || existsb (Ascii.eqb c) ["%"; "+"; "="; "&"; "?"; "/"]%char.

Definition url_text (s : string) : bool :=
  forallb url_char (list_ascii_of_string s).

(** Text of unreserved characters only: letters, digits and [_.-~].  The
    HTTP client refuses a URL or a header value that holds a control
    character, and rewrites other characters of a URL before it sends it;
    text of unreserved characters goes out as it is. *)
Definition unreserved (s : string) : bool :=
  forallb UrlLib.always_safe (list_ascii_of_string s).

(** Every ["|"] of [s] stands behind a backslash. *)
Fixpoint pipes_escaped (s : string) : bool :=
  match s with
  | EmptyString => true
  | String c s' =>
      if Ascii.eqb c "|" then false
      else
        match s' with
        | String c' s'' =>
            if Ascii.eqb c (ascii_of_N 92) && Ascii.eqb c' "|"
            then pipes_escaped s'' else pipes_escaped s'
        | EmptyString => true
        end
  end.

Module Tables.

(** The metadata of a table with three fields. *)
Definition orders : TableMetadata :=
  {| tm_fields :=
       Some [Some ({[ "name" := PStr "id" ]} : dict);
             Some ({[ "name" := PStr "total" ]} : dict);
             Some ({[ "name" := PStr "created_at" ]} : dict)];
     tm_other := {[ "id" := PInt 5; "name" := PStr "orders" ]} |}.

(** Three tables of a database. *)
Definition orders_table : dict :=
  {[ "id" := PInt 5; "display_name" := PStr "Orders";
     "description" := PStr "Paid | open orders";
     "entity_type" := PStr "entity/TransactionTable" ]}.
Definition people_table : dict :=
  {[ "id" := PInt 2; "display_name" := PStr "People";
     "description" := PNone; "entity_type" := PStr "entity/UserTable" ]}.
Definition nameless_table : dict :=
  {[ "id" := PInt 9; "display_name" := PNone;
     "description" := PStr "Scratch" ]}.

End Tables.

(** The characters [quote_plus] produces: the ones [quote] never escapes,
    [%] and [+]. *)
Definition quoted_char (c : ascii) : bool :=
  UrlLib.always_safe c || Ascii.eqb c "%" || Ascii.eqb c "+".

Definition quoted_text (s : string) : bool :=
  forallb quoted_char (list_ascii_of_string s).

(** What a [key=value] pair of the query string is made of. *)
Definition is_pair (p : string) : Prop :=
  occurrences "&" p = 0%nat ∧ occurrences "=" p = 1%nat
  ∧ occurrences "?" p = 0%nat ∧ url_text p = true.

(** The row of the markdown table for a kept table whose name and
    description are strings. *)
Definition table_row (x : dict) : string :=
  "| " +:+ PyText.str (Py.get_or x "table_id" (PStr "N/A")) +:+ " | "
  +:+ PyText.replace "|" "\|"
        (field_text (Py.get_or x "display_name" (PStr "N/A")))
  +:+ " | "
  +:+ PyText.replace "|" "\|"
        (field_text (Py.get_or x "description" (PStr "No description")))
  +:+ " | " +:+ PyText.str (Py.get_or x "entity_type" (PStr "N/A"))
  +:+ " |" +:+ PyText.nl.

(** The two lines above the table, and the two lines that head it. *)
Definition tables_title (database_id n : Z) : string :=
  "# Tables in Database " +:+ pretty database_id +:+ PyText.nl +:+ PyText.nl
  +:+ "**Total Tables:** " +:+ pretty n +:+ PyText.nl +:+ PyText.nl.

Definition tables_head : string :=
  "| Table ID | Display Name | Description | Entity Type |" +:+ PyText.nl
  +:+ "|----------|--------------|-------------|--------------|"
  +:+ PyText.nl.

(** [display_name] is a string. *)
Definition named (table : dict) : bool :=
  match Py.get table "display_name" with PStr _ => true | _ => false end.

(** [description] is a string, or is false. *)
Definition described (table : dict) : bool :=
  lowerable (Py.get table "description").

(** ** The gateway of the top-level server

    The top-level [server.py] reads its configuration from the environment
    and authenticates with an API key or, without one, with a session token
    it obtains by logging in.  Its [MetabaseClient] keeps the token; the
    state of the client and the network are threaded together. *)

Module Legacy.

Inductive AuthMethod : Type :=
| SESSION
| API_KEY.

(** The four environment variables, as [os.getenv] gives them. *)
Record Environment : Type := {
  METABASE_URL : option string;
  METABASE_USER_EMAIL : option string;
  METABASE_PASSWORD : option string;
  METABASE_API_KEY : option string;
}.

(** Truth value of an environment variable: [None] and [""] are false. *)
Definition given (v : option string) : bool :=
  match v with
  | Some s => negb (String.eqb s "")
  | None => false
  end.

(** The check at import: the module raises [ValueError] and does not load
    unless it holds. *)
Definition configured (env : Environment) : bool :=
  negb (negb (given (METABASE_URL env))
        || negb (given (METABASE_API_KEY env))
           && (negb (given (METABASE_USER_EMAIL env))
               || negb (given (METABASE_PASSWORD env)))).

(** What [response.json()] decodes to: an object, a list, or a scalar. *)
Inductive body : Type :=
| Object (d : dict)
| Array (items : list item)
| Value (v : pyval).

Record response : Type := {
  status_code : Z;
  content : string;
  decoded : option body;
}.

Inductive transport : Type :=
| Received (r : response)
| Failed (e : httpx_error).

(** What the client raises.  The [Exception] of a failed login carries the
    status code and the decoded error body in its message; they are kept
    as they are. *)
Inductive failure : Type :=
| ValueError (msg : string)
| AuthenticationFailed (status : Z) (error_data : body)
| Raised (e : exn).

Inductive answer (A : Type) : Type :=
| Returns (a : A)
| Raises (f : failure).
Arguments Returns {A} a.
Arguments Raises {A} f.

(** A call of the HTTP client: the method, the URL, the [headers=] and the
    [json=] it was given. *)
Record call : Type := {
  c_method : string;
  c_url : string;
  c_headers : option dict;
  c_json : option dict;
}.

(** The client and the network: the session token the client holds, what
    the n-th call gets back, and the calls made so far, the latest
    first. *)
Record state : Type := {
  session_token : pyval;
  wire : nat → transport;
  sent : list call;
}.

Definition Client (A : Type) : Type := state → answer A * state.

Definition send (c : call) : state → transport * state :=
  fun st =>
    (wire st (length (sent st)),
     {| session_token := session_token st;
        wire := wire st;
        sent := c :: sent st |}).

(** [response.is_success] *)
Definition is_success (r : response) : bool :=
  (200 <=? status_code r) && (status_code r <=? 299).

(** [response.json()] *)
Definition json (r : response) : answer body :=
  match decoded r with
  | Some v => Returns v
  | None => Raises (Raised JSONDecodeError)
  end.

(** [response.json() if response.content else {}] *)
Definition error_data (r : response) : answer body :=
  if negb (String.eqb (content r) "") then json r else Returns (Object ∅).

Section Client.

Variable env : Environment.

(** The fields [__init__] sets; the URL is there when the module has
    loaded. *)
Definition base_url : string :=
  PyStr.rstrip_char "/" (default "" (METABASE_URL env)).

Definition api_key : option string := METABASE_API_KEY env.

Definition auth_method : AuthMethod :=
  if given (METABASE_API_KEY env) then API_KEY else SESSION.

(** [self.auth_method == AuthMethod.API_KEY and self.api_key] *)
Definition uses_api_key : bool :=
  match auth_method with
  | API_KEY => given api_key
  | SESSION => false
  end.

Definition _get_session_token : Client pyval :=
  fun st =>
    if uses_api_key then (Returns (PStr (default "" api_key)), st)
    else if negb (given (METABASE_USER_EMAIL env))
            || negb (given (METABASE_PASSWORD env))
    then (Raises (ValueError
            "Email and password required for session authentication"), st)
    else
      let login_data : dict :=
        {[ "username" := PStr (default "" (METABASE_USER_EMAIL env));
           "password" := PStr (default "" (METABASE_PASSWORD env)) ]} in
      let '(t, st') :=
        send {| c_method := "POST";
                c_url := base_url +:+ "/api/session";
                c_headers := None;
                c_json := Some login_data |} st in
      match t with
      | Failed e => (Raises (Raised (Httpx e)), st')
      | Received response =>
          if negb (status_code response =? 200) then
            match error_data response with
            | Returns error_data =>
                (Raises (AuthenticationFailed (status_code response)
                           error_data), st')
            | Raises f => (Raises f, st')
            end
          else
            match json response with
            | Returns (Object session_data) =>
                let token := Py.get session_data "id" in
                (Returns token,
                 {| session_token := token;
                    wire := wire st';
                    sent := sent st' |})
            | Returns _ => (Raises (Raised AttributeError), st')
            | Raises f => (Raises f, st')
            end
      end.

Definition _get_headers : Client dict :=
  fun st =>
    let headers : dict := {[ "Content-Type" := PStr "application/json" ]} in
    if uses_api_key then
      (Returns (<["X-API-KEY" := PStr (default "" api_key)]> headers), st)
    else
      match auth_method with
      | SESSION =>
          let '(got, st') :=
            if negb (Py.truthy (session_token st))
            then _get_session_token st
            else (Returns (session_token st), st) in
          match got with
          | Raises f => (Raises f, st')
          | Returns _ =>
              if Py.truthy (session_token st') then
                (Returns (<["X-Metabase-Session" := session_token st']>
                            headers), st')
              else (Returns headers, st')
          end
      | API_KEY => (Returns headers, st)
      end.

(** [MetabaseClient.request(method, path)], without further keywords.  The
    headers are handed to the HTTP client as they are; a token that is not
    a string, which the client would refuse, is outside this model. *)
Definition request (method path : string) : Client body :=
  fun st =>
    let url := base_url +:+ "/api" +:+ path in
    match _get_headers st with
    | (Raises f, st') => (Raises f, st')
    | (Returns headers, st') =>
        let '(t, st'') :=
          send {| c_method := method;
                  c_url := url;
                  c_headers := Some headers;
                  c_json := None |} st' in
        match t with
        | Failed e => (Raises (Raised (Httpx e)), st'')
        | Received response =>
            if negb (is_success response) then
              match error_data response with
              | Returns _ =>
                  let error_message :=
                    "API request failed with status "
                    +:+ pretty (status_code response) +:+ ": "
                    +:+ content response in
                  (Raises (Raised (Exception error_message)), st'')
              | Raises f => (Raises f, st'')
              end
            else (json response, st'')
        end
    end.

(** The call [request] makes for the request itself. *)
Definition request_call (method path : string) (headers : dict) : call :=
  {| c_method := method;
     c_url := base_url +:+ "/api" +:+ path;
     c_headers := Some headers;
     c_json := None |}.

(** The call that logs in. *)
Definition login_call : call :=
  {| c_method := "POST";
     c_url := base_url +:+ "/api/session";
     c_headers := None;
     c_json :=
       Some ({[ "username" := PStr (default "" (METABASE_USER_EMAIL env));
                "password" := PStr (default "" (METABASE_PASSWORD env)) ]}
             : dict) |}.

End Client.

(** A server set up with an API key, and one set up with a login. *)
Definition with_key : Environment :=
  {| METABASE_URL := Some "http://metabase.local/";
     METABASE_USER_EMAIL := None;
     METABASE_PASSWORD := None;
     METABASE_API_KEY := Some "mb_key" |}.

Definition with_login : Environment :=
  {| METABASE_URL := Some "http://metabase.local/";
     METABASE_USER_EMAIL := Some "ops@example.com";
     METABASE_PASSWORD := Some "secret";
     METABASE_API_KEY := None |}.

(** A client that holds [token], on a network where every call gets [t]. *)
Definition client (token : pyval) (t : transport) : state :=
  {| session_token := token; wire := fun _ => t; sent := [] |}.

(** A client without a token whose first call gets [t] and whose later
    calls get [t']. *)
Definition fresh_client (t t' : transport) : state :=
  {| session_token := PNone;
     wire := fun n => match n with O => t | S _ => t' end;
     sent := [] |}.

Definition ok (v : body) : transport :=
  Received {| status_code := 200; content := "{...}"; decoded := Some v |}.

Definition refused : transport :=
  Received {| status_code := 401; content := "Unauthenticated";
              decoded := None |}.

End Legacy.

(** * Properties *)

(** ** Strings *)

Section Strings.

Lemma prefix_app (n s : string) : String.prefix n (n +:+ s) = true.
Proof.
  induction n as [|c n IH]; simpl; [by destruct s|].
  by destruct (ascii_dec c c).
Qed.

Lemma prefix_inv (n h : string) :
  String.prefix n h = true → ∃ s, h = n +:+ s.
Proof.
  revert h. induction n as [|c n IH]; intros h Hp.
  - by exists h.
  - destruct h as [|c' h]; simpl in Hp; [done|].
    destruct (ascii_dec c c') as [->|]; [|done].
    destruct (IH _ Hp) as [s ->]. by exists s.
Qed.

Lemma contains_nil (n : string) :
  PyStr.contains n "" = String.prefix n "" || false.
Proof. reflexivity. Qed.

Lemma contains_cons (n : string) c h :
  PyStr.contains n (String c h)
  = String.prefix n (String c h) || PyStr.contains n h.
Proof. reflexivity. Qed.

(** [contains] is the substring test: the needle occurs somewhere in the
    haystack. *)
Lemma contains_spec (n h : string) :
  PyStr.contains n h = true ↔ ∃ p s, h = p +:+ n +:+ s.
Proof.
  split.
  - induction h as [|c h IH].
    + rewrite contains_nil, orb_false_r. intros [s Hs]%prefix_inv.
      by exists "", s.
    + rewrite contains_cons. intros [H|H]%orb_true_iff.
      * apply prefix_inv in H as [s Hs]. by exists "", s.
      * destruct (IH H) as (p & s & ->). by exists (String c p), s.
  - intros (p & s & ->). induction p as [|c p IH].
    + change ("" +:+ n +:+ s) with (n +:+ s).
      destruct (n +:+ s) as [|c t] eqn:E.
      * rewrite contains_nil, <-E, prefix_app. done.
      * rewrite contains_cons, <-E, prefix_app. done.
    + change (String c p +:+ n +:+ s) with (String c (p +:+ n +:+ s)).
      rewrite contains_cons, IH. apply orb_true_r.
Qed.




End Strings.

(** ** Slices *)

Section Slices.

Context {A : Type}.
Implicit Types l : list A.

Lemma slice_contiguous l start stop :
  ∃ before after, l = before ++ PyList.slice l start stop ++ after.
Proof.
  unfold PyList.slice. cbv zeta.
  generalize (match start with Some i => PyList.adjust (PyList.len l) i
                              | None => 0 end).
  generalize (match stop with Some i => PyList.adjust (PyList.len l) i
                             | None => PyList.len l end).
  intros hi lo.
  exists (take (Z.to_nat lo) l),
         (drop (Z.to_nat (hi - lo)) (drop (Z.to_nat lo) l)).
  by rewrite !take_drop.
Qed.

Lemma slice_subseteq l start stop : PyList.slice l start stop ⊆ l.
Proof.
  unfold PyList.slice. etrans; [apply subseteq_take|apply subseteq_drop].
Qed.

Lemma slice_page_bound l offset limit :
  0 ≤ limit → 0 ≤ offset →
  0 ≤ PyList.len (PyList.slice l (Some offset) (Some (offset + limit))) ≤ limit.
Proof.
  intros Hl Ho. unfold PyList.slice, PyList.len, PyList.adjust.
  rewrite length_take, length_drop.
  destruct (Z.ltb_spec offset 0), (Z.ltb_spec (offset + limit) 0); lia.
Qed.

Lemma slice_prefix_len l limit :
  0 ≤ limit →
  PyList.len (PyList.slice l None (Some limit))
  = Z.min (PyList.len l) limit.
Proof.
  intros Hl. unfold PyList.slice, PyList.len, PyList.adjust.
  rewrite length_take, length_drop.
  destruct (Z.ltb_spec limit 0); lia.
Qed.

End Slices.

(** ** The order of the sort keys *)

Section Order.

Lemma str_ltb_false_le (s t : string) :
  PyStr.ltb s t = false ↔ String.le t s.
Proof.
  unfold PyStr.ltb, String.ltb, String.le, String.leb.
  rewrite (String.compare_antisym t s).
  destruct (String.compare s t); simpl; split; done.
Qed.

Lemma less_asym (a b : pyval) :
  PyOps.less a b = Ok true → PyOps.less b a = Ok false.
Proof.
  destruct a as [|x|x|s], b as [|y|y|t]; simpl; intros H;
    simplify_eq; f_equal; try lia.
  apply str_ltb_false_le. unfold PyStr.ltb, String.ltb in H.
  unfold String.le, String.leb.
  by destruct (String.compare s t).
Qed.

Global Instance key_le_trans : Transitive key_le.
Proof.
  unfold key_le. intros a b c Hab Hbc.
  destruct a as [|x|x|s], b as [|y|y|t], c as [|z|z|u];
    simpl in *; try discriminate;
    injection Hab as Hab; injection Hbc as Hbc; f_equal; try lia.
  apply str_ltb_false_le. apply str_ltb_false_le in Hab, Hbc.
  by etrans.
Qed.

(** Nothing but the empty string may stand behind the empty string in
    descending order. *)
Lemma key_le_empty_l (k : pyval) : key_le k (PStr "") → k = PStr "".
Proof.
  unfold key_le. destruct k as [|x|x|s]; simpl; try done.
  destruct s; [done|]. by cbv.
Qed.

End Order.


(** ** [list.sort] *)

Lemma StronglySorted_reverse_p {A} (R : relation A) (l : list A) :
  StronglySorted R l → StronglySorted (flip R) (reverse l).
Proof.
  induction 1 as [|x l _ IH Hx]; [constructor|].
  rewrite reverse_cons. apply StronglySorted_app_2; [|done|repeat constructor].
  intros a b Ha ->%list_elem_of_singleton. rewrite elem_of_reverse in Ha.
  rewrite Forall_forall in Hx. by apply Hx.
Qed.

Lemma StronglySorted_and_Forall_p {A} (R : relation A) (P : A → Prop) (l : list A) :
  StronglySorted R l → Forall P l →
  StronglySorted (fun a b => R a b ∧ P a ∧ P b) l.
Proof.
  induction 1 as [|x l _ IH Hx]; intros HP; [constructor|].
  apply Forall_cons in HP as [Px Pl]. constructor; [auto|].
  rewrite Forall_forall in *. naive_solver.
Qed.

Section Sort.
Context {A : Type}.
Implicit Types (l d s : list (pyval * A)).

Lemma insert_perm k x l r : PyList.insert k x l = Ok r → r ≡ₚ (k, x) :: l.
Proof.
  revert r. induction l as [|[k' y] l IH]; intros r H; simpl in H.
  - by injection H as <-.
  - destruct (PyOps.less k' k) as [[]|] eqn:E; simpl in H; [| |done].
    + destruct (PyList.insert k x l) as [r'|] eqn:E'; simpl in H; [|done].
      injection H as <-. rewrite (IH _ eq_refl). apply Permutation_swap.
    + by injection H as <-.
Qed.

Lemma insert_sorted k x l r :
  StronglySorted keyed_le l → PyList.insert k x l = Ok r →
  StronglySorted keyed_le r.
Proof.
  revert r. induction l as [|[k' y] l IH]; intros r Hs H; simpl in H.
  - injection H as <-. repeat constructor.
  - apply StronglySorted_cons in Hs as [Hy Hs].
    destruct (PyOps.less k' k) as [[]|] eqn:E; simpl in H; [| |done].
    + destruct (PyList.insert k x l) as [r'|] eqn:E'; simpl in H; [|done].
      injection H as <-. constructor; [by apply IH|].
      rewrite (insert_perm _ _ _ _ E'). constructor; [|done].
      by apply less_asym.
    + injection H as <-. constructor; [by constructor|].
      constructor; [done|].
      eapply Forall_impl; [done|]. intros q Hq. unfold keyed_le in *.
      simpl in *. etrans; [|done]. done.
Qed.

Lemma sort_keyed_perm l s : PyList.sort_keyed l = Ok s → s ≡ₚ l.
Proof.
  revert s. induction l as [|[k x] l IH]; intros s H; simpl in H.
  - by injection H as <-.
  - destruct (PyList.sort_keyed l) as [s'|] eqn:E; simpl in H; [|done].
    rewrite (insert_perm _ _ _ _ H). by rewrite (IH _ eq_refl).
Qed.

Lemma sort_keyed_sorted l s :
  PyList.sort_keyed l = Ok s → StronglySorted keyed_le s.
Proof.
  revert s. induction l as [|[k x] l IH]; intros s H; simpl in H.
  - injection H as <-. constructor.
  - destruct (PyList.sort_keyed l) as [s'|] eqn:E; simpl in H; [|done].
    eapply insert_sorted; [|done]. by apply IH.
Qed.

Lemma decorate_spec (key : A → result pyval) (l : list A) d :
  PyList.decorate key l = Ok d →
  d.*2 = l ∧ Forall (fun p => key p.2 = Ok p.1) d.
Proof.
  revert d. induction l as [|x l IH]; intros d H; simpl in H.
  - injection H as <-. by split.
  - destruct (key x) as [k|] eqn:Ek; simpl in H; [|done].
    destruct (PyList.decorate key l) as [d'|] eqn:E; simpl in H; [|done].
    injection H as <-. destruct (IH _ eq_refl) as [<- HF].
    split; [done|]. by constructor.
Qed.

Lemma sort_spec (key : A → result pyval) (reverse : bool) (l t : list A) :
  PyList.sort key reverse l = Ok t →
  t ≡ₚ l ∧ StronglySorted (sorted_by key reverse) t.
Proof.
  unfold PyList.sort. intros H.
  destruct (PyList.decorate key l) as [d|] eqn:Ed; simpl in H; [|done].
  destruct (PyList.sort_keyed _) as [s|] eqn:Es; simpl in H; [|done].
  injection H as <-.
  apply decorate_spec in Ed as [<- HF].
  pose proof (sort_keyed_perm _ _ Es) as Hp.
  pose proof (sort_keyed_sorted _ _ Es) as Hs.
  assert (Forall (fun p => key p.2 = Ok p.1) s) as HFs.
  { rewrite Hp. by destruct reverse; rewrite ?reverse_Permutation. }
  pose proof (StronglySorted_and_Forall_p _ _ _ Hs HFs) as Hs'.
  destruct reverse.
  - split; [by rewrite reverse_Permutation, Hp, reverse_Permutation|].
    apply StronglySorted_reverse_p in Hs'.
    eapply (StronglySorted_fmap snd); [|done].
    intros p q (? & ? & ?). by exists p.1, q.1.
  - split; [by rewrite Hp|].
    eapply (StronglySorted_fmap snd); [|done].
    intros p q (? & ? & ?). by exists p.1, q.1.
Qed.

End Sort.

Section SortTotality.
Context {A : Type}.

Lemma insert_total_str k (x : A) (d : list (pyval * A)) :
  (∃ s, k = PStr s) → str_keys d → ∃ r, PyList.insert k x d = Ok r.
Proof.
  intros [s ->]. induction d as [|[k' y] d IH]; intros Hd; [by eexists|].
  apply Forall_cons in Hd as [[t Ht] Hd]. simpl in Ht. subst k'. simpl.
  destruct (PyStr.ltb t s); [|by eexists].
  destruct (IH Hd) as [r ->]. by eexists.
Qed.

Lemma sort_keyed_total_str (d : list (pyval * A)) :
  str_keys d → ∃ s, PyList.sort_keyed d = Ok s.
Proof.
  induction d as [|[k x] d IH]; intros Hd; [by eexists|].
  apply Forall_cons in Hd as [Hk Hd]. simpl in *.
  destruct (IH Hd) as [s Hs]. rewrite Hs. simpl.
  apply insert_total_str; [done|].
  unfold str_keys. by rewrite (sort_keyed_perm _ _ Hs).
Qed.

Lemma decorate_total (key : A → result pyval) (l : list A) :
  Forall (fun x => ∃ s, key x = Ok (PStr s)) l →
  ∃ d, PyList.decorate key l = Ok d ∧ str_keys d.
Proof.
  induction 1 as [|x l [s Hx] _ (d & Hd & Hs)];
    [exists []; split; [done|constructor]|].
  exists ((PStr s, x) :: d). simpl. rewrite Hx, Hd. split; [done|].
  constructor; [by exists s|done].
Qed.

Lemma sort_total_str (key : A → result pyval) (reverse : bool) (l : list A) :
  Forall (fun x => ∃ s, key x = Ok (PStr s)) l →
  ∃ t, PyList.sort key reverse l = Ok t.
Proof.
  intros (d & Hd & Hs)%decorate_total. unfold PyList.sort. rewrite Hd. simpl.
  destruct (sort_keyed_total_str (if reverse then list.reverse d else d))
    as [s ->]; [|by eexists].
  unfold str_keys. by destruct reverse; rewrite ?reverse_Permutation.
Qed.

Lemma decorate_raises (key : A → result pyval) (l : list A) e :
  (∀ x e', key x = Raise e' → e' = e) →
  Exists (fun x => is_ok (key x) = false) l →
  PyList.decorate key l = Raise e.
Proof.
  intros He. induction 1 as [x l Hx|x l _ IH]; simpl.
  - destruct (key x) eqn:E; [done|]. simpl. by rewrite (He _ _ E).
  - destruct (key x) eqn:E; simpl; [by rewrite IH|by rewrite (He _ _ E)].
Qed.

End SortTotality.

(** ** The gateway and the discovery loop *)

Section Gateway.
Variable settings : Settings.

Lemma request_run (method path : string) (w : world) :
  MetabaseClient.request settings method path w
  = (MetabaseClient.outcome settings
       (MetabaseClient.base_url settings +:+ "/api" +:+ path)
       (wire w (length (sent w))),
     {| wire := wire w;
        sent := (method, MetabaseClient.base_url settings +:+ "/api" +:+ path)
                  :: sent w |}).
Proof. reflexivity. Qed.

End Gateway.

Section Discovery.
Variable settings : Settings.

Lemma lower_or_text (v : pyval) (s : string) :
  PyOps.lower (Py.or_ v (PStr "")) = Ok s → s = PyStr.lower (field_text v).
Proof.
  unfold Py.or_.
  destruct v as [|[]|n|t]; simpl; try (intros H; by simplify_eq).
  - destruct (n =? 0); simpl; intros H; by simplify_eq.
  - destruct (String.eqb_spec t ""); simpl; intros H; by simplify_eq.
Qed.

Lemma lower_or_lowerable (v : pyval) :
  lowerable v = true →
  PyOps.lower (Py.or_ v (PStr "")) = Ok (PyStr.lower (field_text v)).
Proof.
  unfold Py.or_.
  destruct v as [|[]|n|t]; simpl; try done.
  - by intros ->%negb_true_iff.
  - by destruct (String.eqb_spec t "") as [->|].
Qed.

(** The entries the scan keeps for [query]. *)
Lemma scan_collections_ok (query : string) (items : list item)
    (acc matched : list dict) :
  scan_collections (PyStr.lower (PyStr.strip query)) items acc = Ok matched →
  matched
  = acc ++ (matched_collection <$> filter (fun d => field_match query d = true)
                                     (objects items)).
Proof.
  revert acc. induction items as [|c items IH]; intros acc H; simpl in H.
  - injection H as <-. by rewrite app_nil_r.
  - destruct c as [d|]; simpl in H; [|by apply IH].
    unfold objects. simpl. fold (objects items).
    destruct (bool_decide (d = ∅)); simpl in H; [by apply IH|].
    destruct (PyOps.lower (Py.or_ (Py.get d "name") _)) as [n|] eqn:En;
      simpl in H; [|done].
    destruct (PyOps.lower (Py.or_ (Py.get d "description") _)) as [ds|] eqn:Ed;
      simpl in H; [|done].
    apply lower_or_text in En, Ed. subst n ds.
    change (PyStr.contains _ _ || PyStr.contains _ _)
      with (field_match query d) in H.
    rewrite filter_cons.
    destruct (field_match query d) eqn:Em.
    + rewrite decide_True by done. apply IH in H. rewrite H.
      by rewrite <-app_assoc.
    + rewrite decide_False by done. by apply IH.
Qed.


End Discovery.

(** ** The search loop *)

Section Search.
Variable settings : Settings.

Lemma match_cards_acc (term : string) (cards acc : list dict) :
  (match_cards term cards acc).1 = acc ++ (match_cards term cards []).1.
Proof.
  revert acc. induction cards as [|d cards IH]; intros acc; simpl.
  - by rewrite app_nil_r.
  - destruct (PyOps.lower _); [|by rewrite app_nil_r].
    destruct (PyOps.lower _); [|by rewrite app_nil_r].
    destruct (_ || _); [|done].
    rewrite IH, (IH [_]). by rewrite <-app_assoc.
Qed.

Lemma match_cards_acc_snd (term : string) (cards acc : list dict) :
  (match_cards term cards acc).2 = (match_cards term cards []).2.
Proof.
  revert acc. induction cards as [|d cards IH]; intros acc; simpl; [done|].
  destruct (PyOps.lower _); [|done].
  destruct (PyOps.lower _); [|done].
  destruct (_ || _); [|done].
  by rewrite IH, (IH [_]).
Qed.

Lemma match_cards_elem (term : string) (cards : list dict) (m : dict) :
  m ∈ (match_cards term cards []).1 → ∃ d, d ∈ cards ∧ m = matched_card d.
Proof.
  induction cards as [|d cards IH]; simpl; [by intros ?%elem_of_nil|].
  destruct (PyOps.lower _); [|by intros ?%elem_of_nil].
  destruct (PyOps.lower _); [|by intros ?%elem_of_nil].
  destruct (_ || _).
  - rewrite match_cards_acc. simpl.
    intros [->|Hm]%elem_of_cons; [exists d; split; [left|done]|].
    destruct (IH Hm) as (d' & ? & ?). exists d'. split; [by right|done].
  - intros Hm. destruct (IH Hm) as (d' & ? & ?). exists d'.
    split; [by right|done].
Qed.

Lemma match_cards_typed (query : string) (cards : list dict) :
  Forall (fun d => text_fields d = true) cards →
  match_cards (PyStr.lower (PyStr.strip query)) cards []
  = (matched_card <$> filter (fun d => field_match query d = true) cards,
     Ok tt).
Proof.
  induction 1 as [|d cards [Hn Hd]%andb_true_iff _ IH]; simpl; [done|].
  rewrite (lower_or_lowerable _ Hn), (lower_or_lowerable _ Hd).
  change (PyStr.contains _ _ || PyStr.contains _ _)
    with (field_match query d).
  rewrite filter_cons. destruct (field_match query d) eqn:Em.
  - rewrite decide_True by done.
    rewrite (surjective_pairing (match_cards _ _ _)).
    by rewrite match_cards_acc, match_cards_acc_snd, IH.
  - by rewrite decide_False by done.
Qed.

Lemma collection_cards_elem (cid : Z) (all : list item) (cards : list dict)
    (d : dict) :
  collection_cards cid all = Ok cards → d ∈ cards →
  Some d ∈ all ∧ Py.eq_int (Py.get d "collection_id") cid = true.
Proof.
  revert cards. induction all as [|c all IH]; intros cards H Hd; simpl in H.
  - injection H as <-. by apply elem_of_nil in Hd.
  - destruct c as [d'|]; simpl in H; [|done].
    destruct (collection_cards cid all) as [cs|]; simpl in H; [|done].
    injection H as <-.
    destruct (Py.eq_int (Py.get d' "collection_id") cid) eqn:E.
    + apply elem_of_cons in Hd as [->|Hd]; [split; [left|done]|].
      destruct (IH _ eq_refl Hd). split; [by right|done].
    + destruct (IH _ eq_refl Hd). split; [by right|done].
Qed.

Lemma collection_cards_total (cid : Z) (all : list item) :
  Forall is_Some all →
  collection_cards cid all
  = Ok (filter (fun d => Py.eq_int (Py.get d "collection_id") cid = true)
          (non_null all)).
Proof.
  induction 1 as [|c all [d ->] _ IH]; simpl; [done|].
  rewrite IH. simpl. unfold non_null. simpl. rewrite filter_cons.
  destruct (Py.eq_int _ _) eqn:E;
    [by rewrite decide_True|by rewrite decide_False].
Qed.

Lemma fetch_sent_card (w : world) (i : nat) :
  fetch settings (sent_card settings w) i = fetch settings w (S i).
Proof. unfold fetch. simpl. by rewrite Nat.add_succ_r. Qed.

Lemma search_collection_run (term : string) (cid : Z) (acc : list dict)
    (w : world) :
  search_collection settings term cid acc w
  = (Ok (acc ++ matches_of term cid (fetch settings w 0)), sent_card settings w).
Proof.
  unfold search_collection. rewrite request_run.
  unfold fetch, card_url. rewrite Nat.add_0_r.
  fold (card_url settings). fold (sent_card settings w).
  destruct (MetabaseClient.outcome _ _ _) as [[all|raw]|e]; simpl;
    rewrite ?app_nil_r; try done.
  destruct (collection_cards cid all); [|by rewrite app_nil_r].
  by rewrite match_cards_acc.
Qed.

Lemma search_collections_run (term : string) (ids : list Z)
    (acc : list dict) (w : world) :
  (search_collections settings term ids acc w).1
  = Ok (acc ++ all_matches_of settings term ids w).
Proof.
  revert acc w. induction ids as [|cid ids IH]; intros acc w; simpl.
  - unfold all_matches_of. simpl. by rewrite app_nil_r.
  - unfold mbind, tool_bind. rewrite search_collection_run.
    rewrite IH. unfold all_matches_of. simpl. rewrite <-app_assoc.
    f_equal. f_equal. f_equal. f_equal. apply imap_ext. intros i x _. simpl.
    by rewrite fetch_sent_card.
Qed.

Lemma search_run (query : string) (ids : list Z) (limit offset : Z)
    (w : world) :
  (search_cards_in_collections settings query ids limit offset w).1
  = (all_matches ←
       PyList.sort card_sort_key true
         (all_matches_of settings (PyStr.lower (PyStr.strip query)) ids w);
     let page :=
       PyList.slice all_matches (Some offset) (Some (offset + limit)) in
     Ok {| sr_query := query;
           sr_collections_searched := ids;
           sr_pagination :=
             {[ "limit" := PInt limit;
                "offset" := PInt offset;
                "returned" := PInt (PyList.len page);
                "total_found" := PInt (PyList.len all_matches);
                "has_more" :=
                  PBool (offset + limit <? PyList.len all_matches) ]};
           sr_cards := page;
           sr_note :=
             "Searched " +:+ pretty (PyList.len ids)
             +:+ " collections for '" +:+ query +:+ "'. Found "
             +:+ pretty (PyList.len all_matches) +:+ " matching cards." |}).
Proof.
  unfold search_cards_in_collections. cbv zeta.
  unfold mbind at 1, tool_bind.
  pose proof (search_collections_run (PyStr.lower (PyStr.strip query)) ids [] w)
    as H.
  destruct (search_collections _ _ _ _ _) as [[m|e] w']; simpl in H; [|done].
  injection H as ->. unfold mbind at 1, tool_bind, lift. simpl.
  by destruct (PyList.sort _ _ _).
Qed.

End Search.

(** ** The tools, unfolded *)

Section Find.
Variable settings : Settings.

Lemma find_list (query : string) (limit : Z) (w : world) (items : list item) :
  (MetabaseClient.request settings "GET" "/collection" w).1 = Ok (PList items) →
  (find_candidate_collections settings query limit w).1
  = (matched ← scan_collections (PyStr.lower (PyStr.strip query)) items [];
     sorted ← PyList.sort collection_sort_key false matched;
     let limited := PyList.slice sorted None (Some limit) in
     Ok {| fc_query := query;
           fc_collections := limited;
           fc_results :=
             {[ "total_collections_searched" := PInt (PyList.len items);
                "matched_collections" := PInt (PyList.len sorted);
                "returned_collections" := PInt (PyList.len limited) ]};
           fc_note :=
             Some "Collections matching query in name or description. Use search_cards_in_collections next." |}).
Proof.
  intros H. unfold find_candidate_collections.
  unfold mbind at 1, tool_bind.
  destruct (MetabaseClient.request _ _ _ _) as [[p|e] w']; simpl in H; [|done].
  injection H as ->. unfold mbind at 1, tool_bind, lift.
  destruct (scan_collections _ _ _) as [m|]; simpl; [|done].
  unfold mbind at 1, tool_bind.
  by destruct (PyList.sort _ _ _).
Qed.

Lemma find_non_list (query : string) (limit : Z) (w : world) (raw : string) :
  (MetabaseClient.request settings "GET" "/collection" w).1
  = Ok (PNonList raw) →
  (find_candidate_collections settings query limit w).1
  = Ok {| fc_query := query;
          fc_collections := [];
          fc_results :=
            {[ "total_collections_searched" := PInt 0;
               "matched_collections" := PInt 0 ]};
          fc_note := None |}.
Proof.
  intros H. unfold find_candidate_collections.
  unfold mbind at 1, tool_bind.
  destruct (MetabaseClient.request _ _ _ _) as [[p|e] w']; simpl in H; [|done].
  by injection H as ->.
Qed.

Lemma elem_of_objects (items : list item) (d : dict) :
  d ∈ objects items ↔ Some d ∈ items ∧ d ≠ ∅.
Proof.
  unfold objects. rewrite list_elem_of_omap. split.
  - intros ([d'|] & Hin & H); [|done].
    case_bool_decide; [done|]. by simplify_eq.
  - intros [Hin Hne]. exists (Some d). split; [done|].
    by rewrite bool_decide_false.
Qed.

Lemma collection_key_raises (m : dict) (e : exn) :
  collection_sort_key m = Raise e → e = AttributeError.
Proof.
  unfold collection_sort_key.
  destruct (Py.get_or m "collection_name" (PStr "")); simpl;
    intros H; by simplify_eq.
Qed.

(** Whenever a matched collection has no name, the sort of the matches
    raises [AttributeError] and so does the tool. *)
Lemma unnamed_match_raises (query : string) (limit : Z) (w : world)
    (items : list item) (matched : list dict) :
  (MetabaseClient.request settings "GET" "/collection" w).1 = Ok (PList items) →
  scan_collections (PyStr.lower (PyStr.strip query)) items [] = Ok matched →
  Exists (fun m => m !! "collection_name" = Some PNone) matched →
  (find_candidate_collections settings query limit w).1 = Raise AttributeError.
Proof.
  intros Hr Hs Hex. rewrite (find_list _ _ _ _ Hr), Hs. simpl.
  unfold PyList.sort.
  rewrite (decorate_raises collection_sort_key matched AttributeError); [done| |].
  - intros ??. apply collection_key_raises.
  - eapply Exists_impl; [done|]. intros m Hm. simpl in Hm.
    unfold collection_sort_key, Py.get_or. by rewrite Hm.
Qed.

End Find.

Section Pagination.
Variable settings : Settings.

Lemma search_paginates (query : string) (ids : list Z) (limit offset : Z)
    (w : world) (r : SearchResult) :
  (search_cards_in_collections settings query ids limit offset w).1 = Ok r →
  paginates (sr_pagination r) "total_found" limit offset
    (PyList.len (sr_cards r)).
Proof.
  rewrite search_run. intros H.
  destruct (PyList.sort _ _ _) as [sorted|]; simpl in H; [|done].
  injection H as <-. simpl.
  eexists _, _, _. repeat split; try reflexivity.
  apply slice_page_bound; done.
  apply slice_page_bound; done.
Qed.

Lemma list_paginates (limit offset : Z) (filter_type : string) (w : world)
    (page : CardPage) :
  (list_cards_paginated settings limit offset filter_type w).1
  = Ok (Paged page) →
  paginates (cp_pagination page) "total_available" limit offset
    (PyList.len (cp_cards page)).
Proof.
  unfold list_cards_paginated. cbv zeta. unfold mbind, tool_bind.
  destruct (MetabaseClient.request _ _ _ _) as [[[cards|raw]|e] w'];
    simpl; intros H; simplify_eq. simpl.
  eexists _, _, _. repeat split; try reflexivity.
  apply slice_page_bound; done.
  apply slice_page_bound; done.
Qed.

End Pagination.

(** ** Where the matches of a search come from *)

Section Matches.
Variable settings : Settings.

Lemma outcome_ok (url : string) (t : transport_result) (p : payload) :
  MetabaseClient.outcome settings url t = Ok p →
  ∃ r, t = Received r ∧ decoded r = Some p.
Proof.
  destruct t as [r|[]]; simpl; try done.
  destruct (negb (MetabaseClient.is_success r)).
  - by destruct (if negb _ then _ else _).
  - unfold MetabaseClient.json. destruct (decoded r) eqn:E; [|done].
    intros H. injection H as ->. by exists r.
Qed.

(** Where a match of one turn comes from. *)
Lemma matches_of_elem (term : string) (cid : Z) (o : result payload)
    (m : dict) :
  m ∈ matches_of term cid o →
  ∃ all d, o = Ok (PList all) ∧ Some d ∈ all ∧ m = matched_card d
           ∧ Py.eq_int (Py.get d "collection_id") cid = true.
Proof.
  unfold matches_of. destruct o as [[all|raw]|e]; try by intros ?%elem_of_nil.
  destruct (collection_cards cid all) as [cards|] eqn:E;
    [|by intros ?%elem_of_nil].
  intros (d & Hd & ->)%match_cards_elem.
  destruct (collection_cards_elem _ _ _ _ E Hd). by exists all, d.
Qed.

Lemma all_matches_elem (term : string) (ids : list Z) (w : world) (m : dict) :
  m ∈ all_matches_of settings term ids w →
  ∃ i cid, ids !! i = Some cid ∧ m ∈ matches_of term cid (fetch settings w i).
Proof.
  unfold all_matches_of. rewrite list_elem_of_join.
  intros (l & Hm & (i & cid & -> & Hi)%elem_of_lookup_imap). by exists i, cid.
Qed.

Lemma matched_card_collection_id (d : dict) :
  Py.get (matched_card d) "collection_id" = Py.get d "collection_id".
Proof. reflexivity. Qed.

Lemma matched_card_updated_at (d : dict) :
  Py.get (matched_card d) "updated_at" = Py.get d "updated_at".
Proof. reflexivity. Qed.

Lemma matched_card_dom (d : dict) : dom (matched_card d) = card_fields.
Proof.
  unfold matched_card, card_fields. rewrite !dom_insert_L, dom_singleton_L.
  set_solver.
Qed.

Lemma other_matches_eq (term : string) (ids : list Z) (w : world) (k : nat)
    (e : exn) :
  fetch settings w k = Raise e →
  all_matches_of settings term ids w = other_matches settings term ids w k.
Proof.
  intros H. unfold all_matches_of, other_matches. f_equal.
  apply imap_ext. intros i cid _. simpl.
  case_bool_decide; [subst i; by rewrite H|done].
Qed.

(** A failed fetch leaves the same matches as an empty card list. *)
Lemma all_matches_answered_empty (term : string) (ids : list Z) (w : world)
    (k : nat) (e : exn) :
  fetch settings w k = Raise e →
  all_matches_of settings term ids
    (answered w (length (sent w) + k) empty_listing)
  = all_matches_of settings term ids w.
Proof.
  intros H. unfold all_matches_of. f_equal.
  apply imap_ext. intros i cid _. simpl. unfold fetch at 1. simpl.
  case_bool_decide as Hi.
  - assert (i = k) as -> by lia. by rewrite H.
  - done.
Qed.

Lemma well_dated_keys (term : string) (ids : list Z) (w : world) :
  well_dated w →
  Forall (fun m => ∃ s, card_sort_key m = Ok (PStr s))
    (all_matches_of settings term ids w).
Proof.
  intros Hw. apply Forall_forall. intros m (i & cid & _ & Hm)%all_matches_elem.
  apply matches_of_elem in Hm as (all & d & Ho & Hd & -> & _).
  apply outcome_ok in Ho as (r & Hr & Hdec).
  pose proof (Hw _ _ _ _ Hr Hdec Hd) as Hdated.
  unfold card_sort_key. rewrite matched_card_updated_at.
  unfold dated in Hdated. unfold Py.or_.
  destruct (Py.get d "updated_at") as [| | |s]; try done; simpl.
  - by exists "".
  - destruct (negb _); by eexists.
Qed.

End Matches.

Lemma StronglySorted_lookup_p {A} (R : relation A) (l : list A) (i j : nat)
    (a b : A) :
  StronglySorted R l → (i < j)%nat → l !! i = Some a → l !! j = Some b →
  R a b.
Proof.
  intros Hs Hij Ha Hb.
  rewrite <-(take_drop_middle l i a Ha) in Hs, Hb.
  apply StronglySorted_app_1_r, StronglySorted_cons in Hs as [HF _].
  rewrite Forall_forall in HF. apply HF.
  assert (length (take i l) = i) as Hlen.
  { apply length_take_le. apply lookup_lt_Some in Ha. lia. }
  rewrite lookup_app_r in Hb by lia. rewrite Hlen in Hb.
  destruct (j - i)%nat as [|n] eqn:E; [lia|]. simpl in Hb.
  by eapply list_elem_of_lookup_2.
Qed.

Lemma card_key_blank (a : dict) :
  Py.truthy (Py.get a "updated_at") = false →
  card_sort_key a = Ok (PStr "").
Proof. unfold card_sort_key, Py.or_. by intros ->. Qed.

Lemma card_key_blank_inv (b : dict) :
  card_sort_key b = Ok (PStr "") → Py.truthy (Py.get b "updated_at") = false.
Proof.
  unfold card_sort_key, Py.or_.
  destruct (Py.truthy (Py.get b "updated_at")) eqn:E; [|done].
  intros H. injection H as H. by rewrite H in E.
Qed.

(** * The claims *)

Import Examples.

(** ** Collection discovery *)

(** C1 (the code departs from the claim).  The upstream list holds the
    collections [{"id": 7, "name": null, "description": "Finance team"}] and
    "Team Ops"; the query "team" matches the description of the first and
    the name of the second.  The tool does not complete: the sort key of the
    first match is [None.lower()], and the call raises [AttributeError]
    instead of sorting the null name as the empty string. *)
Theorem find_candidate_collections_raises_on_unnamed_match :
  (find_candidate_collections cfg "team" 10
     (always (listing [Some unnamed; Some team_ops]))).1
  = Raise AttributeError.
Proof. vm_compute. reflexivity. Qed.

(** The matching loop itself completes on that input, with both
    collections matched. *)
Example unnamed_collection_is_matched :
  (fun m : list dict => (fun d : dict => d !! "collection_name") <$> m)
    <$> match scan_collections (PyStr.lower (PyStr.strip "team"))
                [Some unnamed; Some team_ops] [] with
        | Ok m => Some m
        | Raise _ => None
        end
  = Some [Some PNone; Some (PStr "Team Ops")].
Proof. vm_compute. reflexivity. Qed.

(** The scenario of the spec: of "Team Ops", "Sales Reports" and "Archive",
    the query "team" with a limit of 5 returns "Team Ops" alone. *)
Example team_scenario :
  ∃ r,
    (find_candidate_collections cfg "team" 5
       (always (listing [Some team_ops; Some sales_reports;
                         Some plain_archive]))).1 = Ok r
    ∧ (fun d : dict => d !! "collection_name") <$> fc_collections r
      = [Some (PStr "Team Ops")]
    ∧ fc_results r !! "total_collections_searched" = Some (PInt 3)
    ∧ fc_results r !! "matched_collections" = Some (PInt 1)
    ∧ fc_results r !! "returned_collections" = Some (PInt 1).
Proof. eexists. repeat split; vm_compute; reflexivity. Qed.

(** C3, as stated, fails.  Upstream holds an empty object and the
    collections "Team Ops" and "Archive"; the query is empty and
    [limit_collections] is 1.  All three entries are non-null and contain
    the query, yet the tool returns "Archive" alone: the empty object is
    skipped with the null entries, and the matches are cut to the limit. *)
Lemma find_returns_not_exactly_the_matching :
  ∃ r,
    (find_candidate_collections cfg "" 1
       (always (listing [Some (∅ : dict); Some team_ops; Some archive]))).1
    = Ok r
    ∧ fc_collections r = [matched_collection archive]
    ∧ field_match "" (∅ : dict) = true
    ∧ field_match "" team_ops = true
    ∧ ¬ returns_exactly_the_matching ""
          [Some (∅ : dict); Some team_ops; Some archive] r.
Proof.
  assert (∃ r,
    (find_candidate_collections cfg "" 1
       (always (listing [Some (∅ : dict); Some team_ops; Some archive]))).1
    = Ok r ∧ fc_collections r = [matched_collection archive])
    as (r & Hr & Hc) by (eexists; split; vm_compute; reflexivity).
  assert (matched_collection team_ops ≠ matched_collection archive) as Hne.
  { intros E. apply (f_equal (fun m : dict => m !! "collection_id")) in E.
    revert E. vm_compute. discriminate. }
  exists r. split; [exact Hr|]. split; [exact Hc|].
  split; [vm_compute; reflexivity|]. split; [vm_compute; reflexivity|].
  intros H. destruct (H (matched_collection team_ops)) as [_ Hin].
  rewrite Hc in Hin. apply Hne. apply list_elem_of_singleton, Hin.
  exists team_ops. split; [right; left|].
  split; [vm_compute; reflexivity|reflexivity].
Qed.

(** C3, amended.  Whenever [find_candidate_collections] returns on a list
    payload, the collections it returns are the slice [[:limit_collections]]
    of the matches sorted by lowercased name, where the matches are the
    projections of exactly those entries that are neither null nor an empty
    object and whose lowercased name or description (empty when null or
    absent) contains the stripped, lowercased query; every returned
    collection comes from such an entry. *)
Theorem find_returns_prefix_of_sorted_matching (settings : Settings)
    (query : string) (limit : Z) (w : world) (items : list item)
    (r : FindResult) :
  (MetabaseClient.request settings "GET" "/collection" w).1 = Ok (PList items) →
  (find_candidate_collections settings query limit w).1 = Ok r →
  ∃ sorted,
    sorted ≡ₚ matched_collection
                <$> filter (fun d => field_match query d = true)
                      (objects items)
    ∧ StronglySorted (sorted_by collection_sort_key false) sorted
    ∧ fc_collections r = PyList.slice sorted None (Some limit)
    ∧ fc_results r !! "matched_collections"
      = Some (PInt (PyList.len sorted))
    ∧ ∀ m, m ∈ fc_collections r →
           ∃ d, Some d ∈ items ∧ d ≠ ∅ ∧ field_match query d = true
                ∧ m = matched_collection d.
Proof.
  intros Hr H. rewrite (find_list _ _ _ _ _ Hr) in H.
  destruct (scan_collections _ _ _) as [matched|] eqn:Es; simpl in H; [|done].
  destruct (PyList.sort _ _ _) as [sorted|] eqn:Eo; simpl in H; [|done].
  injection H as <-. simpl.
  apply scan_collections_ok in Es. simpl in Es. subst matched.
  apply sort_spec in Eo as [Hp Hs].
  exists sorted. repeat split; try done.
  intros m Hm%slice_subseteq. rewrite Hp in Hm.
  apply list_elem_of_fmap in Hm as (d & -> & Hd).
  apply list_elem_of_filter in Hd as [Hmatch Hd].
  apply elem_of_objects in Hd as [Hin Hne]. by exists d.
Qed.

Lemma find_returns_prefix_of_sorted_matching_witness :
  ∃ r sorted,
    (find_candidate_collections cfg "" 1
       (always (listing [Some (∅ : dict); Some team_ops; Some archive]))).1
    = Ok r
    ∧ sorted ≡ₚ matched_collection
                  <$> filter (fun d => field_match "" d = true)
                        (objects [Some (∅ : dict); Some team_ops;
                                  Some archive])
    ∧ StronglySorted (sorted_by collection_sort_key false) sorted
    ∧ fc_collections r = PyList.slice sorted None (Some 1).
Proof.
  assert (∃ r,
    (find_candidate_collections cfg "" 1
       (always (listing [Some (∅ : dict); Some team_ops; Some archive]))).1
    = Ok r) as [r Hr] by (eexists; vm_compute; reflexivity).
  assert ((MetabaseClient.request cfg "GET" "/collection"
             (always (listing [Some (∅ : dict); Some team_ops;
                               Some archive]))).1
          = Ok (PList [Some (∅ : dict); Some team_ops; Some archive]))
    as Hl by (vm_compute; reflexivity).
  destruct (find_returns_prefix_of_sorted_matching cfg "" 1 _ _ r Hl Hr)
    as (sorted & Hp & Hs & Hc & _).
  exists r, sorted. split; [exact Hr|]. split; [exact Hp|].
  split; [exact Hs|exact Hc].
Defined.

(** C7 (the code departs from the claim).  Upstream answers [GET
    /collection] with a JSON object.  The tool does not fail and returns no
    collections, with [total_collections_searched] and
    [matched_collections] equal to zero; but the results carry no
    [returned_collections] at all, where the claim, and the return for a
    list payload, have it (equal to zero here). *)
Theorem find_candidate_collections_non_list_omits_returned :
  ∃ r,
    (find_candidate_collections cfg "team" 10 (always an_object)).1 = Ok r
    ∧ fc_collections r = []
    ∧ fc_results r !! "total_collections_searched" = Some (PInt 0)
    ∧ fc_results r !! "matched_collections" = Some (PInt 0)
    ∧ fc_results r !! "returned_collections" = None.
Proof. eexists. repeat split; vm_compute; reflexivity. Qed.

(** The same for every payload that is not a list. *)
Lemma non_list_result (settings : Settings) (query : string) (limit : Z)
    (w : world) (raw : string) :
  (MetabaseClient.request settings "GET" "/collection" w).1
  = Ok (PNonList raw) →
  ∃ r,
    (find_candidate_collections settings query limit w).1 = Ok r
    ∧ fc_collections r = []
    ∧ fc_results r !! "total_collections_searched" = Some (PInt 0)
    ∧ fc_results r !! "matched_collections" = Some (PInt 0)
    ∧ fc_results r !! "returned_collections" = None.
Proof.
  intros H. rewrite (find_non_list _ _ _ _ _ H). eexists.
  split; [done|]. by repeat split.
Qed.

(** C8.  For a list payload and [limit_collections >= 0], whenever the tool
    returns, its results report [matched_collections >=
    returned_collections], [returned_collections = min(matched_collections,
    limit_collections)], and [total_collections_searched] is the length of
    the raw upstream list, null entries included. *)
Theorem candidate_counts (settings : Settings) (query : string) (limit : Z)
    (w : world) (items : list item) (r : FindResult) :
  (MetabaseClient.request settings "GET" "/collection" w).1 = Ok (PList items) →
  0 ≤ limit →
  (find_candidate_collections settings query limit w).1 = Ok r →
  ∃ total matched returned,
    fc_results r !! "total_collections_searched" = Some (PInt total)
    ∧ fc_results r !! "matched_collections" = Some (PInt matched)
    ∧ fc_results r !! "returned_collections" = Some (PInt returned)
    ∧ returned ≤ matched
    ∧ returned = Z.min matched limit
    ∧ total = PyList.len items
    ∧ returned = PyList.len (fc_collections r).
Proof.
  intros Hr Hlimit H. rewrite (find_list _ _ _ _ _ Hr) in H.
  destruct (scan_collections _ _ _) as [matched|]; simpl in H; [|done].
  destruct (PyList.sort _ _ _) as [sorted|]; simpl in H; [|done].
  injection H as <-. simpl.
  eexists _, _, _. split; [reflexivity|]. split; [reflexivity|].
  split; [reflexivity|].
  rewrite slice_prefix_len by done. repeat split; lia.
Qed.

Lemma candidate_counts_witness :
  ∃ r total matched returned,
    (find_candidate_collections cfg "team" 1
       (always (listing [Some team_ops; None; Some sales_reports;
                         Some archive]))).1 = Ok r
    ∧ fc_results r !! "total_collections_searched" = Some (PInt total)
    ∧ fc_results r !! "matched_collections" = Some (PInt matched)
    ∧ fc_results r !! "returned_collections" = Some (PInt returned)
    ∧ returned ≤ matched
    ∧ returned = Z.min matched 1
    ∧ total = 4.
Proof.
  assert (∃ r,
    (find_candidate_collections cfg "team" 1
       (always (listing [Some team_ops; None; Some sales_reports;
                         Some archive]))).1 = Ok r)
    as (r & Hr) by (eexists; vm_compute; reflexivity).
  assert ((MetabaseClient.request cfg "GET" "/collection"
             (always (listing [Some team_ops; None; Some sales_reports;
                               Some archive]))).1
          = Ok (PList [Some team_ops; None; Some sales_reports;
                       Some archive]))
    as Hl by (vm_compute; reflexivity).
  destruct (candidate_counts cfg "team" 1 _ _ r Hl ltac:(lia) Hr)
    as (total & matched & returned & Ht & Hm & Hret & Hle & Hmin & Htot & _).
  exists r, total, matched, returned.
  split; [exact Hr|]. split; [exact Ht|]. split; [exact Hm|].
  split; [exact Hret|]. split; [exact Hle|]. split; [exact Hmin|exact Htot].
Defined.

(** ** Pagination *)

(** C2.  In every response of [search_cards_in_collections] and in every
    paged response of [list_cards_paginated] the pagination object has
    [returned] equal to the length of the returned page and [has_more] equal
    to [offset + limit < total_found] (respectively [total_available]); and
    when [limit >= 0] and [offset >= 0], [0 <= returned <= limit]. *)
Theorem pagination_invariant (settings : Settings) (limit offset : Z)
    (w : world) :
  (∀ query ids r,
     (search_cards_in_collections settings query ids limit offset w).1 = Ok r →
     paginates (sr_pagination r) "total_found" limit offset
       (PyList.len (sr_cards r)))
  ∧ (∀ filter_type page,
       (list_cards_paginated settings limit offset filter_type w).1
       = Ok (Paged page) →
       paginates (cp_pagination page) "total_available" limit offset
         (PyList.len (cp_cards page))).
Proof.
  split.
  - intros query ids r. apply search_paginates.
  - intros filter_type page. apply list_paginates.
Qed.

Lemma pagination_invariant_witness :
  ∃ r page,
    (search_cards_in_collections cfg "revenue" [10; 11] 1 0
       (always (listing [Some revenue_ytd; Some user_growth;
                         Some revenue_draft]))).1 = Ok r
    ∧ paginates (sr_pagination r) "total_found" 1 0 (PyList.len (sr_cards r))
    ∧ (list_cards_paginated cfg 1 0 "all"
         (always (listing [Some revenue_ytd; Some user_growth;
                           Some revenue_draft]))).1 = Ok (Paged page)
    ∧ paginates (cp_pagination page) "total_available" 1 0
        (PyList.len (cp_cards page)).
Proof.
  assert (∃ r,
    (search_cards_in_collections cfg "revenue" [10; 11] 1 0
       (always (listing [Some revenue_ytd; Some user_growth;
                         Some revenue_draft]))).1 = Ok r) as [r Hr]
    by (eexists; vm_compute; reflexivity).
  assert (∃ page,
    (list_cards_paginated cfg 1 0 "all"
       (always (listing [Some revenue_ytd; Some user_growth;
                         Some revenue_draft]))).1 = Ok (Paged page))
    as [page Hpage] by (eexists; vm_compute; reflexivity).
  exists r, page.
  destruct (pagination_invariant cfg 1 0
    (always (listing [Some revenue_ytd; Some user_growth;
                      Some revenue_draft]))) as [Hs Hl].
  split; [exact Hr|]. split; [exact (Hs _ _ _ Hr)|].
  split; [exact Hpage|]. exact (Hl _ _ Hpage).
Defined.

(** ** Scoped card search *)

(** The scenario of the spec: cards "Revenue YTD" and "User Growth" in
    collection 10, none in collection 11; searching "revenue" across both
    with a limit of 10 returns the first card alone. *)
Example revenue_scenario :
  ∃ r,
    (search_cards_in_collections cfg "revenue" [10; 11] 10 0
       (always (listing [Some revenue_ytd; Some user_growth]))).1 = Ok r
    ∧ (fun c : dict => c !! "id") <$> sr_cards r = [Some (PInt 1)]
    ∧ sr_pagination r !! "total_found" = Some (PInt 1)
    ∧ sr_pagination r !! "has_more" = Some (PBool false)
    ∧ sr_note r
      = "Searched 2 collections for 'revenue'. Found 1 matching cards.".
Proof. eexists. repeat split; vm_compute; reflexivity. Qed.

(** C4.  Whenever [search_cards_in_collections] returns, its page of cards
    is a contiguous slice, [[offset : offset + limit]], of the merged
    matches sorted in descending order of [updated_at], a missing or null
    [updated_at] counting as the empty string; so a card without
    [updated_at] never stands before one that has a non-empty value. *)
Theorem page_is_slice_of_sorted_matches (settings : Settings) (query : string)
    (ids : list Z) (limit offset : Z) (w : world) (r : SearchResult) :
  (search_cards_in_collections settings query ids limit offset w).1 = Ok r →
  ∃ merged sorted,
    (search_collections settings (PyStr.lower (PyStr.strip query)) ids [] w).1
    = Ok merged
    ∧ sorted ≡ₚ merged
    ∧ StronglySorted (sorted_by card_sort_key true) sorted
    ∧ sr_cards r = PyList.slice sorted (Some offset) (Some (offset + limit))
    ∧ (∃ before after, sorted = before ++ sr_cards r ++ after)
    ∧ ∀ i j a b,
        (i < j)%nat → sr_cards r !! i = Some a → sr_cards r !! j = Some b →
        Py.truthy (Py.get a "updated_at") = false →
        Py.truthy (Py.get b "updated_at") = false.
Proof.
  rewrite search_run. intros H.
  destruct (PyList.sort _ _ _) as [sorted|] eqn:Eo; simpl in H; [|done].
  injection H as <-. simpl.
  apply sort_spec in Eo as [Hp Hs].
  eexists _, sorted. split; [apply search_collections_run|].
  split; [done|]. split; [done|]. split; [done|].
  split; [apply slice_contiguous|].
  intros i j a b Hij Ha Hb Hblank.
  destruct (slice_contiguous sorted (Some offset) (Some (offset + limit)))
    as (before & after & Hsplit).
  rewrite Hsplit in Hs.
  apply StronglySorted_app_1_r, StronglySorted_app_1_l in Hs.
  destruct (StronglySorted_lookup_p _ _ _ _ _ _ Hs Hij Ha Hb)
    as (ka & kb & Hka & Hkb & Hle).
  rewrite (card_key_blank _ Hblank) in Hka. injection Hka as <-.
  apply key_le_empty_l in Hle. subst kb. by apply card_key_blank_inv.
Qed.

Lemma page_is_slice_of_sorted_matches_witness :
  ∃ r merged sorted,
    (search_cards_in_collections cfg "" [11; 10] 2 1
       (always (listing [Some revenue_ytd; Some user_growth;
                         Some revenue_draft]))).1 = Ok r
    ∧ sorted ≡ₚ merged
    ∧ StronglySorted (sorted_by card_sort_key true) sorted
    ∧ sr_cards r = PyList.slice sorted (Some 1) (Some (1 + 2))
    ∧ (fun c : dict => c !! "id") <$> sr_cards r
      = [Some (PInt 1); Some (PInt 3)].
Proof.
  assert (∃ r,
    (search_cards_in_collections cfg "" [11; 10] 2 1
       (always (listing [Some revenue_ytd; Some user_growth;
                         Some revenue_draft]))).1 = Ok r
    ∧ (fun c : dict => c !! "id") <$> sr_cards r
      = [Some (PInt 1); Some (PInt 3)])
    as (r & Hr & Hc) by (eexists; split; vm_compute; reflexivity).
  destruct (page_is_slice_of_sorted_matches cfg "" [11; 10] 2 1 _ r Hr)
    as (merged & sorted & _ & Hp & Hs & Hslice & _).
  exists r, merged, sorted. split; [exact Hr|]. split; [exact Hp|].
  split; [exact Hs|]. split; [exact Hslice|exact Hc].
Defined.

(** C5.  Whenever [search_cards_in_collections] returns, every card of its
    page has a [collection_id] equal to one of the requested ids, and is an
    object with the fields [id], [name], [description], [collection_id],
    [updated_at], [created_at] and no others. *)
Theorem returned_cards_are_scoped_projections (settings : Settings)
    (query : string) (ids : list Z) (limit offset : Z) (w : world)
    (r : SearchResult) :
  (search_cards_in_collections settings query ids limit offset w).1 = Ok r →
  ∀ c, c ∈ sr_cards r →
       (∃ id, id ∈ ids ∧ Py.eq_int (Py.get c "collection_id") id = true)
       ∧ dom c = card_fields.
Proof.
  rewrite search_run. intros H.
  destruct (PyList.sort _ _ _) as [sorted|] eqn:Eo; simpl in H; [|done].
  injection H as <-. simpl.
  apply sort_spec in Eo as [Hp _].
  intros c Hc%slice_subseteq. rewrite Hp in Hc.
  apply all_matches_elem in Hc as (i & cid & Hi & Hc).
  apply matches_of_elem in Hc as (all & d & _ & _ & -> & Heq).
  split; [|apply matched_card_dom].
  exists cid. split; [by eapply list_elem_of_lookup_2|].
  by rewrite matched_card_collection_id.
Qed.

Lemma returned_cards_are_scoped_projections_witness :
  ∃ r c,
    (search_cards_in_collections cfg "revenue" [10; 11] 10 0
       (always (listing [Some revenue_ytd; Some user_growth;
                         Some revenue_draft]))).1 = Ok r
    ∧ c ∈ sr_cards r
    ∧ (∃ id, id ∈ [10; 11] ∧ Py.eq_int (Py.get c "collection_id") id = true)
    ∧ dom c = card_fields.
Proof.
  assert (∃ r,
    (search_cards_in_collections cfg "revenue" [10; 11] 10 0
       (always (listing [Some revenue_ytd; Some user_growth;
                         Some revenue_draft]))).1 = Ok r
    ∧ sr_cards r !! 0%nat = Some (matched_card revenue_ytd))
    as (r & Hr & Hc) by (eexists; split; vm_compute; reflexivity).
  apply list_elem_of_lookup_2 in Hc.
  destruct (returned_cards_are_scoped_projections cfg "revenue" [10; 11] 10 0
              _ r Hr _ Hc) as [Hid Hdom].
  exists r, (matched_card revenue_ytd).
  split; [exact Hr|]. split; [exact Hc|]. split; [exact Hid|exact Hdom].
Defined.

(** C6, as stated, fails.  The ids 11 and 10 are searched for "revenue";
    the fetch for 11 fails with a connection error, the fetch for 10
    delivers two matching cards, one last updated at "2024-01-01" and one
    whose [updated_at] is the number 1704067200.  The failed fetch is
    swallowed, but the call does not return: the final sort, which stands
    outside the [try] of the loop, compares the string with the number and
    raises [TypeError]. *)
Lemma failed_fetch_then_sort_raises :
  fetch cfg
    (first_then (Failed (ConnectError "refused"))
       (listing [Some revenue_ytd; Some Samples.stamped])) 0
  = Raise (Exception
      "Connection error when connecting to http://metabase.local/api/card: refused")
  ∧ (search_cards_in_collections cfg "revenue" [11; 10] 10 0
       (first_then (Failed (ConnectError "refused"))
          (listing [Some revenue_ytd; Some Samples.stamped]))).1
    = Raise TypeError
  ∧ ¬ returns_despite_failed_fetch cfg "revenue" [11; 10] 10 0
        (first_then (Failed (ConnectError "refused"))
           (listing [Some revenue_ytd; Some Samples.stamped])) 0.
Proof.
  assert ((search_cards_in_collections cfg "revenue" [11; 10] 10 0
             (first_then (Failed (ConnectError "refused"))
                (listing [Some revenue_ytd; Some Samples.stamped]))).1
          = Raise TypeError) as E by (vm_compute; reflexivity).
  split; [vm_compute; reflexivity|]. split; [exact E|].
  intros (r & sorted & Hr & _).
  pose proof (eq_trans (eq_sym E) Hr) as H. discriminate H.
Qed.

(** C6, amended.  If the fetch for one requested collection id fails, that
    id contributes no match and the loop goes on: the merged matches are
    those of the other ids, and the call ends exactly as if that fetch had
    delivered an empty card list.  If moreover the [updated_at] of every
    upstream card is a string, null or absent, the call returns a result,
    no exception reaching the caller, and its page and [total_found] are
    those of the matches found under the other ids. *)
Theorem failed_fetch_contributes_nothing (settings : Settings)
    (query : string) (ids : list Z) (limit offset : Z) (w : world) (k : nat)
    (cid : Z) (e : exn) :
  ids !! k = Some cid →
  fetch settings w k = Raise e →
  (search_collections settings (PyStr.lower (PyStr.strip query)) ids [] w).1
  = Ok (other_matches settings (PyStr.lower (PyStr.strip query)) ids w k)
  ∧ (search_cards_in_collections settings query ids limit offset w).1
    = (search_cards_in_collections settings query ids limit offset
         (answered w (length (sent w) + k) empty_listing)).1
  ∧ (well_dated w →
     ∃ r sorted,
       (search_cards_in_collections settings query ids limit offset w).1 = Ok r
       ∧ sorted ≡ₚ other_matches settings (PyStr.lower (PyStr.strip query))
                     ids w k
       ∧ sr_cards r = PyList.slice sorted (Some offset) (Some (offset + limit))
       ∧ sr_pagination r !! "total_found" = Some (PInt (PyList.len sorted))).
Proof.
  intros Hk He. split; [|split].
  - rewrite search_collections_run. simpl. f_equal. by eapply other_matches_eq.
  - rewrite !search_run. by erewrite all_matches_answered_empty.
  - intros Hw. rewrite search_run.
    destruct (sort_total_str card_sort_key true
                (all_matches_of settings (PyStr.lower (PyStr.strip query))
                   ids w)) as [sorted Hsorted].
    { by apply well_dated_keys. }
    rewrite Hsorted. simpl. eexists _, sorted. split; [done|].
    apply sort_spec in Hsorted as [Hp _]. simpl.
    split; [|by split].
    rewrite Hp. by erewrite other_matches_eq.
Qed.

Lemma failed_fetch_world_dated :
  well_dated
    (first_then (Failed (ConnectError "refused"))
       (listing [Some revenue_ytd; Some user_growth; Some revenue_draft])).
Proof.
  intros [|n] r cards d Hw Hdec Hd; simpl in Hw; [done|].
  injection Hw as <-. simpl in Hdec. injection Hdec as <-.
  apply list_elem_of_In in Hd. simpl in Hd.
  destruct Hd as [Hd|[Hd|[Hd|[]]]]; injection Hd as <-;
    vm_compute; reflexivity.
Defined.

Lemma failed_fetch_contributes_nothing_witness :
  ∃ r sorted,
    (search_cards_in_collections cfg "revenue" [10; 11] 10 0
       (first_then (Failed (ConnectError "refused"))
          (listing [Some revenue_ytd; Some user_growth;
                    Some revenue_draft]))).1 = Ok r
    ∧ sorted ≡ₚ other_matches cfg (PyStr.lower (PyStr.strip "revenue"))
                  [10; 11]
                  (first_then (Failed (ConnectError "refused"))
                     (listing [Some revenue_ytd; Some user_growth;
                               Some revenue_draft])) 0
    ∧ sr_cards r = PyList.slice sorted (Some 0) (Some (0 + 10))
    ∧ sr_pagination r !! "total_found" = Some (PInt (PyList.len sorted)).
Proof.
  destruct (failed_fetch_contributes_nothing cfg "revenue" [10; 11] 10 0
    (first_then (Failed (ConnectError "refused"))
       (listing [Some revenue_ytd; Some user_growth; Some revenue_draft]))
    0%nat 10 (Exception
      "Connection error when connecting to http://metabase.local/api/card: refused")
    ltac:(reflexivity) ltac:(vm_compute; reflexivity))
    as (_ & _ & Hok).
  exact (Hok failed_fetch_world_dated).
Defined.

(** What the search of the witness returns: the one match of collection
    11. *)
Example failed_fetch_example :
  ∃ r,
    (search_cards_in_collections cfg "revenue" [10; 11] 10 0
       (first_then (Failed (ConnectError "refused"))
          (listing [Some revenue_ytd; Some user_growth;
                    Some revenue_draft]))).1 = Ok r
    ∧ sr_pagination r !! "total_found" = Some (PInt 1)
    ∧ (fun c : dict => c !! "id") <$> sr_cards r = [Some (PInt 3)].
Proof. eexists. repeat split; vm_compute; reflexivity. Qed.

(** ** The request gateway *)

(** C9 (the code departs from the claim).  Upstream answers with status 401
    and the plain-text body [Unauthenticated].  The gateway decodes the body
    of a failed response as JSON before it builds its message; the body is
    not JSON, so the call fails with [JSONDecodeError], not with the error
    whose message carries the status code and the body. *)
Theorem request_raises_decode_error_on_text_error_body :
  (MetabaseClient.request cfg "GET" "/collection" (always unauthenticated)).1
  = Raise JSONDecodeError.
Proof. vm_compute. reflexivity. Qed.

Section GatewayErrors.

Variable settings : Settings.

(** A non-2xx response whose body is empty or is JSON is reported with its
    status code and its body. *)
Lemma api_error_message (url : string) (r : response) :
  MetabaseClient.is_success r = false →
  content r = "" ∨ is_Some (decoded r) →
  MetabaseClient.outcome settings url (Received r)
  = Raise (Exception ("API request failed with status "
                      +:+ pretty (status_code r) +:+ ": " +:+ content r)).
Proof.
  destruct r as [status body dec]. unfold MetabaseClient.outcome.
  intros -> Hbody. simpl in *. unfold MetabaseClient.json. simpl.
  destruct Hbody as [->|[v ->]]; [done|]. by destruct (negb _).
Qed.

(** The three transport failures the gateway names are reported with
    three different messages. *)
Lemma transport_failures_differ (url e1 e2 e3 : string) :
  MetabaseClient.outcome settings url (Failed (ConnectTimeout e1))
  ≠ MetabaseClient.outcome settings url (Failed (ReadTimeout e2))
  ∧ MetabaseClient.outcome settings url (Failed (ConnectTimeout e1))
    ≠ MetabaseClient.outcome settings url (Failed (ConnectError e3))
  ∧ MetabaseClient.outcome settings url (Failed (ReadTimeout e2))
    ≠ MetabaseClient.outcome settings url (Failed (ConnectError e3)).
Proof.
  repeat split; simpl; intros H; injection H as H;
    unfold String.app in H; simpl in H; discriminate H.
Qed.

(** Whatever comes back, [request] sends one request and no more. *)
Lemma request_sends_once (method path : string) (w : world) :
  sent (MetabaseClient.request settings method path w).2
  = (method, MetabaseClient.base_url settings +:+ "/api" +:+ path) :: sent w.
Proof. reflexivity. Qed.

End GatewayErrors.

(** ** The blank query *)




Lemma all_matches_uniform (settings : Settings) (term : string)
    (ids : list Z) (w : world) (o : result payload) :
  (∀ i, (i < length ids)%nat → fetch settings w i = o) →
  all_matches_of settings term ids w
  = mjoin ((fun cid => matches_of term cid o) <$> ids).
Proof.
  intros H. unfold all_matches_of. f_equal.
  rewrite <-(imap_const (fun cid => matches_of term cid o)).
  apply imap_ext. intros i cid Hi. simpl.
  by rewrite H by (by eapply lookup_lt_Some).
Qed.


Lemma forallb_Forall_true {A} (f : A → bool) (l : list A) :
  forallb f l = true → Forall (fun x => f x = true) l.
Proof.
  induction l as [|x l IH]; simpl; [constructor|].
  intros [Hx Hl]%andb_true_iff. constructor; auto.
Qed.



Import Samples Tables.

(** * Further properties of the tools *)

(** ** Slices as pages *)

Section Windows.

Context {A : Type}.
Implicit Types l : list A.

(** A slice between two bounds that are not negative. *)
Lemma slice_window l (i j : Z) :
  0 ≤ i → 0 ≤ j →
  PyList.slice l (Some i) (Some j)
  = drop (Z.to_nat i) (take (Z.to_nat j) l).
Proof.
  intros Hi Hj. unfold PyList.slice, PyList.adjust, PyList.len.
  rewrite (proj2 (Z.ltb_ge i 0)), (proj2 (Z.ltb_ge j 0)) by done.
  destruct (decide (Z.of_nat (length l) ≤ i)) as [Hn|Hn].
  - rewrite (drop_ge l) by lia. rewrite take_nil.
    symmetry. apply drop_ge. rewrite length_take. lia.
  - rewrite (Z.min_l i) by lia.
    destruct (decide (j < i)) as [Hji|Hji].
    { replace (Z.to_nat (Z.min j (Z.of_nat (length l)) - i)) with 0%nat by lia.
      symmetry. apply drop_ge. rewrite length_take. lia. }
    rewrite take_drop_commute. f_equal.
    destruct (decide (j ≤ Z.of_nat (length l))) as [Hjn|Hjn].
    + rewrite Z.min_l by lia. f_equal. lia.
    + rewrite Z.min_r by lia. rewrite !take_ge; [done|lia..].
Qed.

(** Two pages that follow each other make up the page of their joint
    length. *)
Lemma slice_pages l (offset limit limit' : Z) :
  0 ≤ offset → 0 ≤ limit → 0 ≤ limit' →
  PyList.slice l (Some offset) (Some (offset + limit))
  ++ PyList.slice l (Some (offset + limit)) (Some (offset + limit + limit'))
  = PyList.slice l (Some offset) (Some (offset + (limit + limit'))).
Proof.
  intros Ho Hl Hl'. rewrite !slice_window by lia.
  replace (offset + (limit + limit')) with (offset + limit + limit') by lia.
  set (a := Z.to_nat offset). set (b := Z.to_nat (offset + limit)).
  set (c := Z.to_nat (offset + limit + limit')).
  assert (a ≤ b ≤ c)%nat as [Hab Hbc] by lia.
  assert (take c l = take b l ++ drop b (take c l)) as E.
  { rewrite <-(take_drop b (take c l)) at 1.
    by rewrite take_take, Nat.min_l. }
  set (rest := drop b (take c l)) in *. rewrite E.
  rewrite drop_app. f_equal.
  destruct (decide (a ≤ length (take b l))%nat) as [Hle|Hgt].
  - by replace (a - length (take b l))%nat with 0%nat by lia.
  - rewrite length_take in Hgt.
    assert (rest = []) as ->
      by (subst rest; apply drop_ge; rewrite length_take; lia).
    by rewrite drop_nil.
Qed.

(** A slice that stops at a negative bound: the bound counts from the end
    of the list. *)
Lemma slice_negative_stop l (i j : Z) :
  0 ≤ i → j < 0 →
  PyList.slice l (Some i) (Some j)
  = drop (Z.to_nat i) (take (Z.to_nat (PyList.len l + j)) l).
Proof.
  intros Hi Hj. unfold PyList.slice, PyList.adjust, PyList.len.
  rewrite (proj2 (Z.ltb_ge i 0)), (proj2 (Z.ltb_lt j 0)) by done.
  destruct (decide (Z.of_nat (length l) ≤ i)) as [Hn|Hn].
  - rewrite (drop_ge l) by lia. rewrite take_nil.
    symmetry. apply drop_ge. rewrite length_take. lia.
  - rewrite (Z.min_l i) by lia.
    destruct (decide (Z.of_nat (length l) + j < i)) as [Hji|Hji].
    { replace (Z.to_nat (Z.max 0 (j + Z.of_nat (length l)) - i))
        with 0%nat by lia.
      symmetry. apply drop_ge. rewrite length_take. lia. }
    rewrite take_drop_commute. f_equal. f_equal. lia.
Qed.

Lemma slice_negative_prefix_len l (limit : Z) :
  limit < 0 →
  PyList.len (PyList.slice l None (Some limit))
  = Z.max 0 (PyList.len l + limit).
Proof.
  intros Hl. unfold PyList.slice, PyList.adjust, PyList.len.
  rewrite (proj2 (Z.ltb_lt limit 0)) by done.
  rewrite length_take, length_drop. lia.
Qed.

End Windows.

(** ** What a sort can raise *)

Section SortErrors.

Context {A : Type}.

Lemma less_raises (a b : pyval) (e : exn) :
  PyOps.less a b = Raise e → e = TypeError.
Proof.
  unfold PyOps.less.
  destruct a, b; simpl; intros H; by (discriminate H || injection H as <-).
Qed.

Lemma insert_raises k (x : A) (l : list (pyval * A)) (e : exn) :
  PyList.insert k x l = Raise e → e = TypeError.
Proof.
  induction l as [|[k' y] l IH]; simpl; [done|].
  destruct (PyOps.less k' k) as [[]|e'] eqn:E; simpl.
  - destruct (PyList.insert k x l); simpl; [done|].
    intros [= <-]. by apply IH.
  - done.
  - intros [= <-]. by eapply less_raises.
Qed.

Lemma sort_keyed_raises (l : list (pyval * A)) (e : exn) :
  PyList.sort_keyed l = Raise e → e = TypeError.
Proof.
  induction l as [|[k x] l IH]; simpl; [done|].
  destruct (PyList.sort_keyed l) as [s|e']; simpl.
  - apply insert_raises.
  - intros [= <-]. by apply IH.
Qed.

Lemma decorate_raises_key (key : A → result pyval) (l : list A) (e : exn) :
  PyList.decorate key l = Raise e → ∃ x, x ∈ l ∧ key x = Raise e.
Proof.
  induction l as [|x l IH]; simpl; [done|].
  destruct (key x) as [k|e'] eqn:Ek; simpl.
  - destruct (PyList.decorate key l) as [d|e']; simpl; [done|].
    intros [= <-]. destruct IH as (y & Hy & Hk); [done|].
    exists y. split; [by right|done].
  - intros [= <-]. exists x. split; [by left|done].
Qed.

(** A sort raises what a key raised, or the [TypeError] of a comparison. *)
Lemma sort_raises (key : A → result pyval) (reverse : bool) (l : list A)
    (e : exn) :
  PyList.sort key reverse l = Raise e →
  (∃ x, x ∈ l ∧ key x = Raise e) ∨ e = TypeError.
Proof.
  unfold PyList.sort.
  destruct (PyList.decorate key l) as [d|e'] eqn:Ed; simpl.
  - destruct (PyList.sort_keyed _) as [s|e'] eqn:Es; simpl; [done|].
    intros [= <-]. right. by eapply sort_keyed_raises.
  - intros [= <-]. left. by apply decorate_raises_key.
Qed.

(** A sort that returns has called the key on every element, and every call
    returned. *)
Lemma sort_keys_ok (key : A → result pyval) (reverse : bool) (l t : list A) :
  PyList.sort key reverse l = Ok t → Forall (fun x => is_ok (key x) = true) l.
Proof.
  unfold PyList.sort.
  destruct (PyList.decorate key l) as [d|] eqn:Ed; simpl; [|done]. intros _.
  apply decorate_spec in Ed as [<- Hk].
  apply Forall_fmap. eapply Forall_impl; [exact Hk|].
  intros [k x]. simpl. by intros ->.
Qed.

End SortErrors.

Section Delivery.

Variable settings : Settings.

Lemma request_delivers (method path : string) (w : world) (items : list item) :
  delivers w items →
  (MetabaseClient.request settings method path w).1 = Ok (PList items).
Proof.
  intros (r & Hw & Hs & Hd). rewrite request_run. simpl. rewrite Hw.
  unfold MetabaseClient.outcome, MetabaseClient.json. by rewrite Hs, Hd.
Qed.

Lemma list_cards_paginated_run (limit offset : Z) (filter_type : string)
    (w : world) (items : list item) :
  delivers w items →
  (list_cards_paginated settings limit offset filter_type w).1
  = Ok (Paged
      {| cp_cards := PyList.slice items (Some offset) (Some (offset + limit));
         cp_pagination :=
           {[ "limit" := PInt limit;
              "offset" := PInt offset;
              "returned" :=
                PInt (PyList.len (PyList.slice items (Some offset)
                                    (Some (offset + limit))));
              "total_available" := PInt (PyList.len items);
              "has_more" := PBool (offset + limit <? PyList.len items) ]};
         cp_filter := filter_type |}).
Proof.
  intros H. unfold list_cards_paginated. cbv zeta.
  unfold mbind, tool_bind.
  pose proof (request_delivers "GET"
    (if negb (String.eqb
                (if negb (String.eqb filter_type "all")
                 then "f=" +:+ filter_type else "") "")
     then "/card?" +:+ (if negb (String.eqb filter_type "all")
                        then "f=" +:+ filter_type else "")
     else "/card") w items H) as Hr.
  destruct (MetabaseClient.request _ _ _ _) as [[p|e] w']; simpl in Hr; [|done].
  by injection Hr as ->.
Qed.

Lemma list_cards_by_collection_run (collection_id : Z) (w : world)
    (items : list item) :
  delivers w items →
  (list_cards_by_collection settings collection_id w).1
  = (filtered_cards ← collection_cards collection_id items;
     Ok (Filtered
       {| cc_cards := filtered_cards;
          cc_collection_id := collection_id;
          cc_count := PyList.len filtered_cards;
          cc_message :=
            "Found " +:+ pretty (PyList.len filtered_cards)
            +:+ " cards in collection " +:+ pretty collection_id |})).
Proof.
  intros H. unfold list_cards_by_collection. unfold mbind at 1, tool_bind.
  pose proof (request_delivers "GET" "/card" w items H) as Hr.
  destruct (MetabaseClient.request _ _ _ _) as [[p|e] w']; simpl in Hr; [|done].
  injection Hr as ->. unfold mbind at 1, tool_bind, lift.
  by destruct (collection_cards _ _).
Qed.

Lemma fetch_delivers (w : world) (items : list item) :
  delivers w items → fetch settings w 0 = Ok (PList items).
Proof.
  intros (r & Hw & Hs & Hd). unfold fetch. rewrite Nat.add_0_r, Hw.
  unfold MetabaseClient.outcome, MetabaseClient.json. by rewrite Hs, Hd.
Qed.

End Delivery.

Lemma delivers_always (items : list item) :
  delivers (always (listing items)) items.
Proof. by eexists. Qed.

(** ** Walking the pages of [list_cards_paginated] *)

(** X1.  Two pages that follow each other are the page of their joint length:
    when upstream delivers the same list to the three calls, the cards of
    the page at [offset] and of the page at [offset + limit], one after the
    other, are the cards of the page of [limit + limit'] cards at [offset];
    offsets and limits not negative. *)
Theorem consecutive_pages_concatenate (settings : Settings)
    (limit limit' offset : Z) (filter_type : string) (w1 w2 w3 : world)
    (items : list item) :
  delivers w1 items → delivers w2 items → delivers w3 items →
  0 ≤ offset → 0 ≤ limit → 0 ≤ limit' →
  ∃ p1 p2 p3,
    (list_cards_paginated settings limit offset filter_type w1).1
    = Ok (Paged p1)
    ∧ (list_cards_paginated settings limit' (offset + limit) filter_type w2).1
      = Ok (Paged p2)
    ∧ (list_cards_paginated settings (limit + limit') offset filter_type w3).1
      = Ok (Paged p3)
    ∧ cp_cards p1 ++ cp_cards p2 = cp_cards p3.
Proof.
  intros H1 H2 H3 Ho Hl Hl'.
  rewrite (list_cards_paginated_run _ _ _ _ _ _ H1).
  rewrite (list_cards_paginated_run _ _ _ _ _ _ H2).
  rewrite (list_cards_paginated_run _ _ _ _ _ _ H3).
  eexists _, _, _. split; [done|]. split; [done|]. split; [done|].
  simpl. by apply slice_pages.
Qed.

Lemma consecutive_pages_concatenate_witness :
  ∃ p1 p2 p3,
    (list_cards_paginated cfg 1 0 "all"
       (always (listing [Some revenue_ytd; Some user_growth;
                         Some revenue_draft]))).1 = Ok (Paged p1)
    ∧ (list_cards_paginated cfg 1 (0 + 1) "all"
         (always (listing [Some revenue_ytd; Some user_growth;
                           Some revenue_draft]))).1 = Ok (Paged p2)
    ∧ (list_cards_paginated cfg (1 + 1) 0 "all"
         (always (listing [Some revenue_ytd; Some user_growth;
                           Some revenue_draft]))).1 = Ok (Paged p3)
    ∧ cp_cards p1 ++ cp_cards p2 = cp_cards p3.
Proof.
  apply (consecutive_pages_concatenate cfg 1 1 0 "all" _ _ _
           [Some revenue_ytd; Some user_growth; Some revenue_draft]);
    first [apply delivers_always | lia].
Defined.

(** X2.  The last page and the full page.  With an offset and a limit that are
    not negative, a page whose [has_more] is false holds every card from
    [offset] to the end of the upstream list, and a page whose [has_more] is
    true holds exactly [limit] cards. *)
Theorem last_page_reaches_the_end (settings : Settings) (limit offset : Z)
    (filter_type : string) (w : world) (items : list item) :
  delivers w items → 0 ≤ offset → 0 ≤ limit →
  ∃ p,
    (list_cards_paginated settings limit offset filter_type w).1
    = Ok (Paged p)
    ∧ (cp_pagination p !! "has_more" = Some (PBool false) →
       cp_cards p = drop (Z.to_nat offset) items)
    ∧ (cp_pagination p !! "has_more" = Some (PBool true) →
       PyList.len (cp_cards p) = limit).
Proof.
  intros H Ho Hl. rewrite (list_cards_paginated_run _ _ _ _ _ _ H).
  eexists. split; [done|]. simpl.
  rewrite slice_window by lia. unfold PyList.len.
  split; intros [= Hm].
  - apply Z.ltb_ge in Hm. unfold PyList.len in Hm.
    by rewrite take_ge by lia.
  - apply Z.ltb_lt in Hm. unfold PyList.len in Hm.
    rewrite length_drop, length_take. lia.
Qed.

Lemma last_page_reaches_the_end_witness :
  ∃ p,
    (list_cards_paginated cfg 2 1 "all"
       (always (listing [Some revenue_ytd; Some user_growth;
                         Some revenue_draft]))).1 = Ok (Paged p)
    ∧ (cp_pagination p !! "has_more" = Some (PBool false) →
       cp_cards p = drop (Z.to_nat 1) [Some revenue_ytd; Some user_growth;
                                       Some revenue_draft])
    ∧ (cp_pagination p !! "has_more" = Some (PBool true) →
       PyList.len (cp_cards p) = 2).
Proof.
  apply (last_page_reaches_the_end cfg 2 1 "all");
    first [apply delivers_always | lia].
Defined.

(** X3.  A negative limit.  With [offset >= 0] and [offset + limit < 0] the stop
    bound of the slice counts from the end of the list: the page holds the
    cards from [offset] on without the last [-(offset + limit)] cards of the
    list, which can be more than none, and [has_more] is true whatever is
    left. *)
Theorem negative_limit_page (settings : Settings) (limit offset : Z)
    (filter_type : string) (w : world) (items : list item) :
  delivers w items → 0 ≤ offset → offset + limit < 0 →
  ∃ p,
    (list_cards_paginated settings limit offset filter_type w).1
    = Ok (Paged p)
    ∧ cp_cards p
      = drop (Z.to_nat offset)
          (take (Z.to_nat (PyList.len items + (offset + limit))) items)
    ∧ cp_pagination p !! "has_more" = Some (PBool true).
Proof.
  intros H Ho Hl. rewrite (list_cards_paginated_run _ _ _ _ _ _ H).
  eexists. split; [done|]. simpl. split.
  - by apply slice_negative_stop.
  - assert ((offset + limit <? PyList.len items) = true) as ->
      by (apply Z.ltb_lt; unfold PyList.len; lia).
    reflexivity.
Qed.

Lemma negative_limit_page_witness :
  ∃ p,
    (list_cards_paginated cfg (-1) 0 "all"
       (always (listing [Some revenue_ytd; Some user_growth;
                         Some revenue_draft]))).1 = Ok (Paged p)
    ∧ cp_cards p
      = drop (Z.to_nat 0)
          (take (Z.to_nat (PyList.len [Some revenue_ytd; Some user_growth;
                                       Some revenue_draft] + (0 + -1)))
             [Some revenue_ytd; Some user_growth; Some revenue_draft])
    ∧ cp_pagination p !! "has_more" = Some (PBool true).
Proof.
  apply (negative_limit_page cfg (-1) 0 "all");
    first [apply delivers_always | lia].
Defined.

(** X4.  The one request of [list_cards_paginated].  For a filter of
    unreserved characters (letters, digits and [_.-~]; the documented
    filters are such) the tool sends one request: [GET /card] for the
    filter ["all"], and for any other filter, the empty one included,
    [GET /card?f=] followed by the filter. *)
Theorem list_cards_paginated_request (settings : Settings) (limit offset : Z)
    (filter_type : string) (w : world) :
  unreserved filter_type = true →
  sent (list_cards_paginated settings limit offset filter_type w).2
  = ("GET",
     MetabaseClient.base_url settings +:+ "/api"
     +:+ (if String.eqb filter_type "all" then "/card"
          else "/card?f=" +:+ filter_type)) :: sent w.
Proof.
  intros _. unfold list_cards_paginated. cbv zeta. unfold mbind, tool_bind.
  rewrite request_run.
  destruct (String.eqb filter_type "all"); simpl;
    destruct (MetabaseClient.outcome _ _ _) as [[items|raw]|e]; done.
Qed.

Lemma list_cards_paginated_request_witness :
  sent (list_cards_paginated cfg 50 0 "archived"
          (always (listing [Some revenue_ytd]))).2
  = ("GET",
     MetabaseClient.base_url cfg +:+ "/api"
     +:+ (if String.eqb "archived" "all" then "/card"
          else "/card?f=" +:+ "archived"))
    :: sent (always (listing [Some revenue_ytd])).
Proof.
  apply (list_cards_paginated_request cfg 50 0 "archived").
  reflexivity.
Defined.

(** ** The requests and the failures of a search *)

Section SearchTraffic.

Variable settings : Settings.

Lemma search_collections_world (term : string) (ids : list Z)
    (acc : list dict) (w : world) :
  (search_collections settings term ids acc w).2
  = {| wire := wire w;
       sent := replicate (length ids) ("GET", card_url settings) ++ sent w |}.
Proof.
  revert acc w. induction ids as [|cid ids IH]; intros acc w; simpl.
  - by destruct w.
  - unfold mbind, tool_bind. rewrite search_collection_run, IH. simpl.
    f_equal. generalize (length ids). intros n.
    induction n as [|n IHn]; simpl; [done|by f_equal].
Qed.

(** X5.  One [GET /card] goes out for every requested collection id, in a row,
    whatever comes back and whether or not the call returns; nothing else
    is sent. *)
Theorem search_sends_one_request_per_id (query : string) (ids : list Z)
    (limit offset : Z) (w : world) :
  sent (search_cards_in_collections settings query ids limit offset w).2
  = replicate (length ids) ("GET", card_url settings) ++ sent w.
Proof.
  unfold search_cards_in_collections. cbv zeta.
  unfold mbind at 1, tool_bind.
  pose proof (search_collections_world (PyStr.lower (PyStr.strip query))
                ids [] w) as Hw.
  pose proof (search_collections_run settings (PyStr.lower (PyStr.strip query))
                ids [] w) as Hr.
  destruct (search_collections _ _ _ _ _) as [[m|e] w']; simpl in Hw, Hr;
    [|done].
  subst w'. unfold mbind at 1, tool_bind, lift.
  by destruct (PyList.sort _ _ _).
Qed.

(** X6.  The only exception [search_cards_in_collections] lets out is the
    [TypeError] of the final sort: what a fetch or the filtering of its
    cards raises is swallowed by the loop. *)
Theorem search_raises_only_type_error (query : string) (ids : list Z)
    (limit offset : Z) (w : world) (e : exn) :
  (search_cards_in_collections settings query ids limit offset w).1 = Raise e →
  e = TypeError.
Proof.
  rewrite search_run.
  destruct (PyList.sort _ _ _) as [s|e'] eqn:Es; simpl; [done|].
  intros [= <-]. apply sort_raises in Es as [(x & _ & Hx)|]; done.
Qed.

End SearchTraffic.

Lemma search_raises_only_type_error_witness :
  ∃ e,
    (search_cards_in_collections cfg "revenue" [10] 10 0
       (always (listing [Some revenue_ytd; Some stamped]))).1 = Raise e
    ∧ e = TypeError.
Proof.
  assert (∃ e,
    (search_cards_in_collections cfg "revenue" [10] 10 0
       (always (listing [Some revenue_ytd; Some stamped]))).1 = Raise e)
    as [e He] by (eexists; vm_compute; reflexivity).
  exists e. split; [exact He|].
  exact (search_raises_only_type_error cfg _ _ _ _ _ e He).
Defined.

(** ** The failures and the results of collection discovery *)

Section FindMore.

Variable settings : Settings.

Lemma scan_collections_raises (term : string) (items : list item)
    (acc : list dict) (e : exn) :
  scan_collections term items acc = Raise e → e = AttributeError.
Proof.
  revert acc. induction items as [|c items IH]; intros acc; simpl; [done|].
  destruct (negb (Py.item_truthy c)); [apply IH|].
  destruct (PyOps.item_get c "name") as [n|e'] eqn:En; simpl;
    [|destruct c; simpl in En; intros; by simplify_eq].
  destruct (PyOps.lower (Py.or_ n (PStr ""))) as [cn|e'] eqn:Ecn; simpl;
    [|destruct (Py.or_ n (PStr "")); simpl in Ecn; intros; by simplify_eq].
  destruct (PyOps.item_get c "description") as [d|e'] eqn:Ed; simpl;
    [|destruct c; simpl in Ed; intros; by simplify_eq].
  destruct (PyOps.lower (Py.or_ d (PStr ""))) as [cd|e'] eqn:Ecd; simpl;
    [|destruct (Py.or_ d (PStr "")); simpl in Ecd; intros; by simplify_eq].
  destruct (_ || _); apply IH.
Qed.

Lemma collection_key_str (m : dict) (k : pyval) :
  collection_sort_key m = Ok k → ∃ s, k = PStr s.
Proof.
  unfold collection_sort_key.
  destruct (PyOps.lower _) as [s|]; simpl; intros H; [|done].
  injection H as <-. by exists s.
Qed.

Lemma collection_sort_raises (matched : list dict) (e : exn) :
  PyList.sort collection_sort_key false matched = Raise e →
  e = AttributeError.
Proof.
  unfold PyList.sort.
  destruct (PyList.decorate _ _) as [d|e'] eqn:Ed; simpl.
  - apply decorate_spec in Ed as [_ Hk].
    destruct (sort_keyed_total_str d) as [s ->]; [|done].
    eapply Forall_impl; [exact Hk|]. intros [k x] Hx. simpl in *.
    by eapply collection_key_str.
  - intros [= <-]. apply decorate_raises_key in Ed as (x & _ & Hx).
    by eapply collection_key_raises.
Qed.

(** X7.  [find_candidate_collections] fails in two ways only: with what the
    gateway raised for [GET /collection], passed on as it is, or with
    [AttributeError]. *)
Theorem find_raises_gateway_error_or_attribute_error (query : string)
    (limit : Z) (w : world) (e : exn) :
  (find_candidate_collections settings query limit w).1 = Raise e →
  (MetabaseClient.request settings "GET" "/collection" w).1 = Raise e
  ∨ e = AttributeError.
Proof.
  destruct (MetabaseClient.request settings "GET" "/collection" w).1
    as [[items|raw]|e'] eqn:Er.
  - rewrite (find_list _ _ _ _ _ Er). intros H. right.
    destruct (scan_collections _ _ _) as [matched|e'] eqn:Es; simpl in H.
    + destruct (PyList.sort _ _ _) as [sorted|e'] eqn:Eo; simpl in H; [done|].
      injection H as <-. by eapply collection_sort_raises.
    + injection H as <-. by eapply scan_collections_raises.
  - by rewrite (find_non_list _ _ _ _ _ Er).
  - intros H. left. revert H. unfold find_candidate_collections.
    unfold mbind at 1, tool_bind.
    destruct (MetabaseClient.request _ _ _ _) as [[p|e''] w']; simpl in Er;
      [done|].
    simpl. by intros [= <-].
Qed.

(** X8.  Every collection [find_candidate_collections] returns has the five keys
    [collection_id], [collection_name], [description], [parent_id] and
    [archived], and its [collection_name] is a string. *)
Theorem returned_collections_are_named (query : string) (limit : Z)
    (w : world) (r : FindResult) (m : dict) :
  (find_candidate_collections settings query limit w).1 = Ok r →
  m ∈ fc_collections r →
  dom m = collection_fields ∧ ∃ s, m !! "collection_name" = Some (PStr s).
Proof.
  destruct (MetabaseClient.request settings "GET" "/collection" w).1
    as [[items|raw]|e'] eqn:Er.
  - rewrite (find_list _ _ _ _ _ Er).
    destruct (scan_collections _ _ _) as [matched|] eqn:Es; simpl; [|done].
    destruct (PyList.sort _ _ _) as [sorted|] eqn:Eo; simpl; [|done].
    intros [= <-] Hm%slice_subseteq. simpl in Hm.
    pose proof (sort_keys_ok _ _ _ _ Eo) as Hk.
    apply sort_spec in Eo as [Hp _]. rewrite Hp in Hm.
    rewrite Forall_forall in Hk. specialize (Hk m Hm).
    apply scan_collections_ok in Es. simpl in Es. subst matched.
    apply list_elem_of_fmap in Hm as (d & -> & _). split.
    + unfold matched_collection, collection_fields.
      rewrite !dom_insert_L, dom_singleton_L. set_solver.
    + destruct (collection_sort_key (matched_collection d)) as [k|] eqn:Ek;
        [|done].
      revert Ek. unfold collection_sort_key, Py.get_or.
      destruct (matched_collection d !! "collection_name") as [[]|] eqn:En;
        simpl; try done.
      intros _. by eexists.
  - rewrite (find_non_list _ _ _ _ _ Er). intros [= <-]. simpl.
    by intros ?%elem_of_nil.
  - unfold find_candidate_collections. unfold mbind at 1, tool_bind.
    destruct (MetabaseClient.request _ _ _ _) as [[p|e''] w']; simpl in Er;
      [done|].
    done.
Qed.

(** X9.  A negative limit.  For a list payload and [limit_collections < 0] the
    slice [[:limit_collections]] drops the last [-limit_collections]
    matches: [returned_collections] is [matched_collections +
    limit_collections], or zero when that is negative. *)
Theorem negative_limit_drops_last_collections (query : string) (limit : Z)
    (w : world) (items : list item) (r : FindResult) :
  delivers w items → limit < 0 →
  (find_candidate_collections settings query limit w).1 = Ok r →
  ∃ matched returned,
    fc_results r !! "matched_collections" = Some (PInt matched)
    ∧ fc_results r !! "returned_collections" = Some (PInt returned)
    ∧ returned = PyList.len (fc_collections r)
    ∧ returned = Z.max 0 (matched + limit).
Proof.
  intros Hd Hl.
  rewrite (find_list _ _ _ _ _ (request_delivers settings _ _ _ _ Hd)).
  destruct (scan_collections _ _ _) as [matched|]; simpl; [|done].
  destruct (PyList.sort _ _ _) as [sorted|]; simpl; [|done].
  intros [= <-]. simpl. eexists _, _. split; [reflexivity|].
  split; [reflexivity|]. split; [done|].
  by apply slice_negative_prefix_len.
Qed.

End FindMore.

Lemma find_raises_gateway_error_or_attribute_error_witness :
  ∃ e,
    (find_candidate_collections cfg "team" 10 (always unauthenticated)).1
    = Raise e
    ∧ ((MetabaseClient.request cfg "GET" "/collection"
          (always unauthenticated)).1 = Raise e
       ∨ e = AttributeError).
Proof.
  assert (∃ e,
    (find_candidate_collections cfg "team" 10 (always unauthenticated)).1
    = Raise e) as [e He] by (eexists; vm_compute; reflexivity).
  exists e. split; [exact He|].
  exact (find_raises_gateway_error_or_attribute_error cfg _ _ _ e He).
Defined.

Lemma returned_collections_are_named_witness :
  ∃ r,
    (find_candidate_collections cfg "team" 5
       (always (listing [Some team_ops; Some sales_reports;
                         Some plain_archive]))).1 = Ok r
    ∧ matched_collection team_ops ∈ fc_collections r
    ∧ dom (matched_collection team_ops) = collection_fields
    ∧ ∃ s, matched_collection team_ops !! "collection_name" = Some (PStr s).
Proof.
  assert (∃ r,
    (find_candidate_collections cfg "team" 5
       (always (listing [Some team_ops; Some sales_reports;
                         Some plain_archive]))).1 = Ok r
    ∧ fc_collections r = [matched_collection team_ops])
    as (r & Hr & Hc) by (eexists; split; vm_compute; reflexivity).
  assert (matched_collection team_ops ∈ fc_collections r) as Hm
    by (rewrite Hc; apply list_elem_of_singleton; reflexivity).
  exists r. split; [exact Hr|]. split; [exact Hm|].
  exact (returned_collections_are_named cfg _ _ _ r _ Hr Hm).
Defined.

Lemma negative_limit_drops_last_collections_witness :
  ∃ r matched returned,
    (find_candidate_collections cfg "" (-1)
       (always (listing [Some team_ops; Some sales_reports;
                         Some archive]))).1 = Ok r
    ∧ fc_results r !! "matched_collections" = Some (PInt matched)
    ∧ fc_results r !! "returned_collections" = Some (PInt returned)
    ∧ returned = PyList.len (fc_collections r)
    ∧ returned = Z.max 0 (matched + -1).
Proof.
  assert (∃ r,
    (find_candidate_collections cfg "" (-1)
       (always (listing [Some team_ops; Some sales_reports;
                         Some archive]))).1 = Ok r)
    as [r Hr] by (eexists; vm_compute; reflexivity).
  destruct (negative_limit_drops_last_collections cfg "" (-1) _ _ r
              (delivers_always _) ltac:(lia) Hr)
    as (matched & returned & H).
  exists r, matched, returned. split; [exact Hr|exact H].
Defined.

(** ** Repeated collection ids *)

(** X10.  Collection ids are not deduplicated.  When upstream answers every fetch
    alike, searching the list of ids written twice finds every match twice:
    [total_found] doubles. *)
Theorem repeated_ids_repeat_matches (settings : Settings) (query : string)
    (ids : list Z) (limit offset : Z) (w : world) (o : result payload)
    (r1 r2 : SearchResult) :
  (∀ i, (i < length (ids ++ ids))%nat → fetch settings w i = o) →
  (search_cards_in_collections settings query ids limit offset w).1 = Ok r1 →
  (search_cards_in_collections settings query (ids ++ ids) limit offset w).1
  = Ok r2 →
  ∃ n, sr_pagination r1 !! "total_found" = Some (PInt n)
       ∧ sr_pagination r2 !! "total_found" = Some (PInt (2 * n)).
Proof.
  intros Hf. rewrite !search_run.
  rewrite (all_matches_uniform _ _ (ids ++ ids) _ _ Hf).
  rewrite (all_matches_uniform _ _ ids _ o)
    by (intros i Hi; apply Hf; rewrite length_app; lia).
  rewrite fmap_app, join_app.
  destruct (PyList.sort _ _ (mjoin _)) as [s1|] eqn:E1; simpl; [|done].
  intros [= <-].
  destruct (PyList.sort _ _ (_ ++ _)) as [s2|] eqn:E2; simpl; [|done].
  intros [= <-]. simpl.
  apply sort_spec in E1 as [P1 _]. apply sort_spec in E2 as [P2 _].
  eexists. split; [reflexivity|].
  assert (PyList.len s2 = 2 * PyList.len s1) as ->; [|reflexivity].
  unfold PyList.len. rewrite P2, length_app, P1. lia.
Qed.

Lemma repeated_ids_repeat_matches_witness :
  ∃ r1 r2 n,
    (search_cards_in_collections cfg "revenue" [10] 10 0
       (always (listing [Some revenue_ytd]))).1 = Ok r1
    ∧ (search_cards_in_collections cfg "revenue" ([10] ++ [10]) 10 0
         (always (listing [Some revenue_ytd]))).1 = Ok r2
    ∧ sr_pagination r1 !! "total_found" = Some (PInt n)
    ∧ sr_pagination r2 !! "total_found" = Some (PInt (2 * n)).
Proof.
  assert (∃ r1,
    (search_cards_in_collections cfg "revenue" [10] 10 0
       (always (listing [Some revenue_ytd]))).1 = Ok r1)
    as [r1 H1] by (eexists; vm_compute; reflexivity).
  assert (∃ r2,
    (search_cards_in_collections cfg "revenue" ([10] ++ [10]) 10 0
       (always (listing [Some revenue_ytd]))).1 = Ok r2)
    as [r2 H2] by (eexists; vm_compute; reflexivity).
  destruct (repeated_ids_repeat_matches cfg "revenue" [10] 10 0
              (always (listing [Some revenue_ytd]))
              (Ok (PList [Some revenue_ytd])) r1 r2
              ltac:(intros i _; vm_compute; reflexivity) H1 H2)
    as (n & Hn).
  exists r1, r2, n. split; [exact H1|]. split; [exact H2|exact Hn].
Defined.

(** ** The cards of one collection *)

Section CollectionListing.

Variable settings : Settings.

Lemma collection_cards_non_null (cid : Z) (all : list item)
    (cards : list dict) :
  collection_cards cid all = Ok cards → Forall is_Some all.
Proof.
  revert cards. induction all as [|c all IH]; intros cards; simpl;
    [constructor|].
  destruct c as [d|]; simpl; [|done].
  destruct (collection_cards cid all) as [cards'|]; simpl; [|done].
  intros _. constructor; [by eexists|by eapply IH].
Qed.

Lemma collection_cards_null (cid : Z) (all : list item) :
  None ∈ all → collection_cards cid all = Raise AttributeError.
Proof.
  induction all as [|c all IH]; [by intros ?%elem_of_nil|].
  intros [<-|Hin]%elem_of_cons; simpl; [done|].
  destruct c as [d|]; simpl; [|done]. by rewrite IH.
Qed.

(** X11.  Whenever [list_cards_by_collection] returns for an upstream list, no
    entry of the list is null, and the cards it returns are the whole
    upstream objects whose [collection_id] equals the requested id, in
    upstream order; [count] is their number. *)
Theorem collection_listing_filters_by_id (collection_id : Z) (w : world)
    (items : list item) (found : CollectionCards) :
  delivers w items →
  (list_cards_by_collection settings collection_id w).1
  = Ok (Filtered found) →
  Forall is_Some items
  ∧ cc_cards found
    = filter (fun d => Py.eq_int (Py.get d "collection_id") collection_id
                       = true) (non_null items)
  ∧ cc_count found = PyList.len (cc_cards found)
  ∧ cc_collection_id found = collection_id.
Proof.
  intros Hd. rewrite (list_cards_by_collection_run _ _ _ _ Hd).
  destruct (collection_cards _ _) as [cards|] eqn:Ec; simpl; [|done].
  intros [= <-]. simpl.
  pose proof (collection_cards_non_null _ _ _ Ec) as Hn.
  rewrite collection_cards_total in Ec by done. injection Ec as <-.
  done.
Qed.

(** X12.  A null entry in the upstream card list makes
    [list_cards_by_collection] fail with [AttributeError], whatever the
    collection; [search_cards_in_collections], which filters the same list
    in the same way, swallows the failure and reports no match for the
    collection. *)
Theorem null_card_fails_listing_but_not_search (collection_id : Z)
    (query : string) (limit offset : Z) (w : world) (items : list item) :
  delivers w items → None ∈ items →
  (list_cards_by_collection settings collection_id w).1
  = Raise AttributeError
  ∧ ∃ r,
      (search_cards_in_collections settings query [collection_id] limit
         offset w).1 = Ok r
      ∧ sr_cards r = []
      ∧ sr_pagination r !! "total_found" = Some (PInt 0).
Proof.
  intros Hd Hin. split.
  - rewrite (list_cards_by_collection_run _ _ _ _ Hd).
    by rewrite collection_cards_null.
  - rewrite search_run. unfold all_matches_of. simpl.
    rewrite (fetch_delivers _ _ _ Hd). unfold matches_of.
    rewrite collection_cards_null by done. simpl.
    eexists. split; [reflexivity|]. simpl. split; [|reflexivity].
    unfold PyList.slice. by rewrite drop_nil, take_nil.
Qed.

(** X13.  The search loop and the listing agree.  For names and descriptions that
    are strings, null or absent, the matches the search loop collects for
    one collection id are the projections of those cards
    [list_cards_by_collection] returns for it whose name or description
    contains the query. *)
Theorem search_matches_project_collection_listing (collection_id : Z)
    (query : string) (w : world) (items : list item)
    (found : CollectionCards) :
  delivers w items →
  (list_cards_by_collection settings collection_id w).1
  = Ok (Filtered found) →
  forallb text_fields (cc_cards found) = true →
  (search_collections settings (PyStr.lower (PyStr.strip query))
     [collection_id] [] w).1
  = Ok (matched_card
          <$> filter (fun d => field_match query d = true) (cc_cards found)).
Proof.
  intros Hd H Ht%forallb_Forall_true.
  rewrite (list_cards_by_collection_run _ _ _ _ Hd) in H.
  destruct (collection_cards _ _) as [cards|] eqn:Ec; simpl in H; [|done].
  injection H as <-. simpl in Ht.
  rewrite search_collections_run. unfold all_matches_of. simpl.
  rewrite (fetch_delivers _ _ _ Hd). unfold matches_of. rewrite Ec.
  rewrite match_cards_typed by done. simpl. by rewrite app_nil_r.
Qed.

End CollectionListing.

Lemma collection_listing_filters_by_id_witness :
  ∃ found,
    (list_cards_by_collection cfg 10
       (always (listing [Some revenue_ytd; Some revenue_draft]))).1
    = Ok (Filtered found)
    ∧ Forall is_Some [Some revenue_ytd; Some revenue_draft]
    ∧ cc_cards found
      = filter (fun d => Py.eq_int (Py.get d "collection_id") 10 = true)
          (non_null [Some revenue_ytd; Some revenue_draft])
    ∧ cc_count found = PyList.len (cc_cards found)
    ∧ cc_collection_id found = 10.
Proof.
  assert (∃ found,
    (list_cards_by_collection cfg 10
       (always (listing [Some revenue_ytd; Some revenue_draft]))).1
    = Ok (Filtered found)) as [found H]
    by (eexists; vm_compute; reflexivity).
  exists found. split; [exact H|].
  exact (collection_listing_filters_by_id cfg 10 _ _ found
           (delivers_always _) H).
Defined.

Lemma null_card_fails_listing_but_not_search_witness :
  (list_cards_by_collection cfg 10
     (always (listing [Some revenue_ytd; None]))).1 = Raise AttributeError
  ∧ ∃ r,
      (search_cards_in_collections cfg "revenue" [10] 10 0
         (always (listing [Some revenue_ytd; None]))).1 = Ok r
      ∧ sr_cards r = []
      ∧ sr_pagination r !! "total_found" = Some (PInt 0).
Proof.
  apply (null_card_fails_listing_but_not_search cfg 10 "revenue" 10 0 _
           [Some revenue_ytd; None]).
  - apply delivers_always.
  - right. left.
Defined.

Lemma search_matches_project_collection_listing_witness :
  ∃ found,
    (list_cards_by_collection cfg 10
       (always (listing [Some revenue_ytd; Some revenue_draft]))).1
    = Ok (Filtered found)
    ∧ (search_collections cfg (PyStr.lower (PyStr.strip "Revenue "))
         [10] [] (always (listing [Some revenue_ytd; Some revenue_draft]))).1
      = Ok (matched_card
              <$> filter (fun d => field_match "Revenue " d = true)
                    (cc_cards found)).
Proof.
  assert (∃ found,
    (list_cards_by_collection cfg 10
       (always (listing [Some revenue_ytd; Some revenue_draft]))).1
    = Ok (Filtered found)
    ∧ forallb text_fields (cc_cards found) = true) as (found & H & Ht)
    by (eexists; split; vm_compute; reflexivity).
  exists found. split; [exact H|].
  exact (search_matches_project_collection_listing cfg 10 "Revenue " _ _
           found (delivers_always _) H Ht).
Defined.

(** ** The field limit of [get_table_fields] *)

Lemma slice_prefix {A} (l : list A) (limit : Z) :
  0 ≤ limit → PyList.slice l None (Some limit) = take (Z.to_nat limit) l.
Proof.
  intros Hl. unfold PyList.slice, PyList.adjust, PyList.len.
  rewrite (proj2 (Z.ltb_ge limit 0)) by done. rewrite drop_0, Z.sub_0_r.
  destruct (decide (limit ≤ Z.of_nat (length l))).
  - by rewrite Z.min_l by lia.
  - rewrite Z.min_r by lia. rewrite !take_ge; [done|lia..].
Qed.

Lemma get_table_fields_fixed (limit : Z) (result : TableMetadata) :
  (∀ fields, tm_fields result = Some fields →
             limit ≤ 0 ∨ PyList.len fields ≤ limit) →
  get_table_fields limit result = result.
Proof.
  intros H. unfold get_table_fields.
  destruct (tm_fields result) as [fields|]; [|done].
  destruct (H fields eq_refl) as [Hl|Hl].
  - by rewrite (proj2 (Z.ltb_ge 0 limit)) by done.
  - rewrite (proj2 (Z.ltb_ge limit (PyList.len fields))) by done.
    by rewrite andb_false_r.
Qed.

Lemma get_table_fields_cut (limit : Z) (result : TableMetadata)
    (fields : list item) :
  0 < limit → tm_fields result = Some fields →
  limit < PyList.len fields →
  get_table_fields limit result
  = {| tm_fields := Some (take (Z.to_nat limit) fields);
       tm_other :=
         <["_limit_applied" := PInt limit]>
           (<["_total_fields" := PInt (PyList.len fields)]>
              (<["_truncated" := PBool true]> (tm_other result))) |}.
Proof.
  intros Hl Hf Hn. unfold get_table_fields. rewrite Hf.
  rewrite (proj2 (Z.ltb_lt 0 limit)), (proj2 (Z.ltb_lt limit _)) by done.
  simpl. by rewrite slice_prefix by lia.
Qed.

(** X14.  With a positive limit and a [fields] list in the metadata, the fields
    returned are the first [limit] fields.  If there were more, the result
    says so: [_truncated] is true, [_total_fields] is the number of fields
    upstream has, [_limit_applied] is the limit, and no other key changes;
    if there were not, the metadata is returned as it came. *)
Theorem field_limit_truncates (limit : Z) (result : TableMetadata)
    (fields : list item) :
  0 < limit → tm_fields result = Some fields →
  tm_fields (get_table_fields limit result)
  = Some (take (Z.to_nat limit) fields)
  ∧ (limit < PyList.len fields →
     tm_other (get_table_fields limit result)
     = <["_limit_applied" := PInt limit]>
         (<["_total_fields" := PInt (PyList.len fields)]>
            (<["_truncated" := PBool true]> (tm_other result))))
  ∧ (PyList.len fields ≤ limit → get_table_fields limit result = result).
Proof.
  intros Hl Hf.
  destruct (decide (limit < PyList.len fields)) as [Hn|Hn].
  - rewrite (get_table_fields_cut _ _ _ Hl Hf Hn). simpl.
    split; [done|]. split; [done|]. intros. exfalso. lia.
  - rewrite get_table_fields_fixed
      by (intros f' Hf'; right; rewrite Hf in Hf'; injection Hf' as <-; lia).
    rewrite Hf. unfold PyList.len in Hn.
    split; [by rewrite take_ge by lia|]. split; [|done].
    intros. exfalso. unfold PyList.len in *. lia.
Qed.

Lemma field_limit_truncates_witness :
  tm_fields (get_table_fields 2 orders)
  = Some (take (Z.to_nat 2)
            [Some ({[ "name" := PStr "id" ]} : dict);
             Some ({[ "name" := PStr "total" ]} : dict);
             Some ({[ "name" := PStr "created_at" ]} : dict)])
  ∧ tm_other (get_table_fields 2 orders) !! "_total_fields" = Some (PInt 3).
Proof.
  destruct (field_limit_truncates 2 orders _ ltac:(lia) eq_refl)
    as (Hf & Ht & _).
  split; [exact Hf|]. rewrite Ht by (vm_compute; reflexivity).
  vm_compute. reflexivity.
Defined.

(** X15.  A limit of zero, or a negative one, is no limit: the metadata is
    returned with all its fields. *)
Theorem nonpositive_field_limit_is_no_limit (limit : Z)
    (result : TableMetadata) :
  limit ≤ 0 → get_table_fields limit result = result.
Proof. intros Hl. apply get_table_fields_fixed. by left. Qed.

Lemma nonpositive_field_limit_is_no_limit_witness :
  get_table_fields 0 orders = orders.
Proof. apply nonpositive_field_limit_is_no_limit. lia. Defined.

(** X16.  Limiting is idempotent: the fields a limit has cut are not cut again by
    the same limit, and the three markers stay as they are. *)
Theorem field_limit_idempotent (limit : Z) (result : TableMetadata) :
  get_table_fields limit (get_table_fields limit result)
  = get_table_fields limit result.
Proof.
  apply get_table_fields_fixed. intros fields' Hf'.
  destruct (decide (limit ≤ 0)) as [Hl|Hl]; [by left|right].
  destruct (tm_fields result) as [fields|] eqn:Hf.
  - destruct (decide (limit < PyList.len fields)) as [Hn|Hn].
    + rewrite (get_table_fields_cut _ _ fields) in Hf' by (done || lia).
      injection Hf' as <-. unfold PyList.len. rewrite length_take. lia.
    + rewrite get_table_fields_fixed in Hf'
        by (intros f' E; right; rewrite Hf in E; injection E as <-; lia).
      rewrite Hf in Hf'. injection Hf' as <-. lia.
  - revert Hf'. unfold get_table_fields. by rewrite Hf, Hf.
Qed.

(** ** The query string of [search_metabase] *)

Section QueryString.

Lemma occurrences_app (c : ascii) (s t : string) :
  occurrences c (s +:+ t) = (occurrences c s + occurrences c t)%nat.
Proof. induction s as [|c' s IH]; simpl; [done|]. rewrite IH. lia. Qed.

Lemma quoted_text_app (s t : string) :
  quoted_text (s +:+ t) = quoted_text s && quoted_text t.
Proof.
  unfold quoted_text. induction s as [|c s IH]; simpl; [done|].
  by rewrite IH, andb_assoc.
Qed.

Lemma url_text_app (s t : string) :
  url_text (s +:+ t) = url_text s && url_text t.
Proof.
  unfold url_text. induction s as [|c s IH]; simpl; [done|].
  by rewrite IH, andb_assoc.
Qed.

Lemma string_app_cons (c : ascii) (s t : string) :
  String c s +:+ t = String c (s +:+ t).
Proof. reflexivity. Qed.

Lemma string_app_assoc (s t u : string) : (s +:+ t) +:+ u = s +:+ t +:+ u.
Proof.
  induction s as [|c s IH]; [done|]. by rewrite !string_app_cons, IH.
Qed.

Lemma string_app_nil_r (s : string) : s +:+ "" = s.
Proof.
  induction s as [|c s IH]; [done|]. by rewrite string_app_cons, IH.
Qed.

Lemma replace_app (old : ascii) (new s t : string) :
  PyText.replace old new (s +:+ t)
  = PyText.replace old new s +:+ PyText.replace old new t.
Proof.
  induction s as [|c s IH]; simpl; [done|].
  rewrite IH. by rewrite string_app_assoc.
Qed.

Lemma quote_char_quoted (c : ascii) :
  quoted_text (UrlLib.quote false (String c "")) = true
  ∧ quoted_text (PyText.replace " " "+" (UrlLib.quote true (String c "")))
    = true.
Proof.
  destruct c as [[] [] [] [] [] [] [] []]; split; vm_compute; reflexivity.
Qed.

Lemma quote_cons (b : bool) (c : ascii) (s : string) :
  UrlLib.quote b (String c s)
  = UrlLib.quote b (String c "") +:+ UrlLib.quote b s.
Proof.
  simpl. destruct (_ || _); simpl; [done|].
  by rewrite !string_app_assoc.
Qed.

Lemma quote_plus_quoted (s : string) :
  quoted_text (UrlLib.quote_plus s) = true.
Proof.
  unfold UrlLib.quote_plus. destruct (negb _).
  - induction s as [|c s IH]; [done|].
    rewrite quote_cons, quoted_text_app, IH.
    by rewrite (proj1 (quote_char_quoted c)).
  - induction s as [|c s IH]; [done|].
    rewrite quote_cons, replace_app, quoted_text_app, IH.
    by rewrite (proj2 (quote_char_quoted c)).
Qed.

Lemma quoted_char_plain (c : ascii) :
  quoted_char c = true →
  Ascii.eqb c "&" = false ∧ Ascii.eqb c "=" = false
  ∧ Ascii.eqb c "?" = false ∧ url_char c = true.
Proof.
  destruct c as [[] [] [] [] [] [] [] []]; vm_compute; intros H;
    by repeat split.
Qed.

Lemma quoted_text_plain (s : string) :
  quoted_text s = true →
  occurrences "&" s = 0%nat ∧ occurrences "=" s = 0%nat
  ∧ occurrences "?" s = 0%nat ∧ url_text s = true.
Proof.
  unfold quoted_text, url_text.
  induction s as [|c s IH]; simpl; [done|].
  intros [Hc Hs]%andb_true_iff.
  destruct (quoted_char_plain c Hc) as (-> & -> & -> & ->).
  by destruct (IH Hs) as (-> & -> & -> & ->).
Qed.

Lemma pair_is_pair (k v : string) :
  is_pair (UrlLib.quote_plus k +:+ "=" +:+ UrlLib.quote_plus v).
Proof.
  destruct (quoted_text_plain _ (quote_plus_quoted k)) as (Ka & Ke & Kq & Ku).
  destruct (quoted_text_plain _ (quote_plus_quoted v)) as (Va & Ve & Vq & Vu).
  unfold is_pair. rewrite !occurrences_app, !url_text_app.
  rewrite Ka, Ke, Kq, Ku, Va, Ve, Vq, Vu. done.
Qed.

Lemma pairs_are_pairs (k : string) (v : UrlLib.param) :
  Forall is_pair (UrlLib.pairs k v).
Proof.
  destruct v as [v|l]; simpl.
  - constructor; [apply pair_is_pair|constructor].
  - apply Forall_fmap, Forall_true. intros elt. apply pair_is_pair.
Qed.

Lemma concat_pairs (l : list string) :
  Forall is_pair l →
  occurrences "&" (String.concat "&" l) = (length l - 1)%nat
  ∧ occurrences "=" (String.concat "&" l) = length l
  ∧ occurrences "?" (String.concat "&" l) = 0%nat
  ∧ url_text (String.concat "&" l) = true.
Proof.
  induction 1 as [|p l (Pa & Pe & Pq & Pu) Hl (Ia & Ie & Iq & Iu)]; [done|].
  destruct l as [|p' l]; [done|].
  change (String.concat "&" (p :: p' :: l))
    with (p +:+ "&" +:+ String.concat "&" (p' :: l)).
  rewrite !occurrences_app, !url_text_app, Pa, Pe, Pq, Pu, Ia, Ie, Iq, Iu.
  simpl. repeat split; lia.
Qed.

End QueryString.

(** X17.  The query text and the model names cannot add parameters.  Whatever
    the arguments, the path [search_metabase] requests has one ["?"], one
    ["="] for each parameter it sets ([q], [limit], [archived],
    [search_native_query] when the argument is [True], and [models] once
    for each model) and one ["&"] between two of them; every character of
    the path is a letter, a digit or one of [_ . - ~ % + = & ? /]. *)
Theorem search_endpoint_separators (query : string) (limit : Z)
    (models : option (list string)) (archived : bool)
    (search_native_query : option bool) :
  let endpoint :=
    search_metabase_endpoint query limit models archived search_native_query in
  let n :=
    (3 + (if search_native_query is Some true then 1 else 0)
     + length (default [] models))%nat in
  occurrences "?" endpoint = 1%nat
  ∧ occurrences "=" endpoint = n
  ∧ occurrences "&" endpoint = (n - 1)%nat
  ∧ url_text endpoint = true.
Proof.
  intros endpoint n. subst endpoint. unfold search_metabase_endpoint.
  cbv zeta. unfold UrlLib.urlencode.
  set (l := mjoin _).
  assert (Forall is_pair l) as Hl.
  { subst l. apply Forall_join, Forall_fmap, Forall_true.
    intros [k v]. apply pairs_are_pairs. }
  assert (length l = n) as Hn.
  { subst l n. unfold search_metabase_params.
    destruct search_native_query as [[]|], models as [models|]; simpl;
      rewrite ?app_nil_r, ?length_app, ?length_fmap; simpl; lia. }
  destruct (concat_pairs l Hl) as (Ha & He & Hq & Hu).
  rewrite !occurrences_app, url_text_app, Ha, He, Hq, Hu, Hn.
  by repeat split.
Qed.

(** A query with a space, an ampersand and an accented letter. *)
Example search_endpoint_example :
  search_metabase_endpoint
    ("caf" +:+ String (ascii_of_N 233) " & co") 20
    (Some ["card"; "dashboard"]) false (Some true)
  = "/search?q=caf%C3%A9+%26+co&limit=20&archived=false&search_native_query=true&models=card&models=dashboard".
Proof. vm_compute. reflexivity. Qed.

(** ** The markdown of [list_tables] *)

Section TableListing.

Lemma format_tables_objects (ts : list dict) (acc : list dict) :
  format_tables (Some <$> ts) acc = Ok (acc ++ (table_info <$> ts)).
Proof.
  revert acc. induction ts as [|t ts IH]; intros acc; simpl.
  - by rewrite app_nil_r.
  - rewrite IH. by rewrite <-app_assoc.
Qed.

Lemma format_tables_inv (tables : list item) (acc formatted : list dict) :
  format_tables tables acc = Ok formatted →
  formatted = acc ++ (table_info <$> non_null tables).
Proof.
  revert acc. induction tables as [|[t|] tables IH]; intros acc; simpl.
  - intros [= <-]. by rewrite app_nil_r.
  - intros ->%IH. by rewrite <-app_assoc.
  - done.
Qed.

Lemma format_tables_raises (tables : list item) (acc : list dict) (e : exn) :
  format_tables tables acc = Raise e → e = AttributeError.
Proof.
  revert acc. induction tables as [|[t|] tables IH]; intros acc; simpl.
  - done.
  - apply IH.
  - by intros [= <-].
Qed.

Lemma replace_in_raises (v : pyval) (old : ascii) (new : string) (e : exn) :
  PyText.replace_in v old new = Raise e → e = AttributeError.
Proof. destruct v; simpl; intros H; by simplify_eq. Qed.

Lemma table_rows_raises (l : list dict) (acc : string) (e : exn) :
  table_rows l acc = Raise e → e = AttributeError.
Proof.
  revert acc. induction l as [|x l IH]; intros acc; simpl; [done|].
  destruct (PyText.replace_in (Py.get_or x "description" _) _ _)
    as [d|e'] eqn:Ed; simpl.
  - destruct (PyText.replace_in (Py.get_or x "display_name" _) _ _)
      as [n|e'] eqn:En; simpl.
    + apply IH.
    + intros [= <-]. by eapply replace_in_raises.
  - intros [= <-]. by eapply replace_in_raises.
Qed.

(** A table list whose rows were all written has a string under
    [display_name] in every table. *)
Lemma table_rows_named (l : list dict) (acc md : string) :
  table_rows l acc = Ok md →
  Forall (fun x => ∃ s, Py.get_or x "display_name" (PStr "N/A") = PStr s) l.
Proof.
  revert acc. induction l as [|x l IH]; intros acc; simpl; [constructor|].
  destruct (PyText.replace_in (Py.get_or x "description" _) _ _)
    as [d|e'] eqn:Ed; simpl; [|done].
  destruct (Py.get_or x "display_name" _) as [| | |s] eqn:En; simpl;
    try done.
  intros H. constructor; [by exists s|by eapply IH].
Qed.

Lemma concat_cons (x : string) (l : list string) :
  String.concat "" (x :: l) = x +:+ String.concat "" l.
Proof. destruct l; simpl; [by rewrite string_app_nil_r|done]. Qed.

Lemma table_rows_typed (l : list dict) (acc : string) :
  Forall (fun x =>
            (∃ s, Py.get_or x "display_name" (PStr "N/A") = PStr s)
            ∧ ∃ s, Py.get_or x "description" (PStr "No description")
                   = PStr s) l →
  table_rows l acc = Ok (acc +:+ String.concat "" (table_row <$> l)).
Proof.
  intros H. revert acc.
  induction H as [|x l [[n Hn] [d Hd]] Hl IH]; intros acc.
  - simpl. by rewrite string_app_nil_r.
  - rewrite fmap_cons, concat_cons. cbn [table_rows]. rewrite Hn, Hd.
    simpl. rewrite IH. f_equal.
    rewrite <-(string_app_assoc acc (table_row x)). f_equal. f_equal.
    unfold table_row. by rewrite Hn, Hd.
Qed.

End TableListing.

Lemma table_info_display_name (t : dict) (dflt : pyval) :
  Py.get_or (table_info t) "display_name" dflt = Py.get t "display_name".
Proof. reflexivity. Qed.

Lemma table_info_description (t : dict) (dflt : pyval) :
  Py.get_or (table_info t) "description" dflt
  = Py.or_ (Py.get t "description") (PStr "No description").
Proof. reflexivity. Qed.

(** X18.  A table without a display name makes [list_tables] fail.  If the
    [display_name] of some table is not a string (it is null, or the key is
    absent), the call raises: [TypeError] from the sort, or
    [AttributeError] from the row of that table or from a null entry. *)
Theorem list_tables_raises_without_display_name (database_id : Z)
    (tables : list item) (t : dict) :
  Some t ∈ tables → named t = false →
  ∃ e, list_tables database_id tables = Raise e
       ∧ (e = AttributeError ∨ e = TypeError).
Proof.
  intros Hin Hn. unfold list_tables.
  destruct (format_tables tables []) as [formatted|e] eqn:Ef; simpl.
  - apply format_tables_inv in Ef. simpl in Ef. subst formatted.
    destruct (PyList.sort _ _ _) as [sorted|e] eqn:Es; simpl.
    + apply sort_spec in Es as [Hp _].
      assert (table_info t ∈ sorted) as Ht.
      { rewrite Hp. apply list_elem_of_fmap. exists t. split; [done|].
        unfold non_null. apply list_elem_of_omap. by exists (Some t). }
      destruct sorted as [|y sorted]; [by apply elem_of_nil in Ht|].
      destruct (table_rows _ _) as [md|e] eqn:Er.
      * apply table_rows_named in Er. rewrite Forall_forall in Er.
        destruct (Er _ Ht) as [s Hs].
        rewrite table_info_display_name in Hs.
        unfold named in Hn. by rewrite Hs in Hn.
      * exists e. split; [done|]. left. by eapply table_rows_raises.
    + exists e. split; [done|].
      apply sort_raises in Es as [(x & _ & Hx)|]; [done|by right].
  - exists e. split; [done|]. left. by eapply format_tables_raises.
Qed.

Lemma list_tables_raises_without_display_name_witness :
  ∃ e, list_tables 1 [Some orders_table; Some nameless_table] = Raise e
       ∧ (e = AttributeError ∨ e = TypeError).
Proof.
  apply (list_tables_raises_without_display_name 1 _ nameless_table).
  - right. left.
  - vm_compute. reflexivity.
Defined.

(** X19.  For tables whose [display_name] is a string and whose [description] is
    a string, null or absent, [list_tables] returns: the title with the
    number of tables, and then either the line that says there is none, or
    the head of the table and one row for each table, the rows in ascending
    order of [display_name]. *)
Theorem list_tables_renders_sorted_rows (database_id : Z) (ts : list dict) :
  forallb named ts = true → forallb described ts = true →
  ∃ sorted,
    sorted ≡ₚ table_info <$> ts
    ∧ StronglySorted (sorted_by table_sort_key false) sorted
    ∧ list_tables database_id (Some <$> ts)
      = Ok (tables_title database_id (PyList.len ts)
            +:+ (if bool_decide (ts = [])
                 then "*No tables found in this database.*" +:+ PyText.nl
                 else tables_head
                      +:+ String.concat "" (table_row <$> sorted))).
Proof.
  intros Hn%forallb_Forall_true Hd%forallb_Forall_true.
  unfold list_tables. rewrite format_tables_objects. simpl.
  destruct (sort_total_str table_sort_key false (table_info <$> ts))
    as [sorted Es].
  { apply Forall_fmap. eapply Forall_impl; [exact Hn|].
    intros t Ht. simpl. unfold table_sort_key.
    rewrite table_info_display_name. unfold named in Ht.
    destruct (Py.get t "display_name"); try done. by eexists. }
  rewrite Es. simpl. apply sort_spec in Es as [Hp Hs].
  exists sorted. split; [done|]. split; [done|].
  assert (PyList.len sorted = PyList.len ts) as ->
    by (unfold PyList.len; by rewrite Hp, length_fmap).
  destruct sorted as [|y sorted].
  - apply Permutation_nil_l in Hp. symmetry in Hp.
    apply fmap_nil_inv in Hp. subst ts.
    rewrite bool_decide_true by done. f_equal. unfold tables_title.
    by rewrite !string_app_assoc.
  - rewrite bool_decide_false
      by (intros ->; by apply Permutation_nil_r in Hp).
    rewrite table_rows_typed.
    + f_equal. unfold tables_title, tables_head.
      by rewrite !string_app_assoc.
    + rewrite Hp. apply Forall_fmap.
      apply Forall_forall. intros t Ht. simpl.
      rewrite Forall_forall in Hn, Hd.
      specialize (Hn t Ht). specialize (Hd t Ht). simpl in Hn, Hd.
      rewrite table_info_display_name, table_info_description.
      unfold named in Hn. unfold described, lowerable in Hd. split.
      * destruct (Py.get t "display_name"); try done. by eexists.
      * unfold Py.or_.
        destruct (Py.get t "description") as [|b|n|s]; simpl in *;
          try (rewrite (negb_true_iff _) in Hd; rewrite Hd); eauto.
        destruct (negb (String.eqb s "")); eauto.
Qed.

Lemma list_tables_renders_sorted_rows_witness :
  ∃ sorted,
    sorted ≡ₚ table_info <$> [people_table; orders_table]
    ∧ StronglySorted (sorted_by table_sort_key false) sorted
    ∧ list_tables 1 (Some <$> [people_table; orders_table])
      = Ok (tables_title 1 (PyList.len [people_table; orders_table])
            +:+ (if bool_decide ([people_table; orders_table] = [])
                 then "*No tables found in this database.*" +:+ PyText.nl
                 else tables_head
                      +:+ String.concat "" (table_row <$> sorted))).
Proof.
  apply (list_tables_renders_sorted_rows 1 [people_table; orders_table]);
    vm_compute; reflexivity.
Defined.

(** What the listing of two tables looks like. *)
Example list_tables_example :
  list_tables 1 [Some people_table; Some orders_table]
  = Ok ("# Tables in Database 1" +:+ PyText.nl +:+ PyText.nl
        +:+ "**Total Tables:** 2" +:+ PyText.nl +:+ PyText.nl
        +:+ "| Table ID | Display Name | Description | Entity Type |"
        +:+ PyText.nl
        +:+ "|----------|--------------|-------------|--------------|"
        +:+ PyText.nl
        +:+ "| 5 | Orders | Paid \| open orders | entity/TransactionTable |"
        +:+ PyText.nl
        +:+ "| 2 | People | No description | entity/UserTable |"
        +:+ PyText.nl).
Proof. vm_compute. reflexivity. Qed.

Lemma replace_pipe_head (s : string) :
  match PyText.replace "|" "\|" s with
  | String c _ => Ascii.eqb c "|" = false
  | EmptyString => True
  end.
Proof.
  destruct s as [|c s]; [done|]. cbn [PyText.replace].
  destruct (Ascii.eqb c "|") eqn:E; [done|].
  by rewrite string_app_cons.
Qed.

(** X20.  The escaping of the name and the description cells leaves no bare
    pipe: in [s.replace("|", "\\|")] every ["|"] stands behind a
    backslash. *)
Theorem escaped_cell_has_no_bare_pipe (s : string) :
  pipes_escaped (PyText.replace "|" "\|" s) = true.
Proof.
  induction s as [|c s IH]; [done|]. cbn [PyText.replace].
  destruct (Ascii.eqb c "|") eqn:E.
  - exact IH.
  - rewrite string_app_cons.
    change ("" +:+ PyText.replace "|" "\|" s)
      with (PyText.replace "|" "\|" s).
    pose proof (replace_pipe_head s) as Hh.
    destruct (PyText.replace "|" "\|" s) as [|c' r];
      cbn [pipes_escaped]; rewrite E; [done|].
    cbn [pipes_escaped] in IH. rewrite Hh in IH.
    rewrite Hh, andb_false_r. exact IH.
Qed.

(** ** The gateway of the top-level server *)

Section LegacyGateway.

Variable env : Legacy.Environment.

Lemma configured_login :
  Legacy.configured env = true →
  Legacy.given (Legacy.METABASE_API_KEY env) = false →
  Legacy.given (Legacy.METABASE_USER_EMAIL env) = true
  ∧ Legacy.given (Legacy.METABASE_PASSWORD env) = true.
Proof.
  unfold Legacy.configured. intros H Hk. rewrite Hk in H. revert H.
  destruct (Legacy.given (Legacy.METABASE_URL env)),
    (Legacy.given (Legacy.METABASE_USER_EMAIL env)),
    (Legacy.given (Legacy.METABASE_PASSWORD env)); simpl; done.
Qed.

Lemma uses_api_key_given :
  Legacy.uses_api_key env = Legacy.given (Legacy.METABASE_API_KEY env).
Proof.
  unfold Legacy.uses_api_key, Legacy.auth_method, Legacy.api_key.
  by destruct (Legacy.given _) eqn:E.
Qed.

(** Once [request] has its headers it makes one call, with them, and
    leaves the token alone. *)
Lemma request_after_headers (method path : string) (st st' : Legacy.state)
    (headers : dict) :
  Legacy._get_headers env st = (Legacy.Returns headers, st') →
  (Legacy.request env method path st).2
  = {| Legacy.session_token := Legacy.session_token st';
       Legacy.wire := Legacy.wire st';
       Legacy.sent :=
         Legacy.request_call env method path headers :: Legacy.sent st' |}
  ∧ ∀ msg, (Legacy.request env method path st).1
           ≠ Legacy.Raises (Legacy.ValueError msg).
Proof.
  intros H. unfold Legacy.request. rewrite H.
  unfold Legacy.send, Legacy.request_call. cbv zeta.
  destruct (Legacy.wire st' _) as [r|e]; [|done].
  destruct (negb _).
  - unfold Legacy.error_data, Legacy.json.
    destruct (negb _); [|done]. by destruct (Legacy.decoded r).
  - unfold Legacy.json. by destruct (Legacy.decoded r).
Qed.

Lemma request_without_headers (method path : string)
    (st st' : Legacy.state) (f : Legacy.failure) :
  Legacy._get_headers env st = (Legacy.Raises f, st') →
  Legacy.request env method path st = (Legacy.Raises f, st').
Proof. intros H. unfold Legacy.request. by rewrite H. Qed.

Lemma headers_with_api_key (st : Legacy.state) :
  Legacy.given (Legacy.METABASE_API_KEY env) = true →
  Legacy._get_headers env st
  = (Legacy.Returns
       (<["X-API-KEY" :=
            PStr (default "" (Legacy.METABASE_API_KEY env))]>
          ({[ "Content-Type" := PStr "application/json" ]} : dict)), st).
Proof.
  intros H. unfold Legacy._get_headers. by rewrite uses_api_key_given, H.
Qed.

Lemma headers_with_token (st : Legacy.state) :
  Legacy.given (Legacy.METABASE_API_KEY env) = false →
  Py.truthy (Legacy.session_token st) = true →
  Legacy._get_headers env st
  = (Legacy.Returns
       (<["X-Metabase-Session" := Legacy.session_token st]>
          ({[ "Content-Type" := PStr "application/json" ]} : dict)), st).
Proof.
  intros Hk Ht. unfold Legacy._get_headers.
  rewrite uses_api_key_given, Hk. unfold Legacy.auth_method.
  rewrite Hk, Ht. simpl. by rewrite Ht.
Qed.

(** Logging in, for a client that has no key and no token. *)
Lemma headers_login (st : Legacy.state) :
  Legacy.configured env = true →
  Legacy.given (Legacy.METABASE_API_KEY env) = false →
  Py.truthy (Legacy.session_token st) = false →
  Legacy._get_headers env st
  = (let st' :=
       {| Legacy.session_token := Legacy.session_token st;
          Legacy.wire := Legacy.wire st;
          Legacy.sent := Legacy.login_call env :: Legacy.sent st |} in
     match Legacy.wire st (length (Legacy.sent st)) with
     | Legacy.Failed e => (Legacy.Raises (Legacy.Raised (Httpx e)), st')
     | Legacy.Received response =>
         if negb (Legacy.status_code response =? 200) then
           match Legacy.error_data response with
           | Legacy.Returns error_data =>
               (Legacy.Raises
                  (Legacy.AuthenticationFailed
                     (Legacy.status_code response) error_data), st')
           | Legacy.Raises f => (Legacy.Raises f, st')
           end
         else
           match Legacy.json response with
           | Legacy.Returns (Legacy.Object session_data) =>
               let token := Py.get session_data "id" in
               let st'' :=
                 {| Legacy.session_token := token;
                    Legacy.wire := Legacy.wire st;
                    Legacy.sent :=
                      Legacy.login_call env :: Legacy.sent st |} in
               if Py.truthy token then
                 (Legacy.Returns
                    (<["X-Metabase-Session" := token]>
                       ({[ "Content-Type" := PStr "application/json" ]}
                        : dict)), st'')
               else
                 (Legacy.Returns
                    ({[ "Content-Type" := PStr "application/json" ]}
                     : dict), st'')
           | Legacy.Returns _ =>
               (Legacy.Raises (Legacy.Raised AttributeError), st')
           | Legacy.Raises f => (Legacy.Raises f, st')
           end
     end).
Proof.
  intros Hc Hk Ht. destruct (configured_login Hc Hk) as [He Hp].
  unfold Legacy._get_headers.
  rewrite uses_api_key_given, Hk. unfold Legacy.auth_method.
  rewrite Hk, Ht. simpl.
  unfold Legacy._get_session_token.
  rewrite uses_api_key_given, Hk, He, Hp. simpl.
  fold (Legacy.login_call env).
  destruct (Legacy.wire st _) as [r|e]; [|done].
  destruct (negb (Legacy.status_code r =? 200)).
  - by destruct (Legacy.error_data r).
  - destruct (Legacy.json r) as [[d|items|v]|f]; simpl; try done.
Qed.

End LegacyGateway.

(** X21.  With an API key every request is one call, sent with the key in
    [X-API-KEY]; the client never logs in and holds no token. *)
Theorem api_key_requests_never_log_in (env : Legacy.Environment)
    (method path : string) (st : Legacy.state) :
  Legacy.given (Legacy.METABASE_API_KEY env) = true →
  Legacy.sent (Legacy.request env method path st).2
  = Legacy.request_call env method path
      (<["X-API-KEY" := PStr (default "" (Legacy.METABASE_API_KEY env))]>
         ({[ "Content-Type" := PStr "application/json" ]} : dict))
    :: Legacy.sent st
  ∧ Legacy.session_token (Legacy.request env method path st).2
    = Legacy.session_token st.
Proof.
  intros H.
  destruct (request_after_headers env method path st st _
              (headers_with_api_key env st H)) as [-> _].
  done.
Qed.

Lemma api_key_requests_never_log_in_witness :
  Legacy.sent (Legacy.request Legacy.with_key "GET" "/collection"
                 (Legacy.client PNone Legacy.refused)).2
  = Legacy.request_call Legacy.with_key "GET" "/collection"
      (<["X-API-KEY" :=
           PStr (default "" (Legacy.METABASE_API_KEY Legacy.with_key))]>
         ({[ "Content-Type" := PStr "application/json" ]} : dict))
    :: Legacy.sent (Legacy.client PNone Legacy.refused)
  ∧ Legacy.session_token
      (Legacy.request Legacy.with_key "GET" "/collection"
         (Legacy.client PNone Legacy.refused)).2
    = Legacy.session_token (Legacy.client PNone Legacy.refused).
Proof.
  apply (api_key_requests_never_log_in Legacy.with_key). reflexivity.
Defined.

(** X22.  A token the client holds is never renewed.  Without an API key, a
    request of a client that holds a token is one call, sent with that
    token in [X-Metabase-Session], and the client keeps the token,
    whatever the answer is: also when the token is refused. *)
Theorem held_token_is_sent_and_kept (env : Legacy.Environment)
    (method path : string) (st : Legacy.state) :
  Legacy.given (Legacy.METABASE_API_KEY env) = false →
  Py.truthy (Legacy.session_token st) = true →
  Legacy.sent (Legacy.request env method path st).2
  = Legacy.request_call env method path
      (<["X-Metabase-Session" := Legacy.session_token st]>
         ({[ "Content-Type" := PStr "application/json" ]} : dict))
    :: Legacy.sent st
  ∧ Legacy.session_token (Legacy.request env method path st).2
    = Legacy.session_token st.
Proof.
  intros Hk Ht.
  destruct (request_after_headers env method path st st _
              (headers_with_token env st Hk Ht)) as [-> _].
  done.
Qed.

Lemma held_token_is_sent_and_kept_witness :
  Legacy.sent (Legacy.request Legacy.with_login "GET" "/collection"
                 (Legacy.client (PStr "t0k3n") Legacy.refused)).2
  = Legacy.request_call Legacy.with_login "GET" "/collection"
      (<["X-Metabase-Session" :=
           Legacy.session_token (Legacy.client (PStr "t0k3n") Legacy.refused)]>
         ({[ "Content-Type" := PStr "application/json" ]} : dict))
    :: Legacy.sent (Legacy.client (PStr "t0k3n") Legacy.refused)
  ∧ Legacy.session_token
      (Legacy.request Legacy.with_login "GET" "/collection"
         (Legacy.client (PStr "t0k3n") Legacy.refused)).2
    = Legacy.session_token (Legacy.client (PStr "t0k3n") Legacy.refused).
Proof.
  apply (held_token_is_sent_and_kept Legacy.with_login); reflexivity.
Defined.

(** X23.  The first request logs in.  Without an API key and without a
    token, when the login is answered with status 200 and an object whose
    [id] is a string of unreserved characters, not empty, the client makes
    two calls, the login and then the request with that string in
    [X-Metabase-Session], and holds it as its token afterwards. *)
Theorem first_request_logs_in (env : Legacy.Environment)
    (method path : string) (st : Legacy.state) (r : Legacy.response)
    (session_data : dict) (token : string) :
  Legacy.configured env = true →
  Legacy.given (Legacy.METABASE_API_KEY env) = false →
  Py.truthy (Legacy.session_token st) = false →
  Legacy.wire st (length (Legacy.sent st)) = Legacy.Received r →
  Legacy.status_code r = 200 →
  Legacy.decoded r = Some (Legacy.Object session_data) →
  session_data !! "id" = Some (PStr token) →
  String.eqb token "" = false →
  unreserved token = true →
  Legacy.sent (Legacy.request env method path st).2
  = [Legacy.request_call env method path
       (<["X-Metabase-Session" := PStr token]>
          ({[ "Content-Type" := PStr "application/json" ]} : dict));
     Legacy.login_call env] ++ Legacy.sent st
  ∧ Legacy.session_token (Legacy.request env method path st).2 = PStr token.
Proof.
  intros Hc Hk Ht Hw Hs Hd Hid Hne _.
  pose proof (headers_login env st Hc Hk Ht) as Hh.
  rewrite Hw, Hs in Hh. unfold Legacy.json in Hh. rewrite Hd in Hh.
  simpl in Hh. unfold Py.get in Hh. rewrite Hid in Hh. simpl in Hh.
  rewrite Hne in Hh. simpl in Hh.
  destruct (request_after_headers env method path st _ _ Hh) as [-> _].
  done.
Qed.

Lemma first_request_logs_in_witness :
  Legacy.sent
    (Legacy.request Legacy.with_login "GET" "/collection"
       (Legacy.fresh_client
          (Legacy.ok (Legacy.Object {[ "id" := PStr "t0k3n" ]}))
          Legacy.refused)).2
  = [Legacy.request_call Legacy.with_login "GET" "/collection"
       (<["X-Metabase-Session" := PStr "t0k3n"]>
          ({[ "Content-Type" := PStr "application/json" ]} : dict));
     Legacy.login_call Legacy.with_login]
    ++ Legacy.sent
         (Legacy.fresh_client
            (Legacy.ok (Legacy.Object {[ "id" := PStr "t0k3n" ]}))
            Legacy.refused)
  ∧ Legacy.session_token
      (Legacy.request Legacy.with_login "GET" "/collection"
         (Legacy.fresh_client
            (Legacy.ok (Legacy.Object {[ "id" := PStr "t0k3n" ]}))
            Legacy.refused)).2
    = PStr "t0k3n".
Proof.
  apply (first_request_logs_in Legacy.with_login "GET" "/collection" _
           {| Legacy.status_code := 200; Legacy.content := "{...}";
              Legacy.decoded :=
                Some (Legacy.Object {[ "id" := PStr "t0k3n" ]}) |}
           {[ "id" := PStr "t0k3n" ]} "t0k3n");
    reflexivity.
Defined.

(** X24.  A login that fails stops the request.  Without an API key and without
    a token, when the login gets no response or a status other than 200,
    the request raises; the login is the only call made, the request
    itself is not sent, and the client still has no token. *)
Theorem failed_login_sends_no_request (env : Legacy.Environment)
    (method path : string) (st : Legacy.state) :
  Legacy.configured env = true →
  Legacy.given (Legacy.METABASE_API_KEY env) = false →
  Py.truthy (Legacy.session_token st) = false →
  (∀ r, Legacy.wire st (length (Legacy.sent st)) = Legacy.Received r →
        Legacy.status_code r ≠ 200) →
  (∃ f, (Legacy.request env method path st).1 = Legacy.Raises f)
  ∧ Legacy.sent (Legacy.request env method path st).2
    = Legacy.login_call env :: Legacy.sent st
  ∧ Legacy.session_token (Legacy.request env method path st).2
    = Legacy.session_token st.
Proof.
  intros Hc Hk Ht Hw.
  pose proof (headers_login env st Hc Hk Ht) as Hh. cbv zeta in Hh.
  destruct (Legacy.wire st (length (Legacy.sent st))) as [r|e].
  - rewrite (proj2 (Z.eqb_neq _ _) (Hw r eq_refl)) in Hh. simpl in Hh.
    destruct (Legacy.error_data r) as [d|f];
      rewrite (request_without_headers env _ _ _ _ _ Hh); simpl; eauto.
  - rewrite (request_without_headers env _ _ _ _ _ Hh). simpl. eauto.
Qed.

Lemma failed_login_sends_no_request_witness :
  (∃ f, (Legacy.request Legacy.with_login "GET" "/collection"
           (Legacy.client PNone Legacy.refused)).1 = Legacy.Raises f)
  ∧ Legacy.sent (Legacy.request Legacy.with_login "GET" "/collection"
                   (Legacy.client PNone Legacy.refused)).2
    = Legacy.login_call Legacy.with_login
      :: Legacy.sent (Legacy.client PNone Legacy.refused)
  ∧ Legacy.session_token
      (Legacy.request Legacy.with_login "GET" "/collection"
         (Legacy.client PNone Legacy.refused)).2
    = Legacy.session_token (Legacy.client PNone Legacy.refused).
Proof.
  apply (failed_login_sends_no_request Legacy.with_login); try reflexivity.
  intros r [= <-]. simpl. lia.
Defined.

(** X25.  A login without a token goes on without one.  When the login is
    answered with status 200 and an object that has no [id] (or a null or
    empty one), the request is sent all the same, with no credential among
    its headers, and the client still has no token: its next request will
    log in again. *)
Theorem login_without_id_goes_unauthenticated (env : Legacy.Environment)
    (method path : string) (st : Legacy.state) (r : Legacy.response)
    (session_data : dict) :
  Legacy.configured env = true →
  Legacy.given (Legacy.METABASE_API_KEY env) = false →
  Py.truthy (Legacy.session_token st) = false →
  Legacy.wire st (length (Legacy.sent st)) = Legacy.Received r →
  Legacy.status_code r = 200 →
  Legacy.decoded r = Some (Legacy.Object session_data) →
  Py.truthy (Py.get session_data "id") = false →
  Legacy.sent (Legacy.request env method path st).2
  = [Legacy.request_call env method path
       ({[ "Content-Type" := PStr "application/json" ]} : dict);
     Legacy.login_call env] ++ Legacy.sent st
  ∧ Py.truthy (Legacy.session_token (Legacy.request env method path st).2)
    = false.
Proof.
  intros Hc Hk Ht Hw Hs Hd Hid.
  pose proof (headers_login env st Hc Hk Ht) as Hh.
  rewrite Hw, Hs in Hh. unfold Legacy.json in Hh. rewrite Hd in Hh.
  simpl in Hh. rewrite Hid in Hh.
  destruct (request_after_headers env method path st _ _ Hh) as [-> _].
  done.
Qed.

Lemma login_without_id_goes_unauthenticated_witness :
  Legacy.sent
    (Legacy.request Legacy.with_login "GET" "/collection"
       (Legacy.fresh_client (Legacy.ok (Legacy.Object ∅)) Legacy.refused)).2
  = [Legacy.request_call Legacy.with_login "GET" "/collection"
       ({[ "Content-Type" := PStr "application/json" ]} : dict);
     Legacy.login_call Legacy.with_login]
    ++ Legacy.sent
         (Legacy.fresh_client (Legacy.ok (Legacy.Object ∅)) Legacy.refused)
  ∧ Py.truthy
      (Legacy.session_token
         (Legacy.request Legacy.with_login "GET" "/collection"
            (Legacy.fresh_client (Legacy.ok (Legacy.Object ∅))
               Legacy.refused)).2)
    = false.
Proof.
  apply (login_without_id_goes_unauthenticated Legacy.with_login "GET"
           "/collection" _
           {| Legacy.status_code := 200; Legacy.content := "{...}";
              Legacy.decoded := Some (Legacy.Object ∅) |} ∅);
    reflexivity.
Defined.

(** X26.  The check at import makes the later one idle.  In a module that has
    loaded, no request raises the [ValueError] that asks for an email and
    a password. *)
Theorem configured_client_never_raises_value_error
    (env : Legacy.Environment) (method path : string) (st : Legacy.state)
    (msg : string) :
  Legacy.configured env = true →
  (Legacy.request env method path st).1
  ≠ Legacy.Raises (Legacy.ValueError msg).
Proof.
  intros Hc.
  destruct (Legacy.given (Legacy.METABASE_API_KEY env)) eqn:Hk.
  { by apply (request_after_headers env method path st st _
                (headers_with_api_key env st Hk)). }
  destruct (Py.truthy (Legacy.session_token st)) eqn:Ht.
  { by apply (request_after_headers env method path st st _
                (headers_with_token env st Hk Ht)). }
  pose proof (headers_login env st Hc Hk Ht) as Hh. cbv zeta in Hh.
  destruct (Legacy.wire st (length (Legacy.sent st))) as [r|e].
  - destruct (negb (Legacy.status_code r =? 200)).
    + unfold Legacy.error_data, Legacy.json in Hh.
      destruct (negb (String.eqb _ _)), (Legacy.decoded r);
        by rewrite (request_without_headers env _ _ _ _ _ Hh).
    + unfold Legacy.json in Hh.
      destruct (Legacy.decoded r) as [[d|items|v]|];
        try by rewrite (request_without_headers env _ _ _ _ _ Hh).
      destruct (Py.truthy (Py.get d "id"));
        by apply (request_after_headers env method path st _ _ Hh).
  - by rewrite (request_without_headers env _ _ _ _ _ Hh).
Qed.

(** ** More on the request gateway *)

(** X27.  A response with a status outside 2xx, whose body is empty or is JSON,
    makes the gateway raise an [Exception] whose message contains the
    status code and the body of the response. *)
Theorem failed_response_is_reported (settings : Settings)
    (method path : string) (w : world) (r : response) :
  wire w (length (sent w)) = Received r →
  MetabaseClient.is_success r = false →
  content r = "" ∨ is_Some (decoded r) →
  ∃ msg,
    (MetabaseClient.request settings method path w).1 = Raise (Exception msg)
    ∧ PyStr.contains (pretty (status_code r)) msg = true
    ∧ PyStr.contains (content r) msg = true.
Proof.
  intros Hw Hs Hb. rewrite request_run. simpl. rewrite Hw.
  rewrite (api_error_message settings _ r Hs Hb).
  eexists. split; [reflexivity|]. split; apply contains_spec.
  - by exists "API request failed with status ", (": " +:+ content r).
  - exists ("API request failed with status " +:+ pretty (status_code r)
            +:+ ": "), "".
    by rewrite string_app_nil_r, !string_app_assoc.
Qed.

Lemma failed_response_is_reported_witness :
  ∃ msg,
    (MetabaseClient.request cfg "GET" "/card/7"
       (always (Received {| status_code := 404; content := "{}";
                            decoded := Some (PNonList "{}") |}))).1
    = Raise (Exception msg)
    ∧ PyStr.contains (pretty 404) msg = true
    ∧ PyStr.contains "{}" msg = true.
Proof.
  apply (failed_response_is_reported cfg "GET" "/card/7" _
           {| status_code := 404; content := "{}";
              decoded := Some (PNonList "{}") |}).
  - reflexivity.
  - reflexivity.
  - right. by eexists.
Defined.

(** X28.  The gateway returns a value exactly when the request it sent is
    answered with a 2xx status and a JSON body, and the value is that body,
    decoded. *)
Theorem request_returns_the_decoded_success (settings : Settings)
    (method path : string) (w : world) (v : payload) :
  (MetabaseClient.request settings method path w).1 = Ok v
  ↔ ∃ r, wire w (length (sent w)) = Received r
         ∧ MetabaseClient.is_success r = true
         ∧ decoded r = Some v.
Proof.
  rewrite request_run. simpl. split.
  - destruct (wire w (length (sent w))) as [r|[]]; simpl; try done.
    intros H. exists r. split; [done|]. revert H.
    unfold MetabaseClient.json.
    destruct (MetabaseClient.is_success r); simpl.
    + destruct (decoded r); [|done]. by intros [= ->].
    + destruct (negb (String.eqb _ _)); [|done].
      by destruct (decoded r).
  - intros (r & -> & Hs & Hd). simpl. unfold MetabaseClient.json.
    by rewrite Hs, Hd.
Qed.

Section TrailingSlash.

Lemma rev_app_app (s t acc : string) :
  String.rev_app (s +:+ t) acc = String.rev_app t (String.rev_app s acc).
Proof.
  revert acc. induction s as [|c s IH]; intros acc; [done|].
  rewrite string_app_cons. simpl. apply IH.
Qed.

Lemma rstrip_char_snoc (x : ascii) (s : string) :
  PyStr.rstrip_char x (s +:+ String x "") = PyStr.rstrip_char x s.
Proof.
  unfold PyStr.rstrip_char, String.rev. rewrite rev_app_app. simpl.
  by rewrite Ascii.eqb_refl.
Qed.

End TrailingSlash.

(** X29.  A slash at the end of [METABASE_URL] makes no difference: the requests
    go to the same URLs with it and without it. *)
Theorem trailing_slash_is_dropped (url key connect read : string) :
  MetabaseClient.base_url
    {| METABASE_URL := url +:+ "/"; METABASE_API_KEY := key;
       HTTP_CONNECT_TIMEOUT := connect; HTTP_READ_TIMEOUT := read |}
  = MetabaseClient.base_url
      {| METABASE_URL := url; METABASE_API_KEY := key;
         HTTP_CONNECT_TIMEOUT := connect; HTTP_READ_TIMEOUT := read |}.
Proof. unfold MetabaseClient.base_url. simpl. apply rstrip_char_snoc. Qed.

Lemma configured_client_never_raises_value_error_witness :
  ∃ f,
    (Legacy.request Legacy.with_login "GET" "/collection"
       (Legacy.client PNone Legacy.refused)).1 = Legacy.Raises f
    ∧ ∀ msg, f ≠ Legacy.ValueError msg.
Proof.
  assert (∃ f,
    (Legacy.request Legacy.with_login "GET" "/collection"
       (Legacy.client PNone Legacy.refused)).1 = Legacy.Raises f)
    as [f Hf] by (eexists; vm_compute; reflexivity).
  exists f. split; [exact Hf|]. intros msg ->.
  exact (configured_client_never_raises_value_error Legacy.with_login
           "GET" "/collection" (Legacy.client PNone Legacy.refused) msg
           eq_refl Hf).
Defined.
